(** * Ozon seller scripts: paginated fetch, chunking and row alignment

    A shallow embedding of the batch scripts that copy marketplace data into
    a spreadsheet.  Every script is a Module named after its file; Python
    functions keep their names.  Network calls are explicit parameters (a
    transport that maps the number of requests already made and the request
    to a response), so every function below is a pure Rocq function. *)

From Stdlib Require Import ZArith QArith Qround Lia Ascii String.
From stdpp Require Import base option list strings gmap pretty.

#[local] Set Warnings "-register-all".
#[local] Open Scope string_scope.
#[local] Open Scope list_scope.
#[local] Open Scope Z_scope.

(** ** The part of the Python runtime the scripts rely on *)

(** JSON documents as [response.json()] returns them.  [F] is the type of
    Python floats. *)
Inductive value_ (F : Type) : Type :=
  | VNone
  | VBool (b : bool)
  | VInt (z : Z)
  | VFloat (f : F)
  | VStr (s : string)
  | VList (l : list (value_ F))
  | VDict (d : gmap string (value_ F)).

Arguments VNone {F}.
Arguments VBool {F} b.
Arguments VInt {F} z.
Arguments VFloat {F} f.
Arguments VStr {F} s.
Arguments VList {F} l.
Arguments VDict {F} d.

(** Floating point and the built-in conversions are not part of the
    repository: they are an interface.  A partial operation returns [None]
    where Python raises. *)
Class PyFloat := {
  float : Type;
  float_zero : float;                      (* 0.0 *)
  float_one : float;                       (* 1.0 *)
  float_of_int : Z -> option float;        (* float(n); None: OverflowError *)
  float_of_str : string -> option float;   (* float(s); None: ValueError *)
  int_of_str : string -> option Z;         (* int(s); None: ValueError *)
  float_ceil : float -> option Z;          (* math.ceil(x); None: inf or nan *)
  float_trunc : float -> option Z;         (* int(x); None: inf or nan *)
  float_isnan : float -> bool;
  float_is_zero : float -> bool;           (* x == 0 *)
  float_eqb : float -> float -> bool;      (* x == y *)
  float_eq_int : float -> Z -> bool;       (* x == n *)
  float_mul : float -> float -> float;
  float_div_int : float -> Z -> float;     (* x / n, n a nonzero literal *)
  int_add_float : Z -> float -> option float; (* n + x; None: OverflowError *)
  float_round2 : float -> float;           (* round(x, 2) *)
  float_fmt2 : float -> string;            (* f"{x:.2f}" *)
  float_str : float -> string;             (* str(x) *)
  repr_container : value_ float -> string; (* str() of a list or dict *)
}.

Abbreviation value := (value_ float).
Abbreviation item := (gmap string (value_ float)).

(** What a Python call produces: a value, or an exception that leaves the
    function. *)
Inductive outcome (E A : Type) : Type :=
  | Return (a : A)
  | Raise (e : E).
Arguments Return {E A} a.
Arguments Raise {E A} e.

Module Py.

(** [str.strip()] with no argument removes the characters for which
    [str.isspace()] holds.  A [string] is the UTF-8 encoding of the Python
    string; [ws_prefix] recognises one encoded whitespace character at the
    head of a byte list, [ws_suffix] one at the head of the reversed
    list. *)
Definition byte_is_space (n : N) : bool :=
  ((9 <=? n) && (n <=? 13) || (28 <=? n) && (n <=? 32))%N.

Definition ws_prefix (bs : list N) : option (list N) :=
  match bs with
  | 194%N :: 133%N :: r => Some r                       (* U+0085 *)
  | 194%N :: 160%N :: r => Some r                       (* U+00A0 *)
  | 225%N :: 154%N :: 128%N :: r => Some r              (* U+1680 *)
  | 226%N :: 128%N :: c :: r =>
      if ((128 <=? c) && (c <=? 138) || (c =? 168) || (c =? 169)
          || (c =? 175))%N
      then Some r else None                   (* U+2000-200A, 2028/9, 202F *)
  | 226%N :: 129%N :: 159%N :: r => Some r              (* U+205F *)
  | 227%N :: 128%N :: 128%N :: r => Some r              (* U+3000 *)
  | c :: r => if byte_is_space c then Some r else None
  | [] => None
  end.

Definition ws_suffix (rbs : list N) : option (list N) :=
  match rbs with
  | 133%N :: 194%N :: r => Some r
  | 160%N :: 194%N :: r => Some r
  | 128%N :: 154%N :: 225%N :: r => Some r
  | 159%N :: 129%N :: 226%N :: r => Some r
  | 128%N :: 128%N :: 227%N :: r => Some r
  | c :: 128%N :: 226%N :: r =>
      if ((128 <=? c) && (c <=? 138) || (c =? 168) || (c =? 169)
          || (c =? 175))%N
      then Some r
      else if byte_is_space c then Some (128%N :: 226%N :: r) else None
  | c :: r => if byte_is_space c then Some r else None
  | [] => None
  end.

Fixpoint strip_with (one : list N -> option (list N)) (fuel : nat)
    (bs : list N) : list N :=
  match fuel with
  | O => bs
  | S fuel' =>
      match one bs with
      | Some r => strip_with one fuel' r
      | None => bs
      end
  end.

Definition bytes_of (s : string) : list N :=
  N_of_ascii <$> list_ascii_of_string s.
Definition of_bytes (bs : list N) : string :=
  string_of_list_ascii (ascii_of_N <$> bs).

Definition strip (s : string) : string :=
  let bs := bytes_of s in
  let l := strip_with ws_prefix (length bs) bs in
  let r := strip_with ws_suffix (length l) (reverse l) in
  of_bytes (reverse r).

(** Truth value of a string: non-empty. *)
Definition nonempty (s : string) : bool :=
  match s with EmptyString => false | _ => true end.

(** [lst[i:j]] for [0 <= i <= j]. *)
Definition slice {A} (lst : list A) (i j : nat) : list A :=
  take (j - i) (drop i lst).

(** The values of [range(0, stop, step)] for [step > 0], produced the way
    the iterator does: start at 0, add [step] while below [stop].  [stop]
    iterations always suffice. *)
Fixpoint range_from (fuel i stop step : nat) : list nat :=
  match fuel with
  | O => []
  | S fuel' =>
      if (i <? stop)%nat then i :: range_from fuel' (i + step) stop step
      else []
  end.

(** [range(0, stop, step)]; [None] is the ValueError for a zero step. *)
Definition range (stop step : nat) : option (list nat) :=
  if (step =? 0)%nat then None else Some (range_from stop 0 stop step).

Section Values.
Context `{PyFloat}.

(** [str(v)]. *)
Definition str (v : value) : string :=
  match v with
  | VNone => "None"
  | VBool true => "True"
  | VBool false => "False"
  | VInt z => pretty z
  | VFloat f => float_str f
  | VStr s => s
  | VList _ | VDict _ => repr_container v
  end.

(** [bool(v)]. *)
Definition truthy (v : value) : bool :=
  match v with
  | VNone => false
  | VBool b => b
  | VInt z => negb (z =? 0)%Z
  | VFloat f => negb (float_is_zero f)
  | VStr s => nonempty s
  | VList l => match l with [] => false | _ => true end
  | VDict d => negb (bool_decide (dom d = ∅))
  end.

Definition int_of_bool (b : bool) : Z := if b then 1 else 0.

(** [a == b] on the hashable values (the ones that can be dict keys);
    numbers compare across bool, int and float. *)
Definition key_eqb (a b : value) : bool :=
  match a, b with
  | VNone, VNone => true
  | VStr s, VStr t => bool_decide (s = t)
  | VBool x, VBool y => bool_decide (x = y)
  | VBool x, VInt n | VInt n, VBool x => (int_of_bool x =? n)%Z
  | VInt m, VInt n => (m =? n)%Z
  | VFloat f, VFloat g => float_eqb f g
  | VFloat f, VInt n | VInt n, VFloat f => float_eq_int f n
  | VFloat f, VBool x | VBool x, VFloat f => float_eq_int f (int_of_bool x)
  | _, _ => false
  end.

Definition hashable (v : value) : bool :=
  match v with
  | VList _ | VDict _ => false
  | _ => true
  end.

(** [d.get(k)]: a missing key reads as None. *)
Definition get (d : item) (k : string) : value :=
  default VNone (d !! k).

(** [d.get(k, dflt)]. *)
Definition get_or (d : item) (k : string) (dflt : value) : value :=
  default dflt (d !! k).
End Values.

(** A dict whose keys are compared with [eqb], in insertion order:
    assigning to a present key keeps its position and replaces the
    value. *)
Section Dict.
Context {K V : Type} (eqb : K -> K -> bool).

Fixpoint dict_set (d : list (K * V)) (k : K) (v : V) : list (K * V) :=
  match d with
  | [] => [(k, v)]
  | (k', v') :: d' =>
      if eqb k' k then (k', v) :: d' else (k', v') :: dict_set d' k v
  end.

Fixpoint dict_get (d : list (K * V)) (k : K) : option V :=
  match d with
  | [] => None
  | (k', v') :: d' => if eqb k' k then Some v' else dict_get d' k
  end.
End Dict.

(** [for x in xs: s = body(s, x)], where [body] may raise ([None]). *)
Fixpoint for_ {A S : Type} (xs : list A) (s : S)
    (body : S -> A -> option S) : option S :=
  match xs with
  | [] => Some s
  | x :: xs' =>
      match body s x with
      | Some s' => for_ xs' s' body
      | None => None
      end
  end.

End Py.

(** Exceptions that leave a function of the scripts. *)
Inductive exn : Type :=
  | ValueError | IndexError | TypeError | OverflowError
  | RuntimeError | RequestException.

(** Calls to the spreadsheet, in the order a script makes them; [Row] is
    the type of one row of the matrix written. *)
Inductive sheet_call (Row : Type) : Type :=
  | Acell (label : string)
  | BatchClear (ranges : list string)
  | Update (range_name : string) (values : list Row).
Arguments Acell {Row} label.
Arguments BatchClear {Row} ranges.
Arguments Update {Row} range_name values.

(** ** 001.Product_offer_id.py *)
Module Product_offer_id.

(** [read_api_credentials(file_path)]; [lines] is [file.readlines()]. *)
Definition read_api_credentials (lines : list string)
    : outcome exn (string * string * string * string) :=
  let lines := Py.strip <$> filter (fun line => Py.nonempty (Py.strip line) = true) lines in
  match lines with
  | client_id :: api_key :: spreadsheet_id :: sheet_name :: _ =>
      Return (api_key, client_id, spreadsheet_id, sheet_name)
  | _ => Raise ValueError
  end.

Section Fetch.
Context {Item : Type}.

(** [result] of one response: [result.get('items', [])] and
    [result.get('last_id', "")]. *)
Record page := { items : list Item; last_id : string }.

(** [requests.post(...)]: a response with its status code and parsed
    body, or an exception of the transport or of [response.json()]. *)
Inductive response :=
  | Response (status_code : Z) (result : page)
  | Failure (e : exn).

(** The [n]-th request, sent with cursor [last_id]. *)
Variable post : nat -> string -> response.

Definition limit : nat := 1000.

(** The body of [while True], [n] requests having been made.  [None]:
    the loop is still running when [fuel] iterations are over. *)
Fixpoint get_all_products_loop (fuel n : nat) (all_products : list Item)
    (last_id' : string) : option (outcome exn (list Item)) :=
  match fuel with
  | O => None
  | S fuel' =>
      match post n last_id' with
      | Failure e => Some (Raise e)
      | Response status_code result =>
          if (status_code =? 200)%Z then
            let products := items result in
            let all_products := all_products ++ products in
            if (length products <? limit)%nat then
              Some (Return all_products)
            else
              let last_id' := last_id result in
              if negb (Py.nonempty last_id') then Some (Return all_products)
              else get_all_products_loop fuel' (S n) all_products last_id'
          else Some (Return all_products)
      end
  end.

Definition get_all_products (fuel : nat)
    : option (outcome exn (list Item)) :=
  get_all_products_loop fuel 0 [] "".
End Fetch.
Arguments page : clear implicits.
Arguments response : clear implicits.

(** [adjust_sheet_size] once the sheet is found, [current_rows] being its
    [rowCount]: the [length] of the appendDimension request, [None] when
    none is sent. *)
Definition adjust_sheet_size (current_rows required_rows : Z) : option Z :=
  if (current_rows <? required_rows + 4)%Z
  then Some (required_rows + 4 - current_rows)
  else None.

(** The row range of a deleteDimension request: 0-based, [endIndex]
    excluded. *)
Record delete_dimension := { startIndex : Z; endIndex : Z }.

(** [remove_empty_rows_after_data] for a sheet that exists, [sheet_id]
    being what [get_sheet_id] returns for it and [total_rows] its
    [rowCount]: the request sent, [None] when none is.  A [sheetId] of 0
    fails the test [if not sheet_id]. *)
Definition remove_empty_rows_after_data (sheet_id : Z)
    (total_rows data_row_count : Z) : option delete_dimension :=
  if (sheet_id =? 0)%Z then None
  else
    let start_delete_row := data_row_count + 5 in
    if (start_delete_row <? total_rows)%Z
    then Some {| startIndex := start_delete_row - 1; endIndex := total_rows |}
    else None.

End Product_offer_id.

(** ** ozon_app/servises/ozon_api_servise.py *)
Module OzonAPIService.

Section Fetch.
Context {Item : Type}.

Record page := { items : list Item; last_id : string }.

(** The [try] block: the parsed [result], or [None] when
    [requests.post], [raise_for_status] or [response.json()] raised. *)
Variable post : nat -> string -> option page.

Fixpoint get_all_products_loop (fuel n : nat) (all_products : list Item)
    (last_id' : string) (limit : Z) : option (outcome exn (list Item)) :=
  match fuel with
  | O => None
  | S fuel' =>
      match post n last_id' with
      | None => Some (Raise RuntimeError)
      | Some result =>
          let products := items result in
          let all_products := all_products ++ products in
          if (Z.of_nat (length products) <? limit)%Z
             || negb (Py.nonempty (last_id result))
          then Some (Return all_products)
          else get_all_products_loop fuel' (S n) all_products
                 (last_id result) limit
      end
  end.

(** [get_all_products(self, all_products=None, last_id="", limit=1000)];
    [all_products = None] starts from the empty list. *)
Definition get_all_products (fuel : nat) (all_products : option (list Item))
    (last_id' : string) (limit : Z) : option (outcome exn (list Item)) :=
  get_all_products_loop fuel 0 (default [] all_products) last_id' limit.
End Fetch.
Arguments page : clear implicits.

End OzonAPIService.

(** ** 005.FBO_Oborachivaemost.py *)
Module FBO_Oborachivaemost.

Record credentials := {
  client_id : string; api_key : string;
  spreadsheet_id : string; sheet_name : string }.

Definition read_api_credentials (lines : list string)
    : outcome exn credentials :=
  let lines := Py.strip <$> filter (fun line => Py.nonempty (Py.strip line) = true) lines in
  match lines with
  | l0 :: l1 :: l2 :: l3 :: _ =>
      Return {| client_id := l0; api_key := l1;
                spreadsheet_id := l2; sheet_name := l3 |}
  | _ => Raise ValueError
  end.

Section Fetch.
Context {Item : Type}.

(** The [try] block up to [data.get('items', [])]: the items of the
    page, or the RequestException of [requests.post] or
    [raise_for_status]. *)
Inductive response :=
  | Ok (items : list Item)
  | Failed.

(** What the loop does to the outside world, in order. *)
Inductive event :=
  | Request (offset : nat) (r : response)
  | Sleep (seconds : nat).

(** The [n]-th request, sent with [offset]. *)
Variable post : nat -> nat -> response.

Fixpoint get_all_ozon_data_loop (max_retries : Z) (fuel n : nat)
    (all_items : list Item) (offset : nat) (retry_count : Z)
    : option (outcome exn (list Item) * list event) :=
  match fuel with
  | O => None
  | S fuel' =>
      let r := post n offset in
      match r with
      | Ok items =>
          match items with
          | [] => Some (Return all_items, [Request offset r])
          | _ =>
              let all_items := all_items ++ items in
              let offset' := (offset + length items)%nat in
              if (length items <? 1000)%nat then
                Some (Return all_items, [Request offset r])
              else
                '(out, tr) ← get_all_ozon_data_loop max_retries fuel'
                               (S n) all_items offset' retry_count;
                Some (out, Request offset r :: Sleep 65 :: tr)
          end
      | Failed =>
          let retry_count := (retry_count + 1)%Z in
          if (retry_count >? max_retries)%Z then
            Some (Raise RequestException, [Request offset r])
          else
            '(out, tr) ← get_all_ozon_data_loop max_retries fuel'
                           (S n) all_items offset retry_count;
            Some (out, Request offset r :: Sleep 60 :: tr)
      end
  end.

(** [get_all_ozon_data(client_id, api_key, max_retries=3)] with the
    trace of its requests and sleeps. *)
Definition get_all_ozon_data (max_retries : Z) (fuel : nat)
    : option (outcome exn (list Item) * list event) :=
  get_all_ozon_data_loop max_retries fuel 0 [] 0%nat 0.
End Fetch.
Arguments response : clear implicits.
Arguments event : clear implicits.

Section Sheet.
Context `{PyFloat}.

Definition TURNOVER_GRADE_TRANSLATION : gmap string string :=
  list_to_map [
  ("GRADES_NONE", "ожидаются поставки");
  ("GRADES_NOSALES", "нет продаж");
  ("GRADES_GREEN", "хороший");
  ("GRADES_YELLOW", "средний");
  ("GRADES_RED", "плохой");
  ("GRADES_CRITICAL", "критич.");
  ("", "")].

(** [item.get('offer_id') == offer_id], [offer_id] a string. *)
Definition offer_id_is (offer_id : string) (it : item) : bool :=
  match Py.get it "offer_id" with
  | VStr s => bool_decide (s = offer_id)
  | _ => false
  end.

(** [math.ceil(v)] for a [v] that passed
    [isinstance(v, (int, float))]. *)
Definition math_ceil (v : value) : option Z :=
  match v with
  | VBool b => Some (Py.int_of_bool b)
  | VInt z => Some z
  | VFloat f => float_ceil f
  | _ => None
  end.

Definition is_int_or_float (v : value) : bool :=
  match v with
  | VBool _ | VInt _ | VFloat _ => true
  | _ => false
  end.

(** [row_data] for the result [found] of [next(..., None)]; [None]: an
    exception leaves the function. *)
Definition row_data (found : option item) : option (list value) :=
  match found with
  | Some it =>
      if Py.truthy (VDict it) then
        ak ← (if is_int_or_float (Py.get it "idc")
              then VInt <$> math_ceil (Py.get it "idc")
              else Some (VStr ""));
        al ← (let grade := Py.get_or it "turnover_grade" (VStr "") in
              if Py.hashable grade then
                Some (match grade with
                      | VStr g => default "" (TURNOVER_GRADE_TRANSLATION !! g)
                      | _ => ""
                      end)
              else None);
        Some [Py.get_or it "ads" (VStr ""); ak; VStr al]
      else Some [VStr ""; VStr ""; VStr ""]
  | None => Some [VStr ""; VStr ""; VStr ""]
  end.

(** The loop of [update_google_sheets(items, credentials)] over the
    cells [offer_ids] of column D: the result is [data_to_write], the
    matrix sent to columns AJ..AL. *)
Definition update_google_sheets (items : list item)
    (offer_ids : list string) : option (list (list value)) :=
  Py.for_ offer_ids [] (fun data_to_write offer_id =>
    let offer_id := Py.strip offer_id in
    let found := List.find (offer_id_is offer_id) items in
    row ← row_data found;
    Some (data_to_write ++ [row])).

(** The calls [update_google_sheets] makes to the worksheet once
    [data_to_write] is built, [start_row] being 5; [None]: a row
    raised, no call was made. *)
Definition update_google_sheets_calls (items : list item)
    (offer_ids : list string)
    : option (list (sheet_call (list value))) :=
  data_to_write ← update_google_sheets items offer_ids;
  Some [ BatchClear ["AJ5:AL" +:+ pretty (5 + length data_to_write)%nat];
         Update ("AJ5:AL" +:+ pretty (5 + length data_to_write - 1)%nat)
           data_to_write ].
End Sheet.

End FBO_Oborachivaemost.

(** ** 006.Stock_FBO_FBS.py *)
Module Stock_FBO_FBS.

(** [read_api_credentials(filename)]: the first four lines, whatever they
    hold; indexing a shorter file raises IndexError. *)
Definition read_api_credentials (lines : list string)
    : outcome exn (string * string * string * string) :=
  match lines with
  | l0 :: l1 :: l2 :: l3 :: _ =>
      Return (Py.strip l0, Py.strip l1, Py.strip l2, Py.strip l3)
  | _ => Raise IndexError
  end.

(** One entry of [item['stocks']] and one item of the stocks endpoint,
    with the fields the script indexes. *)
Record stock := { type : string; present : Z }.
Record stock_item := { product_id : Z; stocks : list stock }.
Record data := { items : list stock_item }.

(** [chunks = [product_ids[i:i + 1000] for i in range(0, len(product_ids),
    1000)] if product_ids else []]. *)
Definition chunks (product_ids : list Z) : list (list Z) :=
  match product_ids with
  | [] => []
  | _ =>
      (fun i => Py.slice product_ids i (i + 1000)) <$>
      default [] (Py.range (length product_ids) 1000)
  end.

(** [update_google_sheet(data, product_ids)]: the result is the pair
    [(rows_fbo, rows_fbs)] written to columns R and S. *)
Definition update_google_sheet (d : data) (product_ids : list Z)
    : list (list Z) * list (list Z) :=
  let stock_dict : gmap string (list stock) :=
    foldl (fun sd it => <[pretty (product_id it) := stocks it]> sd) ∅ (items d) in
  foldl (fun '(rows_fbo, rows_fbs) product_id =>
    let stocks := default [] (stock_dict !! pretty product_id) in
    let '(fbo_stock, fbs_stock) :=
      foldl (fun '(fbo_stock, fbs_stock) st =>
        if bool_decide (type st = "fbo") then (fbo_stock + present st, fbs_stock)
        else if bool_decide (type st = "fbs") then (fbo_stock, fbs_stock + present st)
        else (fbo_stock, fbs_stock)) (0, 0) stocks in
    (rows_fbo ++ [[fbo_stock]], rows_fbs ++ [[fbs_stock]]))
    ([], []) product_ids.

(** What [get_stock_data(chunk)] and the test [if stock_data:] make of
    one chunk.  Nothing in the script catches an exception.  The items
    of a body are taken to be well formed, as [data] has them: each with
    its 'product_id' and its 'stocks', each stock with its 'type' and
    'present'. *)
Inductive fetched :=
  | Body (stock_data : data)
      (* status 200 and a body that holds 'items' *)
  | Skipped
      (* another status ([None] is returned) or a falsy body *)
  | Raised (e : exn).
      (* [requests.post] or [response.json()] raises, or a truthy body
         holds no 'items' (KeyError of [stock_data['items']]) *)

Section Script.
(** The [n]-th chunk fetched. *)
Variable get_stock_data : nat -> list Z -> fetched.

(** The loop over [chunks]: [final_data['items']], or the exception
    that ends the script. *)
Fixpoint collect (chunks : list (list Z)) (n : nat)
    (final_items : list stock_item) : outcome exn (list stock_item) :=
  match chunks with
  | [] => Return final_items
  | chunk :: chunks' =>
      match get_stock_data n chunk with
      | Body stock_data =>
          collect chunks' (S n) (final_items ++ items stock_data)
      | Skipped => collect chunks' (S n) final_items
      | Raised e => Raise e
      end
  end.

(** The two [sheet.update] calls that end [update_google_sheet]. *)
Definition update_calls (d : data) (product_ids : list Z)
    : list (sheet_call (list Z)) :=
  let '(rows_fbo, rows_fbs) := update_google_sheet d product_ids in
  match rows_fbo with
  | [] => []
  | _ =>
      [ Update ("R5:R" +:+ pretty (5 + length rows_fbo - 1)%nat) rows_fbo;
        Update ("S5:S" +:+ pretty (5 + length rows_fbs - 1)%nat) rows_fbs ]
  end.

(** The script from [product_ids] on: the calls it makes to the sheet
    and the exception that ends it, [None] when it runs to its
    end. *)
Definition script (product_ids : list Z)
    : list (sheet_call (list Z)) * option exn :=
  let cleared :=
    match product_ids with
    | [] => []
    | _ => [BatchClear ["R5:R"; "S5:S"]]
    end in
  match collect (chunks product_ids) 0 [] with
  | Raise e => (cleared, Some e)
  | Return final_items =>
      let final_data := {| items := final_items |} in
      (cleared ++
       match items final_data with
       | [] => []
       | _ => update_calls final_data product_ids
       end, None)
  end.
End Script.

End Stock_FBO_FBS.

(** ** 008.FBO_Upravlenie_stocks.py *)
Module OzonAnalyticsStocks.

Record config := {
  client_id : string; api_key : string;
  spreadsheet_id : string; sheet_name : string }.

(** The configuration part of [__init__]; [lines] is [f.readlines()]. *)
Definition init (lines : list string) : outcome exn config :=
  let lines := Py.strip <$> filter (fun line => Py.nonempty (Py.strip line) = true) lines in
  match lines with
  | l0 :: l1 :: l2 :: l3 :: _ =>
      Return {| client_id := l0; api_key := l1;
                spreadsheet_id := l2; sheet_name := l3 |}
  | _ => Raise ValueError
  end.

Definition TURNOVER_GRADE_RU : gmap string string :=
  list_to_map [
    ("TURNOVER_GRADE_NONE", "Нет статуса ликвидности");
    ("DEFICIT", "Дефицитный");
    ("POPULAR", "Очень популярный");
    ("ACTUAL", "Популярный");
    ("SURPLUS", "Избыточный");
    ("NO_SALES", "Без продаж");
    ("WAS_NO_SALES", "Был без продаж");
    ("RESTRICTED_NO_SALES", "Без продаж, ограничен");
    ("COLLECTING_DATA", "Сбор данных");
    ("WAITING_FOR_SUPPLY", "Ожидаем поставки");
    ("WAS_DEFICIT", "Был дефицитным");
    ("WAS_POPULAR", "Был очень популярным");
    ("WAS_ACTUAL", "Был популярным");
    ("WAS_SURPLUS", "Был избыточным");
    ("UNSPECIFIED", "Не определено")].

Definition TURNOVER_GRADE_DESCRIPTIONS : gmap string string :=
  list_to_map [
    ("TURNOVER_GRADE_NONE", "");
    ("DEFICIT", "Хватит до 28 дней.");
    ("POPULAR", "Хватит на 28–56 дней.");
    ("ACTUAL", "Хватит на 56–120 дней.");
    ("SURPLUS", "Хватит более чем на 120 дней.");
    ("NO_SALES", "Нет продаж последние 28 дней.");
    ("WAS_NO_SALES", "Не было продаж и остатков последние 28 дней");
    ("RESTRICTED_NO_SALES", "Запрет FBO. Не было продаж более 120 дней");
    ("COLLECTING_DATA", "Собираем данные в течение 60 дней после поставки");
    ("WAITING_FOR_SUPPLY", "Нет остатков. Сделайте поставку для начала сбора данных");
    ("WAS_DEFICIT", "Нет остатков. Товар был дефицитным последние 56 дней");
    ("WAS_POPULAR", "Нет остатков. Товар был очень популярным последние 56 дней");
    ("WAS_ACTUAL", "Нет остатков. Товар был популярным последние 56 дней");
    ("WAS_SURPLUS", "Нет остатков. Товар был избыточным последние 56 дней");
    ("UNSPECIFIED", "Нет данных")].

Section Transform.
Context `{PyFloat}.

(** [_as_int_or_none(v)].  The outer [None] is an exception the
    [except (TypeError, ValueError)] clause lets through: the
    OverflowError of [int(inf)]. *)
Definition _as_int_or_none (v : value) : option (option Z) :=
  match v with
  | VNone => Some None
  | VBool b => Some (Some (Py.int_of_bool b))
  | VInt z => Some (Some z)
  | VFloat f =>
      match float_trunc f with
      | Some z => Some (Some z)
      | None => if float_isnan f then Some None else None
      end
  | VStr s => Some (int_of_str s)
  | VList _ | VDict _ => Some None
  end.

(** [_as_float_or_none(v)]; the outer [None] is the OverflowError of
    [float(n)] for an integer out of range. *)
Definition _as_float_or_none (v : value) : option (option float) :=
  match v with
  | VNone => Some None
  | VBool b => Some (Some (if b then float_one else float_zero))
  | VInt z => Some <$> float_of_int z
  | VFloat f => Some (Some f)
  | VStr s => Some (float_of_str s)
  | VList _ | VDict _ => Some None
  end.

Definition _to_sheet_cell (v : value) : string :=
  match v with
  | VNone => ""
  | _ => Py.str v
  end.

Definition _to_sheet_cell_blank_if_zero (v : option Z) : string :=
  match v with
  | None => ""
  | Some z => if (z =? 0)%Z then "" else pretty z
  end.

(** [table.get(grade) if grade else None]; the outer [None] is the
    TypeError of an unhashable key. *)
Definition grade_lookup (table : gmap string string) (grade : value)
    : option (option string) :=
  if Py.truthy grade then
    match grade with
    | VStr g => Some (table !! g)
    | VList _ | VDict _ => None
    | _ => Some None
    end
  else Some None.

Definition turnover_grade_ru : value -> option (option string) :=
  grade_lookup TURNOVER_GRADE_RU.
Definition describe_turnover_grade : value -> option (option string) :=
  grade_lookup TURNOVER_GRADE_DESCRIPTIONS.

(** An Optional[int] or Optional[str] as a value. *)
Definition of_int (o : option Z) : value := from_option VInt VNone o.
Definition of_str (o : option string) : value := from_option VStr VNone o.

(** [sku_str]: [None] when the field is null or prints as "". *)
Definition sku_str (it : item) : option string :=
  match Py.get it "sku" with
  | VNone => None
  | v => if Py.nonempty (Py.str v) then Some (Py.str v) else None
  end.

(** The body of the first loop of [build_export_rows], on the pair
    [(rep_item, returns_sum)]. *)
Definition index_step
    (acc : gmap string item * gmap string (option Z)) (it : item)
    : option (gmap string item * gmap string (option Z)) :=
  let '(rep_item, returns_sum) := acc in
  match sku_str it with
  | None => Some (rep_item, returns_sum)
  | Some sku_str =>
      let rep_item :=
        match rep_item !! sku_str with
        | None => <[sku_str := it]> rep_item
        | Some _ => rep_item
        end in
      val ← _as_int_or_none (Py.get it "return_to_seller_stock_count");
      match val with
      | None => Some (rep_item, returns_sum)
      | Some val =>
          (* returns_sum is a defaultdict: a missing key reads None *)
          match default None (returns_sum !! sku_str) with
          | None => Some (rep_item, <[sku_str := Some val]> returns_sum)
          | Some s =>
              Some (rep_item, <[sku_str := Some (s + val)]> returns_sum)
          end
      end
  end.

(** The first loop: [rep_item] and [returns_sum] after all [items]. *)
Definition index_items (items : list item)
    : option (gmap string item * gmap string (option Z)) :=
  Py.for_ items (∅, ∅) index_step.

(** The body of the second loop: the six cells AD..AI for [sku]. *)
Definition export_row (rep_item : gmap string item)
    (returns_sum : gmap string (option Z)) (sku : string)
    : option (list string) :=
  let base : item := default ∅ (rep_item !! sku) in
  days_without_sales ← _as_int_or_none (Py.get base "days_without_sales");
  idc ← _as_int_or_none (Py.get base "idc");
  ads ← _as_float_or_none (Py.get base "ads");
  let turnover_code := Py.get base "turnover_grade" in
  grade_ru ← turnover_grade_ru turnover_code;
  grade_desc ← describe_turnover_grade turnover_code;
  let rts_sum := default None (returns_sum !! sku) in
  let ad_days := _to_sheet_cell (of_int days_without_sales) in
  let ae_idc := _to_sheet_cell (of_int idc) in
  let af_returns := _to_sheet_cell_blank_if_zero rts_sum in
  let ag_grade_ru := _to_sheet_cell (of_str grade_ru) in
  let ah_grade_desc := _to_sheet_cell (of_str grade_desc) in
  let ai_ads :=
    match ads with
    | None => ""
    | Some ads =>
        let rounded := float_round2 ads in
        if float_is_zero rounded then "0" else float_fmt2 rounded
    end in
  Some [ad_days; ae_idc; af_returns; ag_grade_ru; ah_grade_desc; ai_ads].

(** [build_export_rows(self, skus, items)]; [None]: an exception leaves
    the method. *)
Definition build_export_rows (skus : list string) (items : list item)
    : option (list (list string)) :=
  '(rep_item, returns_sum) ← index_items items;
  Py.for_ skus [] (fun export_rows sku =>
    row ← export_row rep_item returns_sum sku;
    Some (export_rows ++ [row])).
End Transform.

Section Pipeline.
Context `{PyFloat}.

(** The [try] block of [get_stocks_data] for the [n]-th batch:
    [data.get("items", [])], or [None] for a RequestException. *)
Variable post : nat -> list string -> option (list item).

Definition batch_size : nat := 50.

Fixpoint get_stocks_data_loop (skus : list string) (offsets : list nat)
    (n : nat) (all_items : list item) : list item :=
  match offsets with
  | [] => all_items
  | i :: offsets' =>
      let batch := Py.slice skus i (i + batch_size) in
      get_stocks_data_loop skus offsets' (S n)
        match post n batch with
        | Some items => all_items ++ items
        | None => all_items
        end
  end.

(** [get_stocks_data(self, skus)["items"]]. *)
Definition get_stocks_data (skus : list string) : list item :=
  get_stocks_data_loop skus
    (default [] (Py.range (length skus) batch_size)) 0 [].

Definition SHEET_RANGE_CLEAR : string := "AD5:AI1000".

(** [export_data_to_sheet(self, data)]: its calls to the worksheet. *)
Definition export_data_to_sheet (data : list (list string))
    : list (sheet_call (list string)) :=
  BatchClear [SHEET_RANGE_CLEAR] ::
  match data with
  | [] => []
  | _ => [Update ("AD5:AI" +:+ pretty (4 + length data)%nat) data]
  end.

(** [process(self)] from the SKU list on: its result and its calls to
    the worksheet.  An exception of [build_export_rows] is caught:
    [False], nothing exported. *)
Definition process (skus : list string)
    : bool * list (sheet_call (list string)) :=
  match skus with
  | [] => (false, [])
  | _ =>
      match get_stocks_data skus with
      | [] => (false, export_data_to_sheet [])
      | items =>
          match build_export_rows skus items with
          | Some export_rows => (true, export_data_to_sheet export_rows)
          | None => (false, [])
          end
      end
  end.
End Pipeline.

End OzonAnalyticsStocks.

(** ** test_scripts/013.Price_logistic.py *)
Module Price_logistic.

Definition read_api_credentials (lines : list string)
    : outcome exn (string * string * string * string) :=
  let lines := Py.strip <$> filter (fun line => Py.nonempty (Py.strip line) = true) lines in
  match lines with
  | l0 :: l1 :: l2 :: l3 :: _ => Return (l0, l1, l2, l3)
  | _ => Raise ValueError
  end.

Section Prices.
Context `{PyFloat}.

(** [safe_float(value)]; [None] is the OverflowError of [float(n)],
    which the [except (ValueError, TypeError)] clause lets through. *)
Definition safe_float (v : value) : option float :=
  match v with
  | VNone => Some float_zero
  | VBool b => Some (if b then float_one else float_zero)
  | VInt z => float_of_int z
  | VFloat f => Some f
  | VStr s => Some (default float_zero (float_of_str s))
  | VList _ | VDict _ => Some float_zero
  end.

(** The body of one response of the prices endpoint: ['items' in
    result] with the list (null entries are [None]), no ['items'] key,
    or an exception of the [try] block before the loop. *)
Inductive response :=
  | Items (l : list (option item))
  | NoItems
  | Failed.

(** The [n]-th request, sent with the chunk of product ids. *)
Variable post : nat -> list Z -> response.

(** [for item in result['items']: ...] on the dict [all_prices].  An
    unhashable key raises TypeError inside the [try]: the rest of the
    chunk is skipped, what is stored stays. *)
Fixpoint store_items (all_prices : list (value * item))
    (items : list (option item)) : list (value * item) :=
  match items with
  | [] => all_prices
  | None :: items' => store_items all_prices items'
  | Some it :: items' =>
      match it !! "product_id" with
      | None => store_items all_prices items'
      | Some k =>
          if Py.hashable k
          then store_items (Py.dict_set Py.key_eqb all_prices k it) items'
          else all_prices
      end
  end.

Fixpoint get_ozon_prices_loop (product_ids : list Z) (limit : nat)
    (offsets : list nat) (n : nat) (all_prices : list (value * item))
    : list (value * item) :=
  match offsets with
  | [] => all_prices
  | i :: offsets' =>
      let chunk := Py.slice product_ids i (i + limit) in
      let all_prices :=
        match post n chunk with
        | Items l => store_items all_prices l
        | NoItems | Failed => all_prices
        end in
      get_ozon_prices_loop product_ids limit offsets' (S n) all_prices
  end.

(** [get_ozon_prices(client_id, api_key, product_ids, limit=1000)];
    [None] is the ValueError of [range] for [limit = 0]. *)
Definition get_ozon_prices (product_ids : list Z) (limit : nat)
    : option (list (value * item)) :=
  offsets ← Py.range (length product_ids) limit;
  Some (get_ozon_prices_loop product_ids limit offsets 0 []).
End Prices.

Section Rows.
Context `{PyFloat}.

Definition color_index_mapping : gmap string string :=
  list_to_map [
    ("WITHOUT_INDEX", "–ù–ï–¢");
    ("GREEN", "–•–û–†–û–®–ò–ô");
    ("YELLOW", "–°–†–ï–î–ù–ò–ô");
    ("RED", "–ü–õ–û–•–û–ô")].

Definition EXCLUDED_ACTIONS : list string := [
    "–†–∞—Å—Å—Ä–æ—á–∫–∞ 0-0-6 –Ω–∞ –≤—Å—ë –†–§ —Ç–æ–≤–∞—Ä—ã";
    "WOW-–ë–≠–ö_–ö—ç—à–±—ç–∫ –Ω–∞ –ø–æ–∫—É–ø–∫—É Ozon Fashion —Å–ø–∏—Å–∞–Ω–∏–µ 2.0";
    "–í–ê–£ –±–∞–ª–ª—ã 50% 9 –≤–æ–ª–Ω–∞ 3-—è –≤–æ–ª–Ω–∞ (–æ—Å–Ω–æ–≤–Ω–∞—è)";
    "Ozon Fashion + Jardin 500 –≤–∞—É –±–∞–ª–ª–æ–≤  —Å–ø–∏—Å–∞–Ω–∏–µ";
    "Ozon Fashion + Jardin 1000 —Å–ø–∏—Å–∞–Ω–∏–µ";
    "[Ozon Fashion + Jardin 10 000 —Å–ø–∏—Å–∞–Ω–∏–µ";
    "Ozon Fashion + Jardin —Å–ø–∏—Å–∞–Ω–∏–µ 1 –º–ª–Ω";
    "Ozon Fashion + Jardin —Å–ø–∏—Å–∞–Ω–∏–µ 1 –º–ª–Ω –≤—Ç–æ—Ä–∞—è";
    "Ozon Fashion + Jardin_–ó–∞–ø–∞—Å–Ω–∞—è –∞–∫—Ü–∏—è 500 –≤–∞—É –±–∞–ª–ª–æ–≤ —Å–ø–∏—Å–∞–Ω–∏–µ";
    "Ozon Fashion + Jardin_–ó–∞–ø–∞—Å–Ω–∞—è –∞–∫—Ü–∏—è 1000 –≤–∞—É –±–∞–ª–ª–æ–≤ —Å–ø–∏—Å–∞–Ω–∏–µ";
    "Ozon Fashion + Jardin_–ó–∞–ø–∞—Å–Ω–∞—è –∞–∫—Ü–∏—è 10 000 –≤–∞—É –±–∞–ª–ª–æ–≤ —Å–ø–∏—Å–∞–Ω–∏–µ";
    "Ozon Fashion + Jardin 10 000 —Å–ø–∏—Å–∞–Ω–∏–µ"].

(** [x.get(k, {}) if x.get(k) is not None else {}] followed by a
    [.get] on the result: [None] is the AttributeError for a value
    that is no dict. *)
Definition sub_dict (it : item) (k : string) : option item :=
  match Py.get it k with
  | VNone => Some ∅
  | VDict d => Some d
  | _ => None
  end.

(** The elements [for action in marketing_actions] visits that can be
    dicts; [None] is the TypeError of a value that is not iterable. *)
Definition actions_of (marketing_actions : item) : option (list value) :=
  match Py.get marketing_actions "actions" with
  | VNone => Some []
  | VList l => Some l
  | VStr _ | VDict _ => Some []
  | _ => None
  end.

(** [math.ceil(safe_float(v))]. *)
Definition ceil_float (v : value) : option Z :=
  x ← safe_float v; float_ceil x.

(** [math.ceil((p * q) / 100) if p and q else 0]. *)
Definition percent_of (p q : float) : option Z :=
  if negb (float_is_zero p) && negb (float_is_zero q)
  then float_ceil (float_div_int (float_mul p q) 100)
  else Some 0.

(** [math.ceil(n + dq1_value)]; [dq1_value] is the float read from
    cell ET2, or the int 0. *)
Definition ceil_plus (n : Z) (dq1_value : value) : option Z :=
  match dq1_value with
  | VInt z => Some (n + z)
  | VBool b => Some (n + Py.int_of_bool b)
  | VFloat f => x ← int_add_float n f; float_ceil x
  | _ => None
  end.

(** The loop over [marketing_actions]: [(action_titles,
    actions_count)]. *)
Definition collect_actions (marketing_actions : list value)
    : option (list string * Z) :=
  Py.for_ marketing_actions ([], 0) (fun '(action_titles, actions_count) action =>
    match action with
    | VDict a =>
        if Py.truthy action then
          match Py.get_or a "title" (VStr "") with
          | VStr t =>
              let title := Py.strip t in
              if Py.nonempty title
                 && negb (bool_decide (title ∈ EXCLUDED_ACTIONS))
              then Some (action_titles ++ ["[" +:+ title +:+ "]"],
                         actions_count + 1)
              else Some (action_titles, actions_count)
          | _ => None
          end
        else Some (action_titles, actions_count)
    | _ => Some (action_titles, actions_count)
    end).

(** [" ".join(action_titles)]. *)
Fixpoint join_space (l : list string) : string :=
  match l with
  | [] => ""
  | [s] => s
  | s :: l' => s +:+ " " +:+ join_space l'
  end.

(** The row of a product found in [data]. *)
Definition item_row (it : item) (dq1_value : value)
    : option (list value) :=
  price_data ← sub_dict it "price";
  commissions ← sub_dict it "commissions";
  price_indexes ← sub_dict it "price_indexes";
  marketing_actions ← sub_dict it "marketing_actions";
  marketing_actions ← actions_of marketing_actions;
  let auto_action :=
    if Py.truthy (Py.get_or price_data "auto_action_enabled" (VBool false))
    then "üî•" else "üîï" in
  old_price ← safe_float (Py.get price_data "old_price");
  min_price ← safe_float (Py.get price_data "min_price");
  price ← safe_float (Py.get price_data "price");
  marketing_seller_price ← safe_float (Py.get price_data "marketing_seller_price");
  marketing_price ← safe_float (Py.get price_data "marketing_price");
  net_price ← safe_float (Py.get price_data "net_price");
  color_index ←
    (let k := Py.get_or price_indexes "color_index" (VStr "WITHOUT_INDEX") in
     if Py.hashable k then
       Some (match k with
             | VStr c => default "WITHOUT_INDEX" (color_index_mapping !! c)
             | _ => "WITHOUT_INDEX"
             end)
     else None);
  acquiring ← ceil_float (Py.get it "acquiring");
  sales_percent_fbo ← safe_float (Py.get commissions "sales_percent_fbo");
  sales_percent_fbs ← safe_float (Py.get commissions "sales_percent_fbs");
  fbo_transport ← ceil_float (Py.get commissions "fbo_direct_flow_trans_max_amount");
  fbs_transport ← ceil_float (Py.get commissions "fbs_direct_flow_trans_max_amount");
  fbo_delivery ← ceil_float (Py.get commissions "fbo_deliv_to_customer_amount");
  fbs_delivery ← ceil_float (Py.get commissions "fbs_deliv_to_customer_amount");
  dr_value ← percent_of marketing_seller_price sales_percent_fbo;
  ds_value ← percent_of marketing_seller_price sales_percent_fbs;
  let dt_value := acquiring + dr_value + fbo_transport + fbo_delivery in
  du_value ← ceil_plus (acquiring + fbs_transport + fbs_delivery + ds_value) dq1_value;
  '(action_titles, actions_count) ← collect_actions marketing_actions;
  let action_title := join_space action_titles in
  fbo_return ← safe_float (Py.get commissions "fbo_return_flow_amount");
  fbs_return ← safe_float (Py.get commissions "fbs_return_flow_amount");
  Some [
    VInt acquiring; VFloat sales_percent_fbo; VInt dr_value;
    VInt fbo_transport; VInt fbo_delivery;
    VFloat fbo_return;
    VFloat sales_percent_fbs; VInt ds_value; VInt fbs_transport;
    VInt fbs_delivery;
    VFloat fbs_return;
    VInt dt_value; VInt du_value;
    VStr ""; VStr auto_action; VFloat old_price; VFloat min_price;
    VFloat price;
    VFloat marketing_seller_price; VFloat marketing_price;
    VStr color_index;
    VStr action_title;
    VInt actions_count;
    VFloat net_price ].

(** [[''] * 27]. *)
Definition blank_row : list value := replicate 27 (VStr "").

(** The body of the loop of [prepare_data_for_sheet]. *)
Definition sheet_row (data : list (value * item)) (dq1_value : value)
    (product_id : Z) : option (list value) :=
  match Py.dict_get Py.key_eqb data (VInt product_id) with
  | Some it => item_row it dq1_value
  | None => Some blank_row
  end.

(** [prepare_data_for_sheet(data, product_ids, dq1_value)]; [None]: an
    exception leaves the function. *)
Definition prepare_data_for_sheet (data : list (value * item))
    (product_ids : list Z) (dq1_value : value)
    : option (list (list value)) :=
  Py.for_ product_ids [] (fun rows product_id =>
    row ← sheet_row data dq1_value product_id;
    Some (rows ++ [row])).
End Rows.

Section Script.
Context `{PyFloat}.
Variable post : nat -> list Z -> response.

(** [write_data_to_sheet(spreadsheet_id, worksheet_name, data,
    product_ids)]: its calls to the worksheet, and whether it returned
    ([false]: it raised).  [et2] is the value of cell ET2, [None] for
    an empty cell. *)
Definition write_data_to_sheet (et2 : option string)
    (data : list (value * item)) (product_ids : list Z)
    : list (sheet_call (list value)) * bool :=
  match safe_float (from_option VStr VNone et2) with
  | None => ([Acell "ET2"], false)
  | Some dq1_value =>
      let clear :=
        BatchClear ["ET5:FQ" +:+ pretty (4 + length product_ids)%nat] in
      match prepare_data_for_sheet data product_ids (VFloat dq1_value) with
      | None => ([Acell "ET2"; clear], false)
      | Some [] => ([Acell "ET2"; clear], true)
      | Some rows =>
          ([ Acell "ET2"; clear;
             Update ("ET5:FQ" +:+ pretty (4 + length rows)%nat) rows ],
           true)
      end
  end.

(** [main()] from [product_ids] on: its calls to the worksheet.  Every
    exception is caught and printed. *)
Definition main (product_ids : list Z) (et2 : option string)
    : list (sheet_call (list value)) :=
  match product_ids with
  | [] => []
  | _ =>
      match get_ozon_prices post product_ids 1000 with
      | None | Some [] => []
      | Some data => (write_data_to_sheet et2 data product_ids).1
      end
  end.
End Script.

End Price_logistic.

(** ** 014.Analytics_base.py *)
Module Analytics_base.

Record config := {
  client_id : string; api_key : string;
  spreadsheet_id : string; sheet_name : string }.

(** [read_api_config(filename)]: every line of the file is kept. *)
Definition read_api_config (lines : list string) : outcome exn config :=
  let lines := Py.strip <$> lines in
  if (length lines <? 4)%nat then Raise ValueError
  else
    match lines with
    | l0 :: l1 :: l2 :: l3 :: _ =>
        Return {| client_id := l0; api_key := l1;
                  spreadsheet_id := l2; sheet_name := l3 |}
    | _ => Raise IndexError
    end.

(** [chunks(lst, n)], the generator run to its end; [None] is the
    ValueError of [range] for [n = 0]. *)
Definition chunks {A} (lst : list A) (n : nat) : option (list (list A)) :=
  match Py.range (length lst) n with
  | Some offsets => Some ((fun i => Py.slice lst i (i + n)%nat) <$> offsets)
  | None => None
  end.

Section Main.
Context `{PyFloat}.

(** One element of the list sent to [sheet.batch_update]. *)
Record update := { range : string; values : list (list value) }.

(** [fetch_product_queries_data] for the [n]-th batch: the items of the
    response, or [None] for any failure (the function then returns
    []). *)
Variable post : nat -> list string -> option (list item).

Definition fetch_product_queries_data (n : nat) (batch : list string)
    : list item :=
  default [] (post n batch).

(** [[sku.strip() for sku in sku_col if sku.strip()]]. *)
Definition skus (sku_col : list string) : list string :=
  Py.strip <$> filter (fun sku => Py.nonempty (Py.strip sku) = true) sku_col.

(** [enumerate(sku_col)]. *)
Definition enumerate {A} (l : list A) : list (nat * A) :=
  zip (seq 0 (length l)) l.

(** [{sku: idx + 5 for idx, sku in enumerate(sku_col) if sku.strip()}],
    in the dict's own order. *)
Definition sku_to_row_step (d : list (string * nat))
    (e : nat * string) : list (string * nat) :=
  let '(idx, sku) := e in
  if Py.nonempty (Py.strip sku)
  then Py.dict_set String.eqb d sku (idx + 5)%nat
  else d.

Definition sku_to_row (sku_col : list string) : list (string * nat) :=
  foldl sku_to_row_step [] (enumerate sku_col).

(** The loop over [enumerate(chunks(skus, 1000), start=1)]. *)
Definition collect (batches : list (list string)) : list item :=
  foldl (fun all_items '(n, batch) =>
           all_items ++ fetch_product_queries_data n batch)
        [] (enumerate batches).

(** [{str(it.get('sku', '')).strip(): it for it in all_items
     if it.get('sku')}]. *)
Definition sku_data (all_items : list item) : gmap string item :=
  foldl (fun d it =>
           if Py.truthy (Py.get it "sku")
           then <[Py.strip (Py.str (Py.get_or it "sku" (VStr ""))) := it]> d
           else d)
        ∅ all_items.

(** The body of the loop over [sku_to_row.items()]: the update of one
    row. *)
Definition update_for (sku_data : gmap string item) (sku : string)
    (row : nat) : update :=
  let values :=
    match sku_data !! sku with
    | Some it =>
        [ Py.get_or it "unique_search_users" (VStr "");
          Py.get_or it "position" (VStr "");
          Py.get_or it "unique_view_users" (VStr "");
          Py.get_or it "view_conversion" (VStr "");
          Py.get_or it "gmv" (VStr "") ]
    | None => replicate 5 (VStr "")
    end in
  {| range := "FX" +:+ pretty row +:+ ":GB" +:+ pretty row;
     values := [values] |}.

Definition updates (sku_to_row : list (string * nat))
    (sku_data : gmap string item) : list update :=
  foldl (fun updates '(sku, row) => updates ++ [update_for sku_data sku row])
        [] sku_to_row.

(** [main()] from the SKU column on: the argument of
    [sheet.batch_update], [[]] when the script stops before it. *)
Definition main (lines : list string) (sku_col : list string)
    : list update :=
  match read_api_config lines with
  | Raise _ => []
  | Return _ =>
      match skus sku_col with
      | [] => []
      | _ =>
          match chunks (skus sku_col) 1000 with
          | None => []
          | Some batches =>
              updates (sku_to_row sku_col) (sku_data (collect batches))
          end
      end
  end.
End Main.

End Analytics_base.

(** ** A float interface to run the definitions

    Exact rationals stand in for doubles (no inf, no nan, no rounding of
    products); the parsers read plain decimal integers.  It is used to
    evaluate the definitions on concrete inputs only: every general theorem
    below holds for any [PyFloat].

    It is not CPython's [float]: [int(s)] and [float(s)] here refuse a
    leading '+', underscores and a decimal point, [float(n)] never
    overflows, [round] and [math.ceil] work on the exact decimal, and
    [str(x)] prints two decimals.  The examples keep to inputs on which
    both agree: small integers, and rates whose double rounds to the same
    two decimals. *)
Module QFloat.

Fixpoint digits (cs : list ascii) (acc : Z) : option Z :=
  match cs with
  | [] => Some acc
  | c :: cs' =>
      let n := Z.of_N (N_of_ascii c) in
      if (48 <=? n) && (n <=? 57) then digits cs' (10 * acc + (n - 48))
      else None
  end.

Definition parse_int (s : string) : option Z :=
  match list_ascii_of_string (Py.strip s) with
  | [] => None
  | "-"%char :: [] => None
  | "-"%char :: cs => Z.opp <$> digits cs 0
  | cs => digits cs 0
  end.

(** The integer nearest to [q], ties to even. *)
Definition round_half_even (q : Q) : Z :=
  let f := Qfloor q in
  match (q - inject_Z f ?= 1 # 2)%Q with
  | Lt => f
  | Gt => f + 1
  | Eq => if Z.even f then f else f + 1
  end.

Definition hundredths (q : Q) : Z := round_half_even (q * 100)%Q.

Definition fmt2 (q : Q) : string :=
  let n := hundredths q in
  let a := Z.abs n in
  let frac := a mod 100 in
  (if n <? 0 then "-" else "") +:+ pretty (a / 100) +:+ "."
    +:+ (if frac <? 10 then "0" else "") +:+ pretty frac.

Definition instance : PyFloat := {|
  float := Q;
  float_zero := 0%Q;
  float_one := 1%Q;
  float_of_int := fun z => Some (inject_Z z);
  float_of_str := fun s => inject_Z <$> parse_int s;
  int_of_str := parse_int;
  float_ceil := fun q => Some (Qceiling q);
  float_trunc := fun q => Some (Z.quot (Qnum q) (Zpos (Qden q)));
  float_isnan := fun _ => false;
  float_is_zero := fun q => Qeq_bool q 0;
  float_eqb := Qeq_bool;
  float_eq_int := fun q z => Qeq_bool q (inject_Z z);
  float_mul := Qmult;
  float_div_int := fun q n => (q / inject_Z n)%Q;
  int_add_float := fun n q => Some (inject_Z n + q)%Q;
  float_round2 := fun q => (hundredths q # 100)%Q;
  float_fmt2 := fmt2;
  float_str := fmt2;
  repr_container := fun _ => "<container>";
|}.

End QFloat.

(** ** Vocabulary of the properties *)

(** *** Chunks *)

(** Every chunk is non-empty and has at most [n] elements; every chunk but
    the last has exactly [n]. *)
Definition full_but_last {A} (n : nat) (cs : list (list A)) : Prop :=
  Forall (fun c => (0 < length c <= n)%nat) cs /\
  forall k c, cs !! k = Some c -> (S k < length cs)%nat -> length c = n.

(** *** Series of pages *)
Module CursorPages.
Import Product_offer_id.
Section Spec.
Context {Item : Type}.
Implicit Types (post : nat -> string -> response Item)
  (ps : list (page Item)) (p : page Item).

(** The transport answers the requests from the [n]-th on with the
    pages [ps], one per request, each request carrying the cursor of
    the page before it. *)
Fixpoint serves post (n : nat) (cursor : string) ps : Prop :=
  match ps with
  | [] => True
  | p :: ps' =>
      post n cursor = Response 200 p /\ serves post (S n) (last_id p) ps'
  end.

(** The series ends where the loop stops: every page but the last is
    full and carries a cursor, the last is short or carries none. *)
Fixpoint paged ps : bool :=
  match ps with
  | [] => false
  | [p] => (length (items p) <? limit)%nat || negb (Py.nonempty (last_id p))
  | p :: ps' =>
      negb (length (items p) <? limit)%nat && Py.nonempty (last_id p)
      && paged ps'
  end.
End Spec.

(** Two pages of one item each; the first carries a cursor. *)
Definition short_pages : list (page Z) :=
  [ {| items := [1]; last_id := "x" |}; {| items := [2]; last_id := "" |} ].
Definition short_post (n : nat) (cursor : string) : response Z :=
  Response 200 (default {| items := []; last_id := "" |} (short_pages !! n)).

(** A full page of 1000 items with a cursor, then a short last page. *)
Definition full_pages : list (page Z) :=
  [ {| items := replicate 1000 7; last_id := "next" |};
    {| items := [8; 9]; last_id := "" |} ].
Definition full_post (n : nat) (cursor : string) : response Z :=
  Response 200 (default {| items := []; last_id := "" |} (full_pages !! n)).
End CursorPages.

Module ServicePages.
Import OzonAPIService.
Section Spec.
Context {Item : Type}.
Implicit Types (post : nat -> string -> option (page Item))
  (ps : list (page Item)) (p : page Item).

Fixpoint serves post (n : nat) (cursor : string) ps : Prop :=
  match ps with
  | [] => True
  | p :: ps' =>
      post n cursor = Some p /\ serves post (S n) (last_id p) ps'
  end.

(** The test after which the loop stops. *)
Definition stops (limit : Z) p : bool :=
  (Z.of_nat (length (items p)) <? limit)%Z
  || negb (Py.nonempty (last_id p)).

Fixpoint paged (limit : Z) ps : bool :=
  match ps with
  | [] => false
  | [p] => stops limit p
  | p :: ps' => negb (stops limit p) && paged limit ps'
  end.
End Spec.

Definition full_pages : list (page Z) :=
  [ {| items := [1; 2]; last_id := "a" |};
    {| items := [3; 4]; last_id := "b" |};
    {| items := [5]; last_id := "c" |} ].
Definition full_post (n : nat) (cursor : string) : option (page Z) :=
  full_pages !! n.
End ServicePages.

Module OffsetPages.
Import FBO_Oborachivaemost.
Section Spec.
Context {Item : Type}.
Implicit Types (post : nat -> nat -> response Item)
  (ps : list (list Item)).

(** The transport answers the requests from the [n]-th on with the
    pages [ps], each request carrying the number of items received so
    far. *)
Fixpoint serves post (n offset : nat) ps : Prop :=
  match ps with
  | [] => True
  | p :: ps' =>
      post n offset = Ok p /\ serves post (S n) (offset + length p) ps'
  end.

(** Every page but the last holds at least 1000 items, the last fewer
    (it may be empty). *)
Fixpoint paged ps : bool :=
  match ps with
  | [] => false
  | [p] => (length p <? 1000)%nat
  | p :: ps' => negb (length p <? 1000)%nat && paged ps'
  end.
End Spec.

(** A server that holds the items [data] and answers a request with the
    slice of at most 1000 items at the offset. *)
Definition dataset_post {Item} (data : list Item) (n offset : nat)
    : response Item :=
  Ok (take 1000 (drop offset data)).

Definition short_pages : list (list Z) := [[1]; [2]].
Definition short_post (n offset : nat) : response Z :=
  Ok (default [] (short_pages !! n)).

Definition full_pages : list (list Z) := [replicate 1000 7; [8; 9]].
Definition full_post (n offset : nat) : response Z :=
  Ok (default [] (full_pages !! n)).
End OffsetPages.

(** *** The prices dict *)
Module PriceSpec.
Import Price_logistic.
Section Spec.
Context `{PyFloat}.
Variable post : nat -> list Z -> response.

(** The loop of [get_ozon_prices] run on the chunks themselves. *)
Fixpoint store_chunks (cs : list (list Z)) (n : nat)
    (all_prices : list (value * item)) : list (value * item) :=
  match cs with
  | [] => all_prices
  | chunk :: cs' =>
      store_chunks cs' (S n)
        match post n chunk with
        | Items l => store_items all_prices l
        | NoItems | Failed => all_prices
        end
  end.

(** The assignments [all_prices[key] = item] one response leads to, in
    order: null entries and items without a product id are skipped, an
    unhashable key ends the chunk. *)
Fixpoint accepted (l : list (option item)) : list (value * item) :=
  match l with
  | [] => []
  | None :: l' => accepted l'
  | Some it :: l' =>
      match it !! "product_id" with
      | None => accepted l'
      | Some k => if Py.hashable k then (k, it) :: accepted l' else []
      end
  end.

(** The assignments of the whole fetch, [n] requests having been
    made. *)
Fixpoint writes (cs : list (list Z)) (n : nat) : list (value * item) :=
  match cs with
  | [] => []
  | chunk :: cs' =>
      match post n chunk with
      | Items l => accepted l
      | NoItems | Failed => []
      end ++ writes cs' (S n)
  end.
End Spec.

Section Keys.
Context `{PyFloat}.

(** One assignment [all_prices[key] = item]. *)
Definition put (d : list (value * item)) (w : value * item)
    : list (value * item) :=
  Py.dict_set Py.key_eqb d w.1 w.2.

(** The last item written under the integer key [pid]. *)
Fixpoint last_write (pid : Z) (ws : list (value * item)) : option item :=
  match ws with
  | [] => None
  | (k, it) :: ws' =>
      match last_write pid ws' with
      | Some found => Some found
      | None =>
          match k with
          | VInt z => if (z =? pid)%Z then Some it else None
          | _ => None
          end
      end
  end.

(** Every key is an integer, as the product ids of the endpoint are. *)
Definition int_keys (ws : list (value * item)) : Prop :=
  Forall (fun w => exists z, w.1 = VInt z) ws.
End Keys.

#[local] Existing Instance QFloat.instance.

(** Product 1 in two chunks, with different prices. *)
Definition early : item := list_to_map [ ("product_id", VInt 1); ("acquiring", VInt 5) ].
Definition late : item := list_to_map [ ("product_id", VInt 1); ("acquiring", VInt 6) ].
Definition twice_post (n : nat) (chunk : list Z) : response :=
  match n with
  | O => Items [Some early]
  | _ => Items [None; Some late]
  end.
End PriceSpec.

(** *** Traces of the retrying fetch *)
Module RetrySpec.
Import FBO_Oborachivaemost.
Section Spec.
Context {Item : Type}.
Implicit Types (tr : list (event Item)).

(** Requests sent, and requests that failed. *)
Fixpoint attempts tr : nat :=
  match tr with
  | [] => 0
  | Request _ _ :: tr' => S (attempts tr')
  | Sleep _ :: tr' => attempts tr'
  end.

Fixpoint failures tr : nat :=
  match tr with
  | [] => 0
  | Request _ Failed :: tr' => S (failures tr')
  | _ :: tr' => failures tr'
  end.

(** The items of the pages received, in order. *)
Fixpoint received tr : list Item :=
  match tr with
  | [] => []
  | Request _ (Ok items) :: tr' => items ++ received tr'
  | _ :: tr' => received tr'
  end.

(** Every request carries the offset [offset] plus the number of items
    received before it: a failed request is repeated at the same
    offset, a page moves the offset by its length. *)
Fixpoint offsets_from (offset : nat) tr : Prop :=
  match tr with
  | [] => True
  | Request o (Ok items) :: tr' =>
      o = offset /\ offsets_from (offset + length items) tr'
  | Request o Failed :: tr' => o = offset /\ offsets_from offset tr'
  | Sleep _ :: tr' => offsets_from offset tr'
  end.

(** A failed request ends the trace or is followed by a sleep of 60
    seconds and the next request. *)
Fixpoint backoff tr : Prop :=
  match tr with
  | [] => True
  | Request _ Failed :: tr' =>
      (tr' = [] \/ exists o r rest, tr' = Sleep 60 :: Request o r :: rest)
      /\ backoff tr'
  | _ :: tr' => backoff tr'
  end.
End Spec.

(** Three failures, then a page of one item. *)
Definition flaky_post (n offset : nat) : response Z :=
  if (n <? 3)%nat then Failed else Ok [1].

(** A transport that is down. *)
Definition dead_post (n offset : nat) : response Z := Failed.

(** A failure between two pages. *)
Definition hiccup_post (n offset : nat) : response Z :=
  match n with
  | O => Ok (replicate 1000 7)
  | 1%nat => Failed
  | _ => Ok [8; 9]
  end.
End RetrySpec.

(** *** Credential files *)
Module CredentialSpec.
(** A line that still holds something once stripped. *)
Definition nonblank (line : string) : Prop :=
  Py.nonempty (Py.strip line) = true.

(** Four lines, the second one blank: three fields. *)
Definition blank_second_line : list string :=
  [ String "1" (String "2" (String "3" (String "010" ""))) ;
    String "010" "" ;
    String "k" (String "e" (String "y" (String "010" ""))) ;
    String "s" (String "h" (String "010" "")) ].
End CredentialSpec.

(** *** Stock sums *)
Module StockSpec.
Import Stock_FBO_FBS.

(** The last item of the response list with this product id. *)
Fixpoint last_item (pid : Z) (l : list stock_item) : option stock_item :=
  match l with
  | [] => None
  | it :: l' =>
      match last_item pid l' with
      | Some found => Some found
      | None => if bool_decide (product_id it = pid) then Some it else None
      end
  end.

(** The sum of ['present'] over the entries of type [ty]. *)
Fixpoint sum_present (ty : string) (l : list stock) : Z :=
  match l with
  | [] => 0
  | st :: l' =>
      (if bool_decide (type st = ty) then present st else 0)
      + sum_present ty l'
  end.

(** The cell of [pid] for the stock type [ty]. *)
Definition cell (ty : string) (d : data) (pid : Z) : Z :=
  sum_present ty (from_option stocks [] (last_item pid (items d))).

Definition sample : data := {| items := [
  {| product_id := 10; stocks := [ {| type := "fbo"; present := 3 |};
                                   {| type := "fbs"; present := 4 |};
                                   {| type := "fbo"; present := 5 |} ] |};
  {| product_id := 20; stocks := [ {| type := "fbs"; present := 1 |} ] |} ] |}.
End StockSpec.

(** *** Rows aligned with keys *)

(** [rows] has one row per key, in the order of the keys, and the row at
    position [n] is a row of the key at position [n]. *)
Definition aligned {K R : Type} (row_of : K -> R -> Prop)
    (keys : list K) (rows : list R) : Prop :=
  length rows = length keys /\
  forall n k, keys !! n = Some k -> exists r, rows !! n = Some r /\ row_of k r.

Module StocksSpec.
Import OzonAnalyticsStocks.
Section Spec.
Context `{PyFloat}.

(** The first item of the response list that prints as [sku]. *)
Fixpoint first_item (sku : string) (items : list item) : option item :=
  match items with
  | [] => None
  | it :: items' =>
      if bool_decide (sku_str it = Some sku) then Some it
      else first_item sku items'
  end.

(** [a + b] where [None] is "no value yet". *)
Definition add_opt (a b : option Z) : option Z :=
  match a, b with
  | None, _ => b
  | _, None => a
  | Some x, Some y => Some (x + y)
  end.

(** The returns count an item adds to its SKU. *)
Definition returns_of (it : item) : option Z :=
  default None (_as_int_or_none (Py.get it "return_to_seller_stock_count")).

(** The sum of the returns counts of the items that print as [sku];
    [None] when none of them has a count. *)
Fixpoint returns_total (sku : string) (items : list item) : option Z :=
  match items with
  | [] => None
  | it :: items' =>
      if bool_decide (sku_str it = Some sku)
      then add_opt (returns_of it) (returns_total sku items')
      else returns_total sku items'
  end.

(** The row of an item that is alone in the response, under its own
    key. *)
Definition project (it : item) : option (list string) :=
  sku ← sku_str it;
  rows ← build_export_rows [sku] [it];
  head rows.
End Spec.

#[local] Existing Instance QFloat.instance.

(** No returns, sold today, a rate of 4/1000. *)
Definition quiet_item : item :=
  list_to_map [ ("sku", VInt 7); ("return_to_seller_stock_count", VInt 0);
                ("days_without_sales", VInt 0); ("idc", VInt 12);
                ("ads", VFloat (4 # 1000)%Q);
                ("turnover_grade", VStr "DEFICIT") ].

(** Two records of one SKU, as the endpoint returns them per
    warehouse. *)
Definition first_record : item :=
  list_to_map [ ("sku", VInt 7); ("return_to_seller_stock_count", VInt 0);
                ("days_without_sales", VInt 1) ].
Definition second_record : item :=
  list_to_map [ ("sku", VInt 7); ("return_to_seller_stock_count", VInt 2);
                ("days_without_sales", VInt 9) ].
End StocksSpec.

Module TurnoverSpec.
#[local] Existing Instance QFloat.instance.

(** Two items of one offer id. *)
Definition first_offer : item :=
  list_to_map [ ("offer_id", VStr "A"); ("ads", VInt 1) ].
Definition second_offer : item :=
  list_to_map [ ("offer_id", VStr "A"); ("ads", VInt 2) ].
End TurnoverSpec.

(** *** Row updates of the product-queries script *)
Module UpdateSpec.
(** The range of the update that targets sheet row [row]. *)
Definition range_of (row : nat) : string :=
  "FX" +:+ pretty row +:+ ":GB" +:+ pretty row.

(** [i] is the position of the last occurrence of [sku] in the
    column. *)
Definition last_at (sku_col : list string) (i : nat) (sku : string) : Prop :=
  sku_col !! i = Some sku /\
  forall j, (i < j)%nat -> sku_col !! j <> Some sku.

(** The position of the last occurrence, computed. *)
Fixpoint last_index (sku : string) (l : list string) : option nat :=
  match l with
  | [] => None
  | s :: l' =>
      match last_index sku l' with
      | Some i => Some (S i)
      | None => if bool_decide (s = sku) then Some 0%nat else None
      end
  end.

(** Column B from row 5 on: SKU 11 in rows 5 and 8, a blank cell in
    row 6. *)
Definition column : list string := ["11"; ""; "22"; "11"].
End UpdateSpec.

(** ** Vocabulary of the further properties *)

Module CursorMore.
Import Product_offer_id.
Section Spec.
Context {Item : Type}.

(** Every page is full and carries a cursor: the loop goes on after
    each of them. *)
Definition all_full (ps : list (page Item)) : bool :=
  forallb (fun p => negb (length (items p) <? limit)%nat
                    && Py.nonempty (last_id p)) ps.

(** The cursor the request after the pages [ps] carries. *)
Definition cursor_after (cursor : string) (ps : list (page Item)) : string :=
  from_option last_id cursor (last ps).
End Spec.
End CursorMore.

Module ServiceMore.
Import OzonAPIService.
Section Spec.
Context {Item : Type}.

Definition all_full (limit : Z) (ps : list (page Item)) : bool :=
  forallb (fun p => negb (ServicePages.stops limit p)) ps.

Definition cursor_after (cursor : string) (ps : list (page Item)) : string :=
  from_option last_id cursor (last ps).

(** One answer of a server, as each of the two cursor loops reads
    it. *)
Definition as_response (a : list Item * string)
    : Product_offer_id.response Item :=
  Product_offer_id.Response 200
    {| Product_offer_id.items := a.1; Product_offer_id.last_id := a.2 |}.
Definition as_result (a : list Item * string) : option (page Item) :=
  Some {| items := a.1; last_id := a.2 |}.
End Spec.

(** Two full pages, then the transport fails. *)
Definition broken_post (n : nat) (cursor : string) : option (page Z) :=
  match n with
  | O => Some {| items := [1; 2]; last_id := "a" |}
  | 1%nat => Some {| items := [3; 4]; last_id := "b" |}
  | _ => None
  end.
End ServiceMore.

Module CursorMoreExamples.
Import Product_offer_id.

(** A full page, then a response with status 500. *)
Definition refused_post (n : nat) (cursor : string) : response Z :=
  match n with
  | O => Response 200 {| items := replicate 1000 7; last_id := "next" |}
  | _ => Response 500 {| items := []; last_id := "" |}
  end.
End CursorMoreExamples.

(** *** The sheet of 001 as a number of rows *)
Module SheetSpec.
Import Product_offer_id.

(** The row count after an appendDimension of [length] rows, and after a
    deleteDimension of the rows [startIndex, endIndex). *)
Definition appended (rows : Z) (request : option Z) : Z :=
  rows + default 0 request.
Definition deleted (rows : Z) (request : option delete_dimension) : Z :=
  match request with
  | Some r => rows - (endIndex r - startIndex r)
  | None => rows
  end.

(** [adjust_sheet_size] then [remove_empty_rows_after_data], as
    [save_products_to_google_sheets] runs them on the sheet [sheet_id]
    of [rows] rows for [data_row_count] rows of data. *)
Definition resized (sheet_id rows data_row_count : Z) : Z :=
  let rows1 := appended rows (adjust_sheet_size rows data_row_count) in
  deleted rows1 (remove_empty_rows_after_data sheet_id rows1 data_row_count).
End SheetSpec.

(** *** Batches of the stocks endpoint (008) *)
Module BatchSpec.
Section Spec.
Context `{PyFloat}.
Variable post : nat -> list string -> option (list item).

(** The items each batch brings, a failed batch bringing none. *)
Definition brought (n : nat) (batches : list (list string))
    : list (list item) :=
  imap (fun k batch => default [] (post (n + k) batch)) batches.
End Spec.
End BatchSpec.

(** *** Keys of the product-queries data (014) *)
Module SkuSpec.
Section Spec.
Context `{PyFloat}.

(** The key [sku_data] files an item under. *)
Definition key_of (it : item) : string :=
  Py.strip (Py.str (Py.get_or it "sku" (VStr ""))).

(** The last item of the list filed under [k]. *)
Fixpoint last_keyed (k : string) (l : list item) : option item :=
  match l with
  | [] => None
  | it :: l' =>
      match last_keyed k l' with
      | Some found => Some found
      | None =>
          if Py.truthy (Py.get it "sku") && bool_decide (key_of it = k)
          then Some it else None
      end
  end.
End Spec.
End SkuSpec.

(** *** A priced product with marketing actions (013) *)
Module PriceMore.
Import Price_logistic.

(** A title as [prepare_data_for_sheet] lists it: in brackets,
    stripped, not empty, not excluded. *)
Definition listed (t : string) : Prop :=
  exists title, t = "[" +:+ title +:+ "]" /\ Py.strip title = title /\
                Py.nonempty title = true /\ title ∉ EXCLUDED_ACTIONS.

#[local] Existing Instance QFloat.instance.

Definition action (title : string) : value :=
  VDict (list_to_map [("title", VStr title)]).

(** Five entries of [actions]: two titles that count, a blank one, an
    entry that is no dict, and an excluded title. *)
Definition promoted : item :=
  list_to_map [
    ("product_id", VInt 1); ("acquiring", VInt 5);
    ("commissions",
     VDict (list_to_map [
       ("sales_percent_fbo", VInt 10);
       ("fbo_direct_flow_trans_max_amount", VInt 7);
       ("fbo_deliv_to_customer_amount", VInt 3)]));
    ("price", VDict (list_to_map [("marketing_seller_price", VStr "200")]));
    ("marketing_actions",
     VDict (list_to_map [
       ("actions",
        VList [ action " Sale "; action ""; VInt 3;
                action (default "" (head EXCLUDED_ACTIONS));
                action "Week" ])])) ].

Definition promoted_post (n : nat) (chunk : list Z) : response :=
  Items [Some promoted].

(** The transport is down. *)
Definition failed_post (n : nat) (chunk : list Z) : response := Failed.
End PriceMore.

(** *** Chunks of the stock endpoint (006) *)
Module StockMore.
Import Stock_FBO_FBS.
Section Spec.
Variable get_stock_data : nat -> list Z -> fetched.

(** The items each chunk brings, a skipped chunk bringing none. *)
Definition brought (n : nat) (chunks : list (list Z))
    : list (list stock_item) :=
  imap (fun k chunk =>
          match get_stock_data (n + k)%nat chunk with
          | Body stock_data => items stock_data
          | _ => []
          end) chunks.

(** The exception of the first chunk that raises, if one does. *)
Fixpoint raised (n : nat) (chunks : list (list Z)) : option exn :=
  match chunks with
  | [] => None
  | chunk :: chunks' =>
      match get_stock_data n chunk with
      | Raised e => Some e
      | _ => raised (S n) chunks'
      end
  end.

(** No chunk raises and no chunk brings an item. *)
Definition brings_nothing (answer : fetched) : Prop :=
  match answer with
  | Body stock_data => items stock_data = []
  | Skipped => True
  | Raised _ => False
  end.
End Spec.

(** Every request is refused. *)
Definition refused (n : nat) (chunk : list Z) : fetched := Skipped.

(** Every request is answered with the sample stocks. *)
Definition answered (n : nat) (chunk : list Z) : fetched :=
  Body StockSpec.sample.

(** The first request is answered, the second one times out. *)
Definition timed_out (n : nat) (chunk : list Z) : fetched :=
  match n with
  | O => Body StockSpec.sample
  | _ => Raised RequestException
  end.
End StockMore.

(** *** Credential fields *)
Module CredentialMore.
(** A field that holds something and has no whitespace around it. *)
Definition clean (field : string) : Prop :=
  Py.nonempty field = true /\ Py.strip field = field.

(** A file with padded fields and a blank line. *)
Definition padded_file : list string :=
  [ String " " (String "1" (String "010" ""));
    String "010" "";
    String "k" (String " " (String "010" ""));
    String "009" (String "b" (String "010" ""));
    String "s" (String "010" "") ].
End CredentialMore.

(** *** Rows of the turnover sheet (005) *)
Module TurnoverMore.
Import FBO_Oborachivaemost.
Section Spec.
Context `{PyFloat}.

(** A row of columns AJ..AL: any value, a whole number or a blank,
    the translation of a grade or a blank. *)
Definition well_formed (row : list value) : Prop :=
  exists ads ak al,
    row = [ads; ak; VStr al] /\
    (ak = VStr "" \/ exists z, ak = VInt z) /\
    (al = "" \/ exists grade, TURNOVER_GRADE_TRANSLATION !! grade = Some al).

Definition blank : list value := [VStr ""; VStr ""; VStr ""].
End Spec.

#[local] Existing Instance QFloat.instance.

(** A graded offer with a fractional cover. *)
Definition graded : item :=
  list_to_map [ ("offer_id", VStr "B"); ("ads", VInt 3);
                ("idc", VFloat (5 # 2)%Q);
                ("turnover_grade", VStr "GRADES_GREEN") ].
End TurnoverMore.

(** *** Runs of the offset fetch with failures (005) *)
Module RetryRun.
Import FBO_Oborachivaemost.
Section Spec.
Context {Item : Type}.
Implicit Types (post : nat -> nat -> response Item)
  (rs : list (response Item)).

(** The transport answers the requests from the [n]-th on with [rs],
    each request carrying the number of items received so far: a
    failed request leaves the offset where it is. *)
Fixpoint answers post (n offset : nat) rs : Prop :=
  match rs with
  | [] => True
  | r :: rs' =>
      post n offset = r /\
      answers post (S n)
        (offset + match r with Ok p => length p | Failed => 0 end) rs'
  end.

(** An answer that does not end the fetch by itself: a failure, or a
    page of at least 1000 items. *)
Definition goes_on (r : response Item) : bool :=
  match r with
  | Ok p => negb (length p <? 1000)%nat
  | Failed => true
  end.

(** The failures among [rs], and the items of its pages. *)
Fixpoint failed rs : nat :=
  match rs with
  | [] => 0
  | Failed :: rs' => S (failed rs')
  | Ok _ :: rs' => failed rs'
  end.

Fixpoint pages rs : list Item :=
  match rs with
  | [] => []
  | Ok p :: rs' => p ++ pages rs'
  | Failed :: rs' => pages rs'
  end.

(** What is seen from outside while the answers [rs] come in: each
    request, 65 seconds of sleep after a page, 60 after a failure. *)
Fixpoint trace (offset : nat) rs : list (event Item) :=
  match rs with
  | [] => []
  | Ok p :: rs' =>
      Request offset (Ok p) :: Sleep 65 :: trace (offset + length p) rs'
  | Failed :: rs' => Request offset Failed :: Sleep 60 :: trace offset rs'
  end.
End Spec.

(** A full page, then a transport that stays down. *)
Definition page_then_dead (n offset : nat) : response Z :=
  match n with
  | O => Ok (replicate 1000 7)
  | _ => Failed
  end.
End RetryRun.

(** *** The row of a key *)
Module RowSpec.
Section Spec.
Context `{PyFloat}.

(** 013: the row of product [pid] is the projection of the item that
    [data] holds under [pid], or 27 empty strings when it holds
    none. *)
Definition price_row (data : list (value * item)) (dq1_value : value)
    (pid : Z) (row : list value) : Prop :=
  match Py.dict_get Py.key_eqb data (VInt pid) with
  | Some it => Price_logistic.item_row it dq1_value = Some row
  | None => row = replicate 27 (VStr "")
  end.

(** 013: the item [data] holds under [pid] has no row: its projection
    raises. *)
Definition price_row_raises (data : list (value * item))
    (dq1_value : value) (pid : Z) : Prop :=
  exists it, Py.dict_get Py.key_eqb data (VInt pid) = Some it /\
             Price_logistic.item_row it dq1_value = None.

(** 008: the row of [sku] holds the six cells read from the first item
    of [items] that prints as [sku] (from an empty record when there
    is none), but for the returns cell, read from the sum over all
    items that print as [sku]. *)
Definition stock_row (items : list item) (sku : string)
    (row : list string) : Prop :=
  let base : item := default ∅ (StocksSpec.first_item sku items) in
  exists days idc ads grade_ru grade_desc,
    OzonAnalyticsStocks._as_int_or_none (Py.get base "days_without_sales")
    = Some days /\
    OzonAnalyticsStocks._as_int_or_none (Py.get base "idc") = Some idc /\
    OzonAnalyticsStocks._as_float_or_none (Py.get base "ads") = Some ads /\
    OzonAnalyticsStocks.turnover_grade_ru (Py.get base "turnover_grade")
    = Some grade_ru /\
    OzonAnalyticsStocks.describe_turnover_grade
      (Py.get base "turnover_grade") = Some grade_desc /\
    row = [ OzonAnalyticsStocks._to_sheet_cell
              (OzonAnalyticsStocks.of_int days);
            OzonAnalyticsStocks._to_sheet_cell
              (OzonAnalyticsStocks.of_int idc);
            OzonAnalyticsStocks._to_sheet_cell_blank_if_zero
              (StocksSpec.returns_total sku items);
            OzonAnalyticsStocks._to_sheet_cell
              (OzonAnalyticsStocks.of_str grade_ru);
            OzonAnalyticsStocks._to_sheet_cell
              (OzonAnalyticsStocks.of_str grade_desc);
            match ads with
            | None => ""
            | Some ads =>
                if float_is_zero (float_round2 ads) then "0"
                else float_fmt2 (float_round2 ads)
            end ].

(** 008: the returns count of a keyed item cannot be read: the
    conversion raises. *)
Definition returns_raise (items : list item) : Prop :=
  exists it, it ∈ items /\ is_Some (OzonAnalyticsStocks.sku_str it) /\
    OzonAnalyticsStocks._as_int_or_none
      (Py.get it "return_to_seller_stock_count") = None.
End Spec.

#[local] Existing Instance QFloat.instance.

(** A fetched item with its product id and its acquiring fee. *)
Definition priced (pid acquiring : Z) : item :=
  list_to_map [ ("product_id", VInt pid); ("acquiring", VInt acquiring) ].
End RowSpec.

(** * Properties *)

(** ** Python loops that append *)
Section ForLoops.
Context {A B : Type}.

(** A [for] loop whose body appends one row per element computes the
    rows of the elements in order, and raises as soon as one row does. *)
Lemma for_append (row : A -> option B) (xs : list A) : forall acc,
  Py.for_ xs acc (fun rows x => r ← row x; Some (rows ++ [r]))
  = (fun rs => acc ++ rs) <$> mapM row xs.
Proof.
  induction xs as [|x xs IH]; intros acc; cbn [Py.for_ mapM].
  - cbn. by rewrite app_nil_r.
  - destruct (row x) as [r|]; cbn; [|done].
    rewrite IH. destruct (mapM row xs) as [rs|]; cbn; [|done].
    by rewrite <- app_assoc.
Qed.

Lemma for_append_nil (row : A -> option B) (xs : list A) :
  Py.for_ xs [] (fun rows x => r ← row x; Some (rows ++ [r]))
  = mapM row xs.
Proof. rewrite for_append. by destruct (mapM row xs). Qed.

(** The same for a body that cannot raise. *)
Lemma foldl_append (f : A -> B) (xs : list A) : forall acc,
  foldl (fun rows x => rows ++ [f x]) acc xs = acc ++ (f <$> xs).
Proof.
  induction xs as [|x xs IH]; intros acc; cbn [foldl fmap list_fmap].
  - by rewrite app_nil_r.
  - by rewrite IH, <- app_assoc.
Qed.
End ForLoops.

(** ** Chunking *)
Section Chunks.
Context {A : Type}.
Implicit Types (lst : list A) (n i fuel : nat).

Lemma range_from_nonempty fuel i stop step :
  Py.range_from fuel i stop step <> [] -> (i < stop)%nat.
Proof.
  destruct fuel as [|fuel]; simpl; [done|].
  destruct (Nat.ltb_spec i stop); [done|congruence].
Qed.

Lemma length_slice lst n i :
  length (Py.slice lst i (i + n)) = Nat.min n (length lst - i).
Proof.
  unfold Py.slice. rewrite length_take, length_drop.
  replace (i + n - i)%nat with n by lia. reflexivity.
Qed.

Lemma slices_concat lst n fuel i :
  (0 < n)%nat -> (length lst <= fuel + i)%nat ->
  concat ((fun i => Py.slice lst i (i + n)) <$> Py.range_from fuel i (length lst) n)
  = drop i lst.
Proof.
  intros Hn. revert i. induction fuel as [|fuel IH]; intros i Hfuel; simpl.
  - symmetry. apply drop_ge. lia.
  - destruct (Nat.ltb_spec i (length lst)) as [Hi|Hi]; simpl.
    + rewrite IH by lia. unfold Py.slice.
      replace (i + n - i)%nat with n by lia.
      rewrite <- (drop_drop lst n i). apply take_drop.
    + symmetry. apply drop_ge. lia.
Qed.

Lemma slices_full_but_last lst n fuel i :
  (0 < n)%nat ->
  full_but_last n
    ((fun i => Py.slice lst i (i + n)) <$> Py.range_from fuel i (length lst) n).
Proof.
  intros Hn. revert i.
  induction fuel as [|fuel IH]; intros i; cbn [Py.range_from].
  - rewrite fmap_nil. split; [constructor|].
    intros k c Hk. by rewrite lookup_nil in Hk.
  - destruct (Nat.ltb_spec i (length lst)) as [Hi|Hi].
    2:{ rewrite fmap_nil. split; [constructor|].
        intros k c Hk. by rewrite lookup_nil in Hk. }
    + rewrite fmap_cons. destruct (IH (i + n)%nat) as [Hall Hfull]. split.
      * constructor; [|done]. rewrite length_slice. lia.
      * intros [|k] c Hk Hlen; cbn [lookup list_lookup] in Hk;
          rewrite length_cons in Hlen.
        -- injection Hk as <-. rewrite length_slice.
           assert (i + n < length lst)%nat; [|lia].
           apply (range_from_nonempty fuel _ _ n).
           intros Hnil. rewrite Hnil in Hlen. simpl in Hlen. lia.
        -- apply (Hfull k c Hk). lia.
Qed.

Lemma chunks_slices lst n :
  (0 < n)%nat ->
  exists cs, Analytics_base.chunks lst n = Some cs /\
             concat cs = lst /\ full_but_last n cs.
Proof.
  intros Hn. unfold Analytics_base.chunks, Py.range.
  destruct (Nat.eqb_spec n 0) as [->|_]; [lia|].
  eexists. split; [done|]. split.
  - rewrite slices_concat by lia. apply drop_0.
  - by apply slices_full_but_last.
Qed.

(** C5.  For every sequence [lst] and every chunk size [n > 0],
    [chunks(lst, n)] yields chunks whose concatenation is [lst] itself
    (so order is kept within and across chunks); every chunk but the last
    has exactly [n] elements, and no chunk is empty or longer than
    [n]. *)
Theorem chunks_reassemble lst n :
  (0 < n)%nat ->
  exists cs, Analytics_base.chunks lst n = Some cs /\
             concat cs = lst /\ full_but_last n cs.
Proof. apply chunks_slices. Qed.
End Chunks.

Lemma chunks_reassemble_witness :
  (0 < 2)%nat /\
  exists cs, Analytics_base.chunks [1; 2; 3; 4; 5] 2 = Some cs /\
             concat cs = [1; 2; 3; 4; 5] /\ full_but_last 2 cs.
Proof. split; [lia | apply (chunks_reassemble [1; 2; 3; 4; 5] 2); lia]. Defined.

Example chunks_of_five :
  Analytics_base.chunks [1; 2; 3; 4; 5] 2 = Some [[1; 2]; [3; 4]; [5]].
Proof. reflexivity. Qed.

(** The list comprehension of 006.Stock_FBO_FBS.py is [chunks] at 1000. *)
Lemma stock_chunks_cut (product_ids : list Z) :
  concat (Stock_FBO_FBS.chunks product_ids) = product_ids /\
  full_but_last 1000 (Stock_FBO_FBS.chunks product_ids).
Proof.
  destruct (chunks_slices product_ids 1000) as (cs & Hcs & Hcat & Hfull);
    [lia|].
  unfold Analytics_base.chunks in Hcs. unfold Stock_FBO_FBS.chunks.
  destruct (Py.range (length product_ids) 1000) as [offsets|]; [|done].
  injection Hcs as <-. destruct product_ids; [|done].
  split; [done|]. split; [constructor|].
  intros k c Hk. by rewrite lookup_nil in Hk.
Qed.

(** The loop of [get_ozon_prices] in 013.Price_logistic.py sends the chunks
    of [product_ids] at [limit], one request each, in order. *)
Lemma price_loop_chunks `{PyFloat} post (product_ids : list Z) (limit : nat) :
  forall offsets n acc,
  Price_logistic.get_ozon_prices_loop post product_ids limit offsets n acc
  = PriceSpec.store_chunks post
      ((fun i => Py.slice product_ids i (i + limit)) <$> offsets) n acc.
Proof.
  induction offsets as [|i offsets IH]; intros n acc; [done|].
  cbn [Price_logistic.get_ozon_prices_loop]. rewrite IH. by rewrite fmap_cons.
Qed.

Lemma price_chunks_sent `{PyFloat} post (product_ids : list Z) (limit : nat) :
  Price_logistic.get_ozon_prices post product_ids limit
  = cs ← Analytics_base.chunks product_ids limit;
    Some (PriceSpec.store_chunks post cs 0 []).
Proof.
  unfold Price_logistic.get_ozon_prices, Analytics_base.chunks.
  destruct (Py.range (length product_ids) limit) as [offsets|]; [|done].
  cbn. by rewrite price_loop_chunks.
Qed.

(** ** Pagination *)

(** *** Cursor idiom, 001.Product_offer_id.py *)
Section CursorLoop.
Import Product_offer_id CursorPages.
Context {Item : Type}.
Implicit Types (post : nat -> string -> response Item)
  (ps : list (page Item)) (p : page Item).

Lemma get_all_products_loop_pages post ps : forall fuel n acc cursor,
  serves post n cursor ps -> paged ps = true -> (length ps <= fuel)%nat ->
  get_all_products_loop post fuel n acc cursor
  = Some (Return (acc ++ concat (items <$> ps))).
Proof.
  induction ps as [|p ps IH]; intros fuel n acc cursor Hs Hp Hfuel;
    [discriminate|].
  destruct fuel as [|fuel]; [simpl in Hfuel; lia|].
  destruct Hs as [Hpost Hs]. cbn [get_all_products_loop].
  rewrite Hpost. cbn [Z.eqb Pos.eqb fmap list_fmap concat].
  destruct ps as [|q ps].
  - cbn [paged] in Hp. rewrite app_nil_r.
    destruct (length (items p) <? limit)%nat; [done|].
    simpl in Hp. by rewrite Hp.
  - change (paged (p :: q :: ps)) with
      (negb (length (items p) <? limit)%nat && Py.nonempty (last_id p)
       && paged (q :: ps)) in Hp.
    apply andb_prop in Hp as [Hp Hps]. apply andb_prop in Hp as [Hlen Hid].
    apply negb_true_iff in Hlen. rewrite Hlen, Hid. cbn [negb].
    rewrite (IH fuel (S n) _ _ Hs Hps) by (simpl in Hfuel |- *; lia).
    by rewrite <- app_assoc.
Qed.
End CursorLoop.

(** *** Cursor idiom, OzonAPIService.get_all_products *)
Section ServiceLoop.
Import OzonAPIService ServicePages.
Context {Item : Type}.
Implicit Types (post : nat -> string -> option (page Item))
  (ps : list (page Item)) (p : page Item).

Lemma service_loop_pages post limit ps : forall fuel n acc cursor,
  serves post n cursor ps -> paged limit ps = true ->
  (length ps <= fuel)%nat ->
  get_all_products_loop post fuel n acc cursor limit
  = Some (Return (acc ++ concat (items <$> ps))).
Proof.
  induction ps as [|p ps IH]; intros fuel n acc cursor Hs Hp Hfuel;
    [discriminate|].
  destruct fuel as [|fuel]; [simpl in Hfuel; lia|].
  destruct Hs as [Hpost Hs]. cbn [get_all_products_loop].
  rewrite Hpost. cbn [fmap list_fmap concat].
  fold (stops limit p).
  destruct ps as [|q ps].
  - cbn [paged] in Hp. by rewrite Hp, app_nil_r.
  - change (paged limit (p :: q :: ps)) with
      (negb (stops limit p) && paged limit (q :: ps)) in Hp.
    apply andb_prop in Hp as [Hp Hps]. apply negb_true_iff in Hp.
    rewrite Hp.
    rewrite (IH fuel (S n) _ _ Hs Hps) by (simpl in Hfuel |- *; lia).
    by rewrite <- app_assoc.
Qed.
End ServiceLoop.

(** *** Offset idiom, 005.FBO_Oborachivaemost.py *)
Section OffsetLoop.
Import FBO_Oborachivaemost OffsetPages.
Context {Item : Type}.
Implicit Types (post : nat -> nat -> response Item)
  (ps : list (list Item)).

Lemma get_all_ozon_data_loop_pages post max_retries ps :
  forall fuel n acc offset retry_count,
  serves post n offset ps -> paged ps = true ->
  (length ps <= fuel)%nat ->
  exists tr,
    get_all_ozon_data_loop post max_retries fuel n acc offset retry_count
    = Some (Return (acc ++ concat ps), tr).
Proof.
  induction ps as [|p ps IH]; intros fuel n acc offset rc Hs Hp Hfuel;
    [discriminate|].
  destruct fuel as [|fuel]; [simpl in Hfuel; lia|].
  destruct Hs as [Hpost Hs]. cbn [get_all_ozon_data_loop].
  rewrite Hpost. cbn [concat].
  destruct ps as [|q ps].
  - cbn [paged] in Hp. rewrite app_nil_r.
    destruct p as [|x p]; [rewrite app_nil_r; eauto|].
    rewrite Hp. eauto.
  - change (paged (p :: q :: ps)) with
      (negb (length p <? 1000)%nat && paged (q :: ps)) in Hp.
    apply andb_prop in Hp as [Hlen Hps]. apply negb_true_iff in Hlen.
    destruct p as [|x p]; [done|]. rewrite Hlen.
    destruct (IH fuel (S n) (acc ++ x :: p) (offset + length (x :: p))%nat
                rc Hs Hps) as [tr Htr]; [simpl in Hfuel |- *; lia|].
    rewrite Htr. cbn. rewrite <- app_assoc. eauto.
Qed.

(** Against a server that slices a finite list of items, the offset loop
    ends and returns the list. *)
Lemma get_all_ozon_data_loop_dataset (data : list Item) max_retries :
  forall fuel n offset retry_count,
  (offset <= length data)%nat ->
  (length data - offset < fuel * 1000)%nat ->
  exists tr,
    get_all_ozon_data_loop (dataset_post data) max_retries fuel n
      (take offset data) offset retry_count
    = Some (Return data, tr).
Proof.
  induction fuel as [|fuel IH]; intros n offset rc Hoff Hfuel; [lia|].
  cbn [get_all_ozon_data_loop]. unfold dataset_post at 1.
  assert (length (take 1000 (drop offset data))
          = Nat.min 1000 (length data - offset)) as Hlen
    by (rewrite <- length_drop; apply length_take).
  destruct (take 1000 (drop offset data)) as [|x p] eqn:Hp.
  - cbn [length] in Hlen. rewrite take_ge by lia. eauto.
  - rewrite <- Hp, take_take_drop.
    destruct (Nat.ltb_spec (length (take 1000 (drop offset data))) 1000)
      as [Hshort|Hfull].
    + rewrite take_ge; [eauto|]. rewrite Hp in Hshort. lia.
    + rewrite Hp in Hfull.
      assert (length (take 1000 (drop offset data)) = 1000%nat) as ->
        by (rewrite Hp; lia).
      destruct (IH (S n) (offset + 1000)%nat rc) as [tr Htr]; [lia..|].
      rewrite Htr. cbn. eauto.
Qed.

Lemma get_all_ozon_data_dataset (data : list Item) max_retries fuel :
  (length data < fuel * 1000)%nat ->
  exists tr,
    get_all_ozon_data (dataset_post data) max_retries fuel
    = Some (Return data, tr).
Proof.
  intros Hfuel. unfold get_all_ozon_data.
  apply (get_all_ozon_data_loop_dataset data max_retries fuel 0 0 0); lia.
Qed.
End OffsetLoop.

(** C1, as the code has it.  When a transport serves a finite series of
    pages that ends where the loop stops (every page but the last is full
    and, in the cursor idiom, carries a cursor; the last is short or, in
    the cursor idiom, carries no cursor), each paginated fetch terminates
    after one request per page and returns the concatenation of the items
    of all pages, in order: the cursor loop of 001, the cursor loop of
    OzonAPIService and the offset loop of 005. *)
Theorem fetch_all_pages :
  (forall (Item : Type) post (ps : list (Product_offer_id.page Item)) fuel,
     CursorPages.serves post 0 "" ps -> CursorPages.paged ps = true ->
     (length ps <= fuel)%nat ->
     Product_offer_id.get_all_products post fuel
     = Some (Return (concat (Product_offer_id.items <$> ps)))) /\
  (forall (Item : Type) post limit (ps : list (OzonAPIService.page Item)) fuel,
     ServicePages.serves post 0 "" ps -> ServicePages.paged limit ps = true ->
     (length ps <= fuel)%nat ->
     OzonAPIService.get_all_products post fuel None "" limit
     = Some (Return (concat (OzonAPIService.items <$> ps)))) /\
  (forall (Item : Type) post max_retries (ps : list (list Item)) fuel,
     OffsetPages.serves post 0 0 ps -> OffsetPages.paged ps = true ->
     (length ps <= fuel)%nat ->
     exists tr,
       FBO_Oborachivaemost.get_all_ozon_data post max_retries fuel
       = Some (Return (concat ps), tr)).
Proof.
  split; [|split].
  - intros Item post ps fuel Hs Hp Hfuel.
    apply (get_all_products_loop_pages post ps fuel 0 [] "" Hs Hp Hfuel).
  - intros Item post limit ps fuel Hs Hp Hfuel.
    apply (service_loop_pages post limit ps fuel 0 [] "" Hs Hp Hfuel).
  - intros Item post max_retries ps fuel Hs Hp Hfuel.
    apply (get_all_ozon_data_loop_pages post max_retries ps fuel 0 [] 0%nat 0
             Hs Hp Hfuel).
Qed.

Lemma fetch_all_pages_witness :
  Product_offer_id.get_all_products CursorPages.full_post 2
  = Some (Return (replicate 1000 7 ++ [8; 9])) /\
  OzonAPIService.get_all_products ServicePages.full_post 3 None "" 2
  = Some (Return [1; 2; 3; 4; 5]) /\
  exists tr,
    FBO_Oborachivaemost.get_all_ozon_data OffsetPages.full_post 3 2
    = Some (Return (replicate 1000 7 ++ [8; 9]), tr).
Proof.
  destruct fetch_all_pages as (Hcursor & Hservice & Hoffset).
  split; [|split].
  - apply (Hcursor Z CursorPages.full_post CursorPages.full_pages 2%nat);
      [repeat split | reflexivity | simpl; lia].
  - apply (Hservice Z ServicePages.full_post 2 ServicePages.full_pages 3%nat);
      [repeat split | reflexivity | simpl; lia].
  - destruct (Hoffset Z OffsetPages.full_post 3 OffsetPages.full_pages 2%nat)
      as [tr Htr]; [repeat split | reflexivity | simpl; lia |].
    exists tr. exact Htr.
Defined.

(** C1, as stated, fails: a series whose first page is short is a finite
    series of pages, and both idioms stop after that page.  The cursor loop
    and the offset loop return the first page only, whatever the fuel. *)
Lemma fetch_all_stops_at_short_page :
  (CursorPages.serves CursorPages.short_post 0 "" CursorPages.short_pages /\
   forall fuel,
     Product_offer_id.get_all_products CursorPages.short_post (S fuel)
     = Some (Return [1]) /\
     Product_offer_id.get_all_products CursorPages.short_post (S fuel)
     <> Some (Return (concat (Product_offer_id.items <$> CursorPages.short_pages)))) /\
  (OffsetPages.serves OffsetPages.short_post 0 0 OffsetPages.short_pages /\
   forall fuel,
     fst <$> FBO_Oborachivaemost.get_all_ozon_data OffsetPages.short_post 3 (S fuel)
     = Some (Return [1]) /\
     fst <$> FBO_Oborachivaemost.get_all_ozon_data OffsetPages.short_post 3 (S fuel)
     <> Some (Return (concat OffsetPages.short_pages))).
Proof.
  split; (split; [repeat split|]); intros fuel; split;
    try reflexivity; discriminate.
Qed.

(** ** Retries of the offset fetch, 005.FBO_Oborachivaemost.py *)
Section Retry.
Import FBO_Oborachivaemost RetrySpec.
Context {Item : Type}.
Implicit Types (post : nat -> nat -> response Item)
  (tr : list (event Item)) (out : outcome exn (list Item)).

Lemma get_all_ozon_data_loop_trace post max_retries :
  forall fuel n acc offset rc out tr,
  (rc <= max_retries)%Z ->
  get_all_ozon_data_loop post max_retries fuel n acc offset rc
  = Some (out, tr) ->
  (exists o r rest, tr = Request o r :: rest) /\
  (rc + Z.of_nat (failures tr) <= max_retries + 1)%Z /\
  (out = Raise RequestException <->
   (rc + Z.of_nat (failures tr) = max_retries + 1)%Z) /\
  (forall e, out = Raise e -> e = RequestException) /\
  backoff tr /\ offsets_from offset tr /\
  (forall xs, out = Return xs -> xs = acc ++ received tr).
Proof.
  induction fuel as [|fuel IH]; intros n acc offset rc out tr Hrc Hrun;
    [discriminate|].
  cbn [get_all_ozon_data_loop] in Hrun.
  destruct (post n offset) as [items|] eqn:Hpost.
  - destruct items as [|x items].
    + injection Hrun as <- <-. cbn.
      split_and!; eauto; try lia; try discriminate.
      * split; [discriminate|lia].
      * intros xs [= <-]. by rewrite app_nil_r.
    + destruct (length (x :: items) <? 1000)%nat.
      * injection Hrun as <- <-. cbn.
        split_and!; eauto; try lia; try discriminate.
        -- split; [discriminate|lia].
        -- intros xs [= <-]. by rewrite app_nil_r.
      * destruct (get_all_ozon_data_loop post max_retries fuel (S n)
                    (acc ++ x :: items) (offset + length (x :: items)) rc)
          as [[out' tr']|] eqn:Hrec; [|discriminate].
        cbn in Hrun. injection Hrun as <- <-.
        destruct (IH _ _ _ _ _ _ Hrc Hrec)
          as (Hhd & Hle & Hraise & Hexn & Hback & Hoff & Hret).
        cbn. split_and!; eauto.
        intros xs Hxs. rewrite (Hret xs Hxs), <- app_assoc. done.
  - destruct (rc + 1 >? max_retries)%Z eqn:Hgt.
    + injection Hrun as <- <-. cbn.
      apply Z.gtb_lt in Hgt.
      split_and!; eauto; try lia.
      * split; [lia|done].
      * intros e [= <-]. done.
      * discriminate.
    + destruct (get_all_ozon_data_loop post max_retries fuel (S n) acc
                  offset (rc + 1)) as [[out' tr']|] eqn:Hrec; [|discriminate].
      cbn in Hrun. injection Hrun as <- <-.
      assert (rc + 1 <= max_retries)%Z as Hrc'.
      { destruct (Z.gtb_spec (rc + 1) max_retries); [done|lia]. }
      destruct (IH _ _ _ _ _ _ Hrc' Hrec)
        as ((o & r & rest & ->) & Hle & Hraise & Hexn & Hback & Hoff & Hret).
      cbn [failures attempts backoff offsets_from received].
      cbn [failures] in Hle, Hraise.
      split_and!; eauto 6; try lia.
      split; intros Hout; [apply Hraise in Hout; lia|apply Hraise; lia].
Qed.

Lemma answers_app post rs : forall r n offset,
  RetryRun.answers post n offset (rs ++ [r]) ->
  RetryRun.answers post n offset rs /\
  post (n + length rs)%nat (offset + length (RetryRun.pages rs))%nat = r.
Proof.
  induction rs as [|r0 rs IH]; intros r n offset Hrs.
  - destruct Hrs as [Hr _]. cbn. by rewrite !Nat.add_0_r.
  - destruct Hrs as [Hr0 Hrs]. apply IH in Hrs as [Hrs Hr].
    split; [by split|]. rewrite <- Hr.
    destruct r0 as [p|]; cbn [RetryRun.pages length]; f_equal;
      rewrite ?length_app; lia.
Qed.

(** While the answers are failures within the allowance or full pages,
    the loop goes on: one request per answer. *)
Lemma get_all_ozon_data_loop_goes_on post max_retries rs :
  forall fuel n acc offset rc,
  RetryRun.answers post n offset rs ->
  forallb RetryRun.goes_on rs = true ->
  (rc + Z.of_nat (RetryRun.failed rs) <= max_retries)%Z ->
  get_all_ozon_data_loop post max_retries (length rs + fuel) n acc offset rc
  = '(out, tr) ← get_all_ozon_data_loop post max_retries fuel
                   (n + length rs) (acc ++ RetryRun.pages rs)
                   (offset + length (RetryRun.pages rs))
                   (rc + Z.of_nat (RetryRun.failed rs));
    Some (out, RetryRun.trace offset rs ++ tr).
Proof.
  induction rs as [|r rs IH]; intros fuel n acc offset rc Hrs Hgo Hrc.
  - cbn. rewrite !Nat.add_0_r, Z.add_0_r, app_nil_r.
    by destruct (get_all_ozon_data_loop post max_retries fuel n acc offset
                   rc) as [[out tr]|].
  - destruct Hrs as [Hpost Hrs]. cbn [forallb] in Hgo.
    apply andb_prop in Hgo as [Hr Hgo].
    cbn [length Nat.add get_all_ozon_data_loop]. rewrite Hpost.
    destruct r as [p|].
    + cbn [RetryRun.goes_on] in Hr. apply negb_true_iff in Hr.
      destruct p as [|x p]; [discriminate Hr|].
      rewrite Hr. cbn [RetryRun.failed] in Hrc.
      rewrite (IH fuel (S n) (acc ++ x :: p) (offset + length (x :: p))%nat
                 rc Hrs Hgo Hrc).
      cbn [RetryRun.pages RetryRun.failed RetryRun.trace].
      rewrite length_app, <- app_assoc.
      replace (S n + length rs)%nat with (n + S (length rs))%nat by lia.
      replace (offset + length (x :: p) + length (RetryRun.pages rs))%nat
        with (offset + (length (x :: p) + length (RetryRun.pages rs)))%nat
        by lia.
      by destruct (get_all_ozon_data_loop post max_retries fuel
                     (n + S (length rs)) (acc ++ (x :: p) ++ RetryRun.pages rs)
                     (offset + (length (x :: p) + length (RetryRun.pages rs)))
                     (rc + Z.of_nat (RetryRun.failed rs))) as [[out tr]|].
    + cbn [RetryRun.failed] in Hrc.
      destruct (Z.gtb_spec (rc + 1) max_retries) as [Hgt|_]; [lia|].
      rewrite Nat.add_0_r in Hrs.
      rewrite (IH fuel (S n) acc offset (rc + 1)%Z Hrs Hgo) by lia.
      cbn [RetryRun.pages RetryRun.failed RetryRun.trace].
      replace (S n + length rs)%nat with (n + S (length rs))%nat by lia.
      replace (rc + 1 + Z.of_nat (RetryRun.failed rs))%Z
        with (rc + Z.of_nat (S (RetryRun.failed rs)))%Z by lia.
      by destruct (get_all_ozon_data_loop post max_retries fuel
                     (n + S (length rs)) (acc ++ RetryRun.pages rs)
                     (offset + length (RetryRun.pages rs))
                     (rc + Z.of_nat (S (RetryRun.failed rs))))
        as [[out tr]|].
Qed.

(** The failure after [max_retries] failures raises. *)
Lemma get_all_ozon_data_raises post max_retries rs fuel :
  RetryRun.answers post 0 0 (rs ++ [Failed]) ->
  forallb RetryRun.goes_on rs = true ->
  Z.of_nat (RetryRun.failed rs) = max_retries ->
  (length rs < fuel)%nat ->
  get_all_ozon_data post max_retries fuel
  = Some (Raise RequestException,
          RetryRun.trace 0 rs
          ++ [Request (length (RetryRun.pages rs)) Failed]).
Proof.
  intros Hrs Hgo Hfailed Hfuel. apply answers_app in Hrs as [Hrs Hlast].
  cbn [Nat.add] in Hlast.
  unfold get_all_ozon_data.
  replace fuel with (length rs + S (fuel - length rs - 1))%nat by lia.
  rewrite (get_all_ozon_data_loop_goes_on post max_retries rs _ 0 [] 0%nat 0
             Hrs Hgo) by lia.
  cbn [Nat.add app get_all_ozon_data_loop]. rewrite Hlast.
  destruct (Z.gtb_spec (0 + Z.of_nat (RetryRun.failed rs) + 1) max_retries);
    [done|lia].
Qed.

(** A short page after at most [max_retries] failures is the end of a
    fetch that returns. *)
Lemma get_all_ozon_data_returns post max_retries rs p fuel :
  RetryRun.answers post 0 0 (rs ++ [Ok p]) ->
  forallb RetryRun.goes_on rs = true ->
  (Z.of_nat (RetryRun.failed rs) <= max_retries)%Z ->
  (length p < 1000)%nat -> (length rs < fuel)%nat ->
  get_all_ozon_data post max_retries fuel
  = Some (Return (RetryRun.pages rs ++ p),
          RetryRun.trace 0 rs
          ++ [Request (length (RetryRun.pages rs)) (Ok p)]).
Proof.
  intros Hrs Hgo Hfailed Hshort Hfuel.
  apply answers_app in Hrs as [Hrs Hlast].
  cbn [Nat.add] in Hlast.
  unfold get_all_ozon_data.
  replace fuel with (length rs + S (fuel - length rs - 1))%nat by lia.
  rewrite (get_all_ozon_data_loop_goes_on post max_retries rs _ 0 [] 0%nat 0
             Hrs Hgo) by lia.
  cbn [Nat.add app get_all_ozon_data_loop]. rewrite Hlast.
  destruct p as [|x p]; [by rewrite app_nil_r|].
  destruct (Nat.ltb_spec (length (x :: p)) 1000); [done|lia].
Qed.

(** C7, as the code has it.  For every transport and every
    [max_retries >= 0]:
    - a run of [get_all_ozon_data] that ends has failed at most
      [max_retries + 1] times over the whole fetch (the counter is shared
      by all pages and never reset) and raises exactly when it has
      failed [max_retries + 1] times; a failed request that does not end
      the run is followed by a sleep of 60 seconds and a request at the
      same offset; every request carries the number of items received so
      far, and the items returned are the pages received, in order, each
      once;
    - the run does end with the error: when the answers are full pages
      and [max_retries] failures, in any order, and the next request
      fails, the fetch raises RequestException at that request, the
      [max_retries + 1]-th failure (the fourth with the default), having
      slept 60 seconds after each earlier failure;
    - and it does end with the items: when a short page comes after full
      pages and at most [max_retries] failures, the fetch returns the
      items of all pages, in order. *)
Theorem get_all_ozon_data_retries post max_retries :
  (0 <= max_retries)%Z ->
  (forall fuel out tr,
     get_all_ozon_data post max_retries fuel = Some (out, tr) ->
     (Z.of_nat (failures tr) <= max_retries + 1)%Z /\
     (out = Raise RequestException <->
      (Z.of_nat (failures tr) = max_retries + 1)%Z) /\
     backoff tr /\ offsets_from 0 tr /\
     (forall xs, out = Return xs -> xs = received tr)) /\
  (forall rs fuel,
     RetryRun.answers post 0 0 (rs ++ [Failed]) ->
     forallb RetryRun.goes_on rs = true ->
     Z.of_nat (RetryRun.failed rs) = max_retries ->
     (length rs < fuel)%nat ->
     get_all_ozon_data post max_retries fuel
     = Some (Raise RequestException,
             RetryRun.trace 0 rs
             ++ [Request (length (RetryRun.pages rs)) Failed])) /\
  (forall rs p fuel,
     RetryRun.answers post 0 0 (rs ++ [Ok p]) ->
     forallb RetryRun.goes_on rs = true ->
     (Z.of_nat (RetryRun.failed rs) <= max_retries)%Z ->
     (length p < 1000)%nat -> (length rs < fuel)%nat ->
     get_all_ozon_data post max_retries fuel
     = Some (Return (RetryRun.pages rs ++ p),
             RetryRun.trace 0 rs
             ++ [Request (length (RetryRun.pages rs)) (Ok p)])).
Proof.
  intros Hmax. split_and!.
  - intros fuel out tr Hrun.
    destruct (get_all_ozon_data_loop_trace post max_retries fuel 0 [] 0%nat
                0 out tr Hmax Hrun)
      as (_ & Hle & Hraise & _ & Hback & Hoff & Hret).
    split_and!; try done; try lia.
  - intros rs fuel. apply get_all_ozon_data_raises.
  - intros rs p fuel. apply get_all_ozon_data_returns.
Qed.
End Retry.

Section RetryExamples.
Import FBO_Oborachivaemost.

Lemma get_all_ozon_data_retries_witness :
(0 <= 3)%Z /\
(exists out tr,
   get_all_ozon_data RetrySpec.hiccup_post 3 3 = Some (out, tr) /\
   tr = [ Request 0 (Ok (replicate 1000 7)); Sleep 65;
          Request 1000 Failed; Sleep 60; Request 1000 (Ok [8; 9]) ] /\
   (Z.of_nat (RetrySpec.failures tr) <= 3 + 1)%Z /\
   (out = Raise RequestException <->
    (Z.of_nat (RetrySpec.failures tr) = 3 + 1)%Z) /\
   RetrySpec.backoff tr /\ RetrySpec.offsets_from 0 tr /\
   (forall xs, out = Return xs -> xs = RetrySpec.received tr)) /\
get_all_ozon_data RetryRun.page_then_dead 3 5
= Some (Raise RequestException,
        [ Request 0 (Ok (replicate 1000 7)); Sleep 65;
          Request 1000 Failed; Sleep 60; Request 1000 Failed; Sleep 60;
          Request 1000 Failed; Sleep 60; Request 1000 Failed ]) /\
get_all_ozon_data RetrySpec.hiccup_post 3 3
= Some (Return (replicate 1000 7 ++ [8; 9]),
        [ Request 0 (Ok (replicate 1000 7)); Sleep 65;
          Request 1000 Failed; Sleep 60; Request 1000 (Ok [8; 9]) ]).
Proof.
split; [lia|].
destruct (get_all_ozon_data_retries RetrySpec.hiccup_post 3)
  as (Hends & _ & Hreturns); [lia|].
destruct (get_all_ozon_data_retries RetryRun.page_then_dead 3)
  as (_ & Hraises & _); [lia|].
split_and!.
- eexists _, _. split; [reflexivity|]. split; [reflexivity|].
  apply (Hends 3%nat). reflexivity.
- apply (Hraises [Ok (replicate 1000 7); Failed; Failed; Failed] 5%nat);
    [repeat split | reflexivity | reflexivity | simpl; lia].
- apply (Hreturns [Ok (replicate 1000 7); Failed] [8; 9] 3%nat);
    [repeat split | reflexivity | simpl; lia | simpl; lia | simpl; lia].
Defined.

(** C7, as stated, fails on the number of attempts: with the default
  [max_retries = 3] a request that fails three times is attempted a fourth
  time, and the fetch succeeds if that attempt does; the error is raised
  on the fourth failure, after four attempts. *)
Lemma get_all_ozon_data_fourth_attempt :
FBO_Oborachivaemost.get_all_ozon_data RetrySpec.flaky_post 3 4
= Some (Return [1],
        [ Request 0 Failed; Sleep 60; Request 0 Failed; Sleep 60;
          Request 0 Failed; Sleep 60; Request 0 (Ok [1]) ]) /\
FBO_Oborachivaemost.get_all_ozon_data RetrySpec.dead_post 3 4
= Some (Raise RequestException,
        [ Request 0 Failed; Sleep 60; Request 0 Failed; Sleep 60;
          Request 0 Failed; Sleep 60; Request 0 Failed ]) /\
(forall out tr,
   FBO_Oborachivaemost.get_all_ozon_data RetrySpec.dead_post 3 3
   <> Some (out, tr)) /\
~ (forall fuel out tr,
     FBO_Oborachivaemost.get_all_ozon_data RetrySpec.flaky_post 3 fuel
     = Some (out, tr) -> (RetrySpec.attempts tr <= 3)%nat).
Proof.
split; [reflexivity|]. split; [reflexivity|]. split; [discriminate|].
intros Hle. specialize (Hle 4%nat _ _ eq_refl). cbn in Hle. lia.
Qed.
End RetryExamples.

(** ** Credential files *)
Section Credentials.
Import CredentialSpec.

(** The readers that drop blank lines first (001, 005, 008, 013) raise
    on a file with fewer than four non-blank lines and return the first
    four non-blank lines, stripped, otherwise. *)
Lemma filtering_readers_raise (lines : list string) :
  (length (filter nonblank lines) < 4)%nat ->
  Product_offer_id.read_api_credentials lines = Raise ValueError /\
  FBO_Oborachivaemost.read_api_credentials lines = Raise ValueError /\
  OzonAnalyticsStocks.init lines = Raise ValueError /\
  Price_logistic.read_api_credentials lines = Raise ValueError.
Proof.
  intros Hlen.
  unfold Product_offer_id.read_api_credentials,
    FBO_Oborachivaemost.read_api_credentials, OzonAnalyticsStocks.init,
    Price_logistic.read_api_credentials.
  fold nonblank.
  destruct (filter nonblank lines) as [|l0 [|l1 [|l2 [|l3 rest]]]];
    simpl in Hlen; try lia; done.
Qed.

Lemma filtering_readers_return (lines : list string) l0 l1 l2 l3 rest :
  Py.strip <$> filter nonblank lines = l0 :: l1 :: l2 :: l3 :: rest ->
  Product_offer_id.read_api_credentials lines = Return (l1, l0, l2, l3) /\
  Price_logistic.read_api_credentials lines = Return (l0, l1, l2, l3).
Proof.
  intros Hl.
  unfold Product_offer_id.read_api_credentials,
    Price_logistic.read_api_credentials.
  fold nonblank. by rewrite Hl.
Qed.

(** 014 counts every line of the file and 006 indexes the first four:
    both raise on a file of fewer than four lines, blank or not. *)
Lemma counting_readers_raise (lines : list string) :
  (length lines < 4)%nat ->
  Analytics_base.read_api_config lines = Raise ValueError /\
  Stock_FBO_FBS.read_api_credentials lines = Raise IndexError.
Proof.
  intros Hlen. unfold Analytics_base.read_api_config. rewrite length_fmap.
  destruct (Nat.ltb_spec (length lines) 4); [|lia].
  destruct lines as [|l0 [|l1 [|l2 [|l3 rest]]]]; simpl in Hlen; try lia; done.
Qed.

(** C8, at the failing input.  A file of four lines whose second line is
    blank has three non-blank lines.  The readers of 001, 005, 008 and
    013 raise on it; [read_api_config] of 014 and [read_api_credentials]
    of 006 accept it and return an empty API key. *)
Theorem blank_line_accepted :
  length (filter nonblank blank_second_line) = 3%nat /\
  Product_offer_id.read_api_credentials blank_second_line = Raise ValueError /\
  FBO_Oborachivaemost.read_api_credentials blank_second_line = Raise ValueError /\
  OzonAnalyticsStocks.init blank_second_line = Raise ValueError /\
  Price_logistic.read_api_credentials blank_second_line = Raise ValueError /\
  Analytics_base.read_api_config blank_second_line
  = Return {| Analytics_base.client_id := "123"; Analytics_base.api_key := "";
              Analytics_base.spreadsheet_id := "key";
              Analytics_base.sheet_name := "sh" |} /\
  Stock_FBO_FBS.read_api_credentials blank_second_line
  = Return ("123", "", "key", "sh").
Proof. vm_compute. repeat split. Qed.
End Credentials.

(** ** FBO and FBS stock, 006.Stock_FBO_FBS.py *)
Section Stock.
Import Stock_FBO_FBS StockSpec.

(** [stock_dict]: the stocks of the last item with the key. *)
Lemma stock_dict_lookup (l : list stock_item) (pid : Z) :
  forall sd : gmap string (list stock),
  foldl (fun sd it => <[pretty (product_id it) := stocks it]> sd) sd l
    !! pretty pid
  = match last_item pid l with
    | Some it => Some (stocks it)
    | None => sd !! pretty pid
    end.
Proof.
  induction l as [|it l IH]; intros sd; [done|].
  cbn [foldl last_item]. rewrite IH.
  destruct (last_item pid l) as [found|]; [done|].
  case_bool_decide as Hpid.
  - rewrite Hpid. apply lookup_insert_eq.
  - apply lookup_insert_ne. intros Heq. by apply (inj pretty) in Heq.
Qed.

(** The inner loop adds the ['present'] of each type to its counter. *)
Lemma stock_sums (l : list stock) : forall fbo fbs,
  foldl (fun '(fbo_stock, fbs_stock) st =>
           if bool_decide (type st = "fbo")
           then (fbo_stock + present st, fbs_stock)
           else if bool_decide (type st = "fbs")
                then (fbo_stock, fbs_stock + present st)
                else (fbo_stock, fbs_stock)) (fbo, fbs) l
  = (fbo + sum_present "fbo" l, fbs + sum_present "fbs" l).
Proof.
  induction l as [|st l IH]; intros fbo fbs; cbn [foldl sum_present].
  - f_equal; lia.
  - destruct (bool_decide_reflect (type st = "fbo")) as [Hfbo|Hfbo].
    + rewrite IH. rewrite bool_decide_eq_false_2 by (rewrite Hfbo; done).
      f_equal; lia.
    + destruct (bool_decide (type st = "fbs")); rewrite IH; f_equal; lia.
Qed.

Lemma update_google_sheet_rows (sd : gmap string (list stock))
    (ids : list Z) : forall rows_fbo rows_fbs,
  foldl (fun '(rows_fbo, rows_fbs) pid =>
    let stocks := default [] (sd !! pretty pid) in
    let '(fbo_stock, fbs_stock) :=
      foldl (fun '(fbo_stock, fbs_stock) st =>
        if bool_decide (type st = "fbo")
        then (fbo_stock + present st, fbs_stock)
        else if bool_decide (type st = "fbs")
             then (fbo_stock, fbs_stock + present st)
             else (fbo_stock, fbs_stock)) (0, 0) stocks in
    (rows_fbo ++ [[fbo_stock]], rows_fbs ++ [[fbs_stock]]))
    (rows_fbo, rows_fbs) ids
  = (rows_fbo
       ++ ((fun pid => [sum_present "fbo" (default [] (sd !! pretty pid))]) <$> ids),
     rows_fbs
       ++ ((fun pid => [sum_present "fbs" (default [] (sd !! pretty pid))]) <$> ids)).
Proof.
  induction ids as [|pid ids IH]; intros rows_fbo rows_fbs.
  - cbn. by rewrite !app_nil_r.
  - cbn [foldl fmap list_fmap]. rewrite stock_sums.
    rewrite IH, <- !app_assoc. done.
Qed.

Lemma update_google_sheet_cells (d : data) (ids : list Z) :
  update_google_sheet d ids
  = ((fun pid => [cell "fbo" d pid]) <$> ids,
     (fun pid => [cell "fbs" d pid]) <$> ids).
Proof.
  unfold update_google_sheet. rewrite update_google_sheet_rows. cbn [app].
  f_equal; apply list_fmap_ext; intros _ pid _; unfold cell;
    rewrite stock_dict_lookup, lookup_empty;
    by destruct (last_item pid (items d)).
Qed.

(** C10.  In the FBO/FBS stock script the rows written are, key by key
    and in the order of the input key list, the one-cell rows holding the
    sum of ['present'] over the entries of type 'fbo' (column R) and of
    type 'fbs' (column S) of the product's item, the last one the
    response holds for that product id.  A product id that no fetched
    item carries gets the number 0 in both columns. *)
Theorem update_google_sheet_sums (d : data) (ids : list Z) :
  update_google_sheet d ids
  = ((fun pid => [sum_present "fbo"
                    (from_option stocks [] (last_item pid (items d)))]) <$> ids,
     (fun pid => [sum_present "fbs"
                    (from_option stocks [] (last_item pid (items d)))]) <$> ids)
  /\ (forall n pid, ids !! n = Some pid ->
        (forall it, it ∈ items d -> product_id it <> pid) ->
        (update_google_sheet d ids).1 !! n = Some [0] /\
        (update_google_sheet d ids).2 !! n = Some [0]).
Proof.
  pose proof (update_google_sheet_cells d ids) as Heq.
  split; [exact Heq|].
  intros n pid Hn Hnone. rewrite Heq. cbn [fst snd].
  rewrite !list_lookup_fmap, Hn. cbn.
  assert (last_item pid (items d) = None) as Hlast.
  { clear -Hnone. induction (items d) as [|it l IH]; [done|].
    cbn. rewrite IH by (intros it' Hit'; apply Hnone; by right).
    rewrite bool_decide_eq_false_2; [done|]. apply Hnone. by left. }
  unfold cell. by rewrite Hlast.
Qed.

Lemma update_google_sheet_sums_witness :
  update_google_sheet sample [20; 30; 10] = ([[0]; [0]; [8]], [[1]; [0]; [4]])
  /\ (update_google_sheet sample [20; 30; 10]).1 !! 1%nat = Some [0]
  /\ (update_google_sheet sample [20; 30; 10]).2 !! 1%nat = Some [0].
Proof.
  destruct (update_google_sheet_sums sample [20; 30; 10]) as [Heq Hzero].
  split; [rewrite Heq; reflexivity|].
  apply (Hzero 1%nat 30); [reflexivity|].
  intros it Hit Hpid. apply list_elem_of_In in Hit.
  destruct Hit as [<-|[<-|[]]]; discriminate Hpid.
Defined.
End Stock.

(** ** Rows follow the keys *)
Section Aligned.
Context {K R : Type}.

Lemma Forall2_aligned (row_of : K -> R -> Prop) keys rows :
  Forall2 row_of keys rows -> aligned row_of keys rows.
Proof.
  intros Hall. split; [symmetry; by eapply Forall2_length|].
  intros n k Hk. destruct (Forall2_lookup_l _ _ _ _ _ Hall Hk) as (r & ? & ?).
  eauto.
Qed.

(** What a loop that appends one row per key returns or why it
    raises. *)
Lemma mapM_aligned (row : K -> option R) keys :
  match mapM row keys with
  | Some rows => aligned (fun k r => row k = Some r) keys rows
  | None => exists k, k ∈ keys /\ row k = None
  end.
Proof.
  destruct (mapM row keys) as [rows|] eqn:Hrows.
  - apply Forall2_aligned. by apply mapM_Some.
  - apply mapM_None in Hrows. by apply Exists_exists in Hrows.
Qed.
End Aligned.

Section Rows.
Context `{PyFloat}.

Lemma prepare_data_for_sheet_mapM data product_ids dq1_value :
  Price_logistic.prepare_data_for_sheet data product_ids dq1_value
  = mapM (Price_logistic.sheet_row data dq1_value) product_ids.
Proof. apply for_append_nil. Qed.

Lemma build_export_rows_mapM skus items :
  OzonAnalyticsStocks.build_export_rows skus items
  = '(rep_item, returns_sum) ← OzonAnalyticsStocks.index_items items;
    mapM (OzonAnalyticsStocks.export_row rep_item returns_sum) skus.
Proof.
  unfold OzonAnalyticsStocks.build_export_rows.
  destruct (OzonAnalyticsStocks.index_items items) as [[rep rs]|]; [|done].
  cbn. apply for_append_nil.
Qed.

Lemma update_google_sheets_mapM items offer_ids :
  FBO_Oborachivaemost.update_google_sheets items offer_ids
  = mapM (fun offer_id =>
            FBO_Oborachivaemost.row_data
              (List.find (FBO_Oborachivaemost.offer_id_is (Py.strip offer_id))
                 items)) offer_ids.
Proof. apply for_append_nil. Qed.

End Rows.

Example stock_rows_example :
  Stock_FBO_FBS.update_google_sheet StockSpec.sample [30; 20; 10; 20]
  = ([[0]; [0]; [8]; [0]], [[0]; [1]; [4]; [1]]).
Proof. reflexivity. Qed.

(** ** Default rows *)
Section DefaultRows.
Context `{PyFloat}.

(** 013: a product id that is not in [data] gets the blank row. *)
Lemma sheet_row_default data dq1_value pid :
  Py.dict_get Py.key_eqb data (VInt pid) = None ->
  Price_logistic.sheet_row data dq1_value pid
  = Some (replicate 27 (VStr "")).
Proof. intros Hnone. unfold Price_logistic.sheet_row. by rewrite Hnone. Qed.

(** 013: the row of a product that is in [data] has 24 cells, the width
    of the range ET:FQ. *)
Lemma item_row_length it dq1_value row :
  Price_logistic.item_row it dq1_value = Some row -> length row = 24%nat.
Proof.
  unfold Price_logistic.item_row. intros Hrow.
  repeat match type of Hrow with
         | mbind _ ?x = Some _ =>
             destruct x; cbn [mbind option_bind] in Hrow; [|discriminate Hrow]
         | (let '(_, _) := ?p in _) = Some _ => destruct p
         end.
  by injection Hrow as <-.
Qed.

(** 014: the values of an update are one row of five cells, found or
    not. *)
Lemma updates_fmap sku_to_row sku_data :
  Analytics_base.updates sku_to_row sku_data
  = (fun e => Analytics_base.update_for sku_data e.1 e.2) <$> sku_to_row.
Proof.
  unfold Analytics_base.updates.
  assert (forall acc,
    foldl (fun updates '(sku, row) =>
             updates ++ [Analytics_base.update_for sku_data sku row])
      acc sku_to_row
    = acc ++ ((fun e => Analytics_base.update_for sku_data e.1 e.2)
                <$> sku_to_row)) as Hfold.
  { induction sku_to_row as [|[sku row] l IH]; intros acc;
      cbn [foldl fmap list_fmap].
    - by rewrite app_nil_r.
    - by rewrite IH, <- app_assoc. }
  apply Hfold.
Qed.

Lemma updates_width sku_to_row sku_data :
  Forall (fun u => exists row, Analytics_base.values u = [row] /\
                               length row = 5%nat)
    (Analytics_base.updates sku_to_row sku_data).
Proof.
  rewrite updates_fmap. apply Forall_fmap, Forall_forall.
  intros [sku row] _. unfold Analytics_base.update_for. cbn.
  eexists. split; [done|]. by destruct (sku_data !! sku).
Qed.
End DefaultRows.

Module DefaultRowsAtInput.
#[local] Existing Instance QFloat.instance.

(** C4, at the failing input.  In 013, with product 1 fetched and
    product 2 not, the row of product 2 is the default row exactly, 27
    empty strings, while the row of product 1 has 24 cells, one per
    column of the range ET:FQ the rows are written to: the default row
    is three cells wider than a row projected from an item. *)
Theorem blank_row_wider_than_item_row :
  exists row1 row2,
    Price_logistic.prepare_data_for_sheet [(VInt 1, PriceSpec.early)]
      [1; 2] (VInt 0) = Some [row1; row2] /\
    row2 = replicate 27 (VStr "") /\
    length row1 = 24%nat /\ length row2 = 27%nat.
Proof. eexists _, _. vm_compute. repeat split. Qed.
End DefaultRowsAtInput.

(** ** Zero as blank, column by column (008) *)
Section ZeroPolicy.
Import OzonAnalyticsStocks StocksSpec.
Context `{PyFloat}.

Lemma to_sheet_cell_zero : _to_sheet_cell (VInt 0) = "0".
Proof. reflexivity. Qed.

Lemma to_sheet_cell_blank_if_zero_zero :
  _to_sheet_cell_blank_if_zero (Some 0) = "" /\
  _to_sheet_cell_blank_if_zero None = "".
Proof. split; reflexivity. Qed.

(** The projection of one item: its own record and its own returns
    count feed the row. *)
Lemma project_alone (it : item) (sku : string) :
  sku_str it = Some sku ->
  project it
  = val ← _as_int_or_none (Py.get it "return_to_seller_stock_count");
    export_row {[sku := it]}
      match val with
      | Some v => {[sku := Some v]}
      | None => ∅
      end sku.
Proof.
  intros Hsku. unfold project, build_export_rows, index_items.
  rewrite Hsku. cbn [mbind option_bind Py.for_]. unfold index_step.
  rewrite Hsku.
  destruct (_as_int_or_none (Py.get it "return_to_seller_stock_count"))
    as [[val|]|]; cbn [mbind option_bind]; [| |done];
    rewrite !lookup_empty; cbn [default Py.for_ mbind option_bind];
    rewrite !insert_empty.
  - by destruct (export_row {[sku := it]} {[sku := Some val]} sku).
  - by destruct (export_row {[sku := it]} ∅ sku).
Qed.

(** The six cells of a row, from the conversions of the fields. *)
Lemma export_row_cells rep_item returns_sum sku row :
  export_row rep_item returns_sum sku = Some row ->
  let base : item := default ∅ (rep_item !! sku) in
  exists days idc ads grade_ru grade_desc,
    _as_int_or_none (Py.get base "days_without_sales") = Some days /\
    _as_int_or_none (Py.get base "idc") = Some idc /\
    _as_float_or_none (Py.get base "ads") = Some ads /\
    turnover_grade_ru (Py.get base "turnover_grade") = Some grade_ru /\
    describe_turnover_grade (Py.get base "turnover_grade") = Some grade_desc /\
    row = [ _to_sheet_cell (of_int days); _to_sheet_cell (of_int idc);
            _to_sheet_cell_blank_if_zero (default None (returns_sum !! sku));
            _to_sheet_cell (of_str grade_ru);
            _to_sheet_cell (of_str grade_desc);
            match ads with
            | None => ""
            | Some ads =>
                if float_is_zero (float_round2 ads) then "0"
                else float_fmt2 (float_round2 ads)
            end ].
Proof.
  intros Hrow base. unfold export_row in Hrow. fold base in Hrow.
  destruct (_as_int_or_none (Py.get base "days_without_sales")) as [days|];
    [|done].
  destruct (_as_int_or_none (Py.get base "idc")) as [idc|]; [|done].
  destruct (_as_float_or_none (Py.get base "ads")) as [ads|]; [|done].
  destruct (turnover_grade_ru (Py.get base "turnover_grade")) as [gru|];
    [|done].
  destruct (describe_turnover_grade (Py.get base "turnover_grade"))
    as [gdesc|]; [|done].
  cbn in Hrow. injection Hrow as <-. by eexists _, _, _, _, _.
Qed.

(** C6.  The row projected from an item has six cells, and the policy
    for zero is per column: when the item's returns-to-seller count is 0
    the returns cell (AF) is the empty string; when its days-without-sales
    is 0 that cell (AD) is the string "0"; its rate (AI) is rounded to two
    decimal places and printed with two decimals, except that a rate
    that rounds to zero is printed "0". *)
Theorem zero_policy_per_column (it : item) (row : list string) :
  project it = Some row ->
  length row = 6%nat /\
  (Py.get it "return_to_seller_stock_count" = VInt 0 ->
   row !! 2%nat = Some "") /\
  (Py.get it "days_without_sales" = VInt 0 -> row !! 0%nat = Some "0") /\
  (forall ads, Py.get it "ads" = VFloat ads ->
     row !! 5%nat
     = Some (if float_is_zero (float_round2 ads) then "0"
             else float_fmt2 (float_round2 ads))).
Proof.
  intros Hrow. unfold project in Hrow.
  destruct (sku_str it) as [sku|] eqn:Hsku; [|done].
  fold (project it) in Hrow.
  assert (project it = Some row) as Hproj.
  { unfold project. by rewrite Hsku. }
  clear Hrow. rewrite (project_alone it sku Hsku) in Hproj.
  destruct (_as_int_or_none (Py.get it "return_to_seller_stock_count"))
    as [val|] eqn:Hval; [|done].
  cbn [mbind option_bind] in Hproj.
  apply export_row_cells in Hproj. cbn zeta in Hproj.
  rewrite lookup_singleton_eq in Hproj. cbn [from_option id] in Hproj.
  destruct Hproj
    as (days & idc & ads' & gru & gdesc & Hdays & Hidc & Hads & _ & _ & ->).
  split_and!; [done| | |].
  - intros Hret. rewrite Hret in Hval. injection Hval as <-.
    by rewrite lookup_singleton_eq.
  - intros Hzero. rewrite Hzero in Hdays. by injection Hdays as <-.
  - intros ads Hget. rewrite Hget in Hads. by injection Hads as <-.
Qed.
End ZeroPolicy.

Module ZeroPolicyAtInput.
#[local] Existing Instance QFloat.instance.

Lemma zero_policy_per_column_witness :
  StocksSpec.project StocksSpec.quiet_item
  = Some ["0"; "12"; ""; "Дефицитный"; "Хватит до 28 дней."; "0"] /\
  length ["0"; "12"; ""; "Дефицитный"; "Хватит до 28 дней."; "0"] = 6%nat /\
  (Py.get StocksSpec.quiet_item "return_to_seller_stock_count" = VInt 0 ->
   ["0"; "12"; ""; "Дефицитный"; "Хватит до 28 дней."; "0"] !! 2%nat
   = Some "") /\
  (Py.get StocksSpec.quiet_item "days_without_sales" = VInt 0 ->
   ["0"; "12"; ""; "Дефицитный"; "Хватит до 28 дней."; "0"] !! 0%nat
   = Some "0") /\
  (forall ads, Py.get StocksSpec.quiet_item "ads" = VFloat ads ->
     ["0"; "12"; ""; "Дефицитный"; "Хватит до 28 дней."; "0"] !! 5%nat
     = Some (if float_is_zero (float_round2 ads) then "0"
             else float_fmt2 (float_round2 ads))).
Proof.
  split; [vm_compute; reflexivity|].
  apply (zero_policy_per_column StocksSpec.quiet_item). vm_compute. reflexivity.
Defined.

(** A rate that does not round to zero keeps its two decimals. *)
Example rate_two_decimals :
  StocksSpec.project
    (<["ads" := VFloat (1256 # 1000)%Q]> StocksSpec.quiet_item)
  = Some ["0"; "12"; ""; "Дефицитный"; "Хватит до 28 дней."; "1.26"].
Proof. vm_compute. reflexivity. Qed.
End ZeroPolicyAtInput.

(** ** Duplicate keys in the fetched items *)

(** *** 013: the prices dict keeps the last item *)
Section LastWrite.
Import Price_logistic PriceSpec.
Context `{PyFloat}.
Implicit Types (d ws : list (value * item)).

Lemma store_items_accepted l : forall d,
  store_items d l = foldl put d (accepted l).
Proof.
  induction l as [|[it|] l IH]; intros d; cbn [store_items accepted];
    [done| |apply IH].
  destruct (it !! "product_id") as [k|]; [|apply IH].
  destruct (Py.hashable k); [|done]. cbn [foldl]. apply IH.
Qed.

Lemma store_chunks_writes post cs : forall n d,
  store_chunks post cs n d = foldl put d (writes post cs n).
Proof.
  induction cs as [|chunk cs IH]; intros n d; cbn [store_chunks writes];
    [done|].
  rewrite foldl_app, IH. f_equal.
  destruct (post n chunk); [apply store_items_accepted|done..].
Qed.

Lemma int_keys_put d z it :
  int_keys d -> int_keys (put d (VInt z, it)).
Proof.
  unfold int_keys, put. cbn [fst snd].
  induction 1 as [|[k v] d [z' Hk] Hd IH]; cbn [Py.dict_set].
  - repeat constructor. by exists z.
  - cbn in Hk. subst k. destruct (Py.key_eqb (VInt z') (VInt z)).
    + constructor; [by exists z'|done].
    + constructor; [by exists z'|done].
Qed.

Lemma dict_get_put d z it pid :
  int_keys d ->
  Py.dict_get Py.key_eqb (put d (VInt z, it)) (VInt pid)
  = if (z =? pid)%Z then Some it else Py.dict_get Py.key_eqb d (VInt pid).
Proof.
  unfold int_keys, put. cbn [fst snd].
  induction 1 as [|[k v] d [z' Hk] Hd IH]; cbn [Py.dict_set Py.dict_get].
  - done.
  - cbn in Hk. subst k. cbn [Py.key_eqb].
    destruct (Z.eqb_spec z' z) as [->|Hne]; cbn [Py.dict_get Py.key_eqb].
    + by destruct (z =? pid)%Z.
    + rewrite IH. destruct (Z.eqb_spec z' pid) as [->|]; [|done].
      by rewrite (proj2 (Z.eqb_neq z pid)) by congruence.
Qed.

Lemma last_write_wins ws pid : forall d,
  int_keys ws -> int_keys d ->
  Py.dict_get Py.key_eqb (foldl put d ws) (VInt pid)
  = match last_write pid ws with
    | Some it => Some it
    | None => Py.dict_get Py.key_eqb d (VInt pid)
    end.
Proof.
  induction ws as [|[k it] ws IH]; intros d Hws Hd; [done|].
  apply Forall_cons in Hws as [[z Hk] Hws]. cbn in Hk. subst k.
  cbn [foldl last_write]. rewrite IH by auto using int_keys_put.
  destruct (last_write pid ws); [done|]. rewrite dict_get_put by done.
  by destruct (z =? pid)%Z.
Qed.
End LastWrite.

(** *** 008: the representative record is the first, returns are summed *)
Section FirstRecord.
Import OzonAnalyticsStocks StocksSpec.
Context `{PyFloat}.

Lemma add_opt_assoc a b c : add_opt (add_opt a b) c = add_opt a (add_opt b c).
Proof. destruct a, b, c; cbn; f_equal; lia. Qed.

Lemma index_items_from items : forall rep0 rs0 rep rs,
  Py.for_ items (rep0, rs0) index_step = Some (rep, rs) ->
  forall sku,
    rep !! sku = match rep0 !! sku with
                 | Some it => Some it
                 | None => first_item sku items
                 end /\
    default None (rs !! sku)
    = add_opt (default None (rs0 !! sku)) (returns_total sku items).
Proof.
  induction items as [|it items IH]; intros rep0 rs0 rep rs Hrun sku.
  - injection Hrun as <- <-. cbn.
    split; [by destruct (rep0 !! sku)|by destruct (default None (rs0 !! sku))].
  - cbn [Py.for_] in Hrun.
    destruct (index_step (rep0, rs0) it) as [[rep1 rs1]|] eqn:Hstep;
      [|discriminate].
    destruct (IH _ _ _ _ Hrun sku) as [Hrep Hrs]. rewrite Hrep, Hrs.
    clear IH Hrun Hrep Hrs. cbn [first_item returns_total].
    unfold index_step in Hstep.
    destruct (sku_str it) as [k|] eqn:Hk.
    2:{ injection Hstep as <- <-.
        rewrite !bool_decide_eq_false_2 by done. done. }
    unfold returns_of.
    destruct (_as_int_or_none (Py.get it "return_to_seller_stock_count"))
      as [val|]; [|discriminate]. cbn [mbind option_bind default] in Hstep.
    assert (rep1 = match rep0 !! k with
                   | Some _ => rep0
                   | None => <[k := it]> rep0
                   end /\
            default None (rs1 !! sku)
            = if bool_decide (Some k = Some sku)
              then add_opt (default None (rs0 !! sku)) val
              else default None (rs0 !! sku)) as [-> Hrs1].
    { destruct val as [v|].
      - destruct (default None (rs0 !! k)) as [s|] eqn:Hs;
          injection Hstep as <- <-; (split; [done|]);
          case_bool_decide as Hsku; simplify_eq.
        + by rewrite lookup_insert_eq, Hs.
        + rewrite lookup_insert_ne; [done|congruence].
        + by rewrite lookup_insert_eq, Hs.
        + rewrite lookup_insert_ne; [done|congruence].
      - injection Hstep as <- <-. split; [done|].
        case_bool_decide; [|done].
        by destruct (default None (rs0 !! sku)). }
    rewrite Hrs1. case_bool_decide as Hsku; simplify_eq.
    + split; [|by rewrite add_opt_assoc].
      destruct (rep0 !! sku) eqn:Hrep0; [by rewrite Hrep0|].
      by rewrite lookup_insert_eq.
    + split; [|done].
      destruct (rep0 !! k); [done|].
      rewrite lookup_insert_ne; [done|congruence].
Qed.

Lemma index_items_first items rep rs :
  index_items items = Some (rep, rs) ->
  forall sku, rep !! sku = first_item sku items /\
              default None (rs !! sku) = returns_total sku items.
Proof.
  intros Hrun sku. destruct (index_items_from items ∅ ∅ rep rs Hrun sku)
    as [Hrep Hrs].
  rewrite lookup_empty in Hrep. rewrite lookup_empty in Hrs. done.
Qed.
End FirstRecord.

(** *** 005: the row of an offer id comes from the first matching item *)
Section FirstOffer.
Import FBO_Oborachivaemost.
Context `{PyFloat}.

Lemma find_first (f : item -> bool) (before : list item) it after :
  Forall (fun x => f x = false) before -> f it = true ->
  List.find f (before ++ it :: after) = Some it.
Proof.
  induction 1 as [|x before Hx _ IH]; intros Hit; cbn [app List.find].
  - by rewrite Hit.
  - rewrite Hx. by apply IH.
Qed.
End FirstOffer.

Section DuplicatePolicies.
Context `{PyFloat}.

(** C3, as the code has it.  The policy for duplicate keys differs per
    alignment.  [get_ozon_prices] (013) is last-write-wins: with integer
    product ids, the dict it returns maps a product id to the last item
    written under it, later chunks overwriting earlier ones.
    [update_google_sheets] (005) builds the row of an offer id from the
    first item that carries it, whatever follows.  [build_export_rows]
    (008) keeps the first item of a SKU as its representative record and
    sums the returns counts of all items of the SKU. *)
Theorem duplicate_policies :
  (forall post product_ids limit cs,
     Analytics_base.chunks product_ids limit = Some cs ->
     PriceSpec.int_keys (PriceSpec.writes post cs 0) ->
     exists data,
       Price_logistic.get_ozon_prices post product_ids limit = Some data /\
       forall pid,
         Py.dict_get Py.key_eqb data (VInt pid)
         = PriceSpec.last_write pid (PriceSpec.writes post cs 0)) /\
  (forall before it after offer_id,
     Forall (fun x => FBO_Oborachivaemost.offer_id_is (Py.strip offer_id) x
                      = false) before ->
     FBO_Oborachivaemost.offer_id_is (Py.strip offer_id) it = true ->
     FBO_Oborachivaemost.update_google_sheets (before ++ it :: after)
       [offer_id]
     = row ← FBO_Oborachivaemost.row_data (Some it); Some [row]) /\
  (forall items rep_item returns_sum,
     OzonAnalyticsStocks.index_items items = Some (rep_item, returns_sum) ->
     forall sku,
       rep_item !! sku = StocksSpec.first_item sku items /\
       default None (returns_sum !! sku)
       = StocksSpec.returns_total sku items).
Proof.
  split_and!.
  - intros post product_ids limit cs Hcs Hkeys.
    rewrite price_chunks_sent, Hcs. cbn [mbind option_bind].
    eexists. split; [done|]. intros pid.
    rewrite store_chunks_writes, last_write_wins by (done || constructor).
    by destruct (PriceSpec.last_write pid (PriceSpec.writes post cs 0)).
  - intros before it after offer_id Hbefore Hit.
    unfold FBO_Oborachivaemost.update_google_sheets. cbn [Py.for_].
    rewrite (find_first _ before it after Hbefore Hit).
    by destruct (FBO_Oborachivaemost.row_data (Some it)).
  - intros items rep rs Hrun sku. by apply index_items_first.
Qed.
End DuplicatePolicies.

Module DuplicatePoliciesAtInput.
#[local] Existing Instance QFloat.instance.

Lemma duplicate_policies_witness :
  (exists data,
     Price_logistic.get_ozon_prices PriceSpec.twice_post [1; 2; 3] 2
     = Some data /\
     Py.dict_get Py.key_eqb data (VInt 1) = Some PriceSpec.late) /\
  FBO_Oborachivaemost.update_google_sheets
    ([] ++ TurnoverSpec.first_offer :: [TurnoverSpec.second_offer]) ["A"]
  = Some [[VInt 1; VStr ""; VStr ""]] /\
  (exists rep_item returns_sum,
     OzonAnalyticsStocks.index_items
       [StocksSpec.first_record; StocksSpec.second_record]
     = Some (rep_item, returns_sum) /\
     rep_item !! "7" = Some StocksSpec.first_record /\
     default None (returns_sum !! "7") = Some 2).
Proof.
  destruct duplicate_policies as (Hlast & Hfirst & Hrep).
  split_and!.
  - destruct (Hlast PriceSpec.twice_post [1; 2; 3] 2%nat [[1; 2]; [3]])
      as (data & Hdata & Hget); [reflexivity| |].
    + repeat constructor; by eexists.
    + exists data. split; [exact Hdata|]. rewrite Hget. reflexivity.
  - rewrite (Hfirst [] TurnoverSpec.first_offer [TurnoverSpec.second_offer]
               "A"); [reflexivity|constructor|reflexivity].
  - exists {["7" := StocksSpec.first_record]}, {["7" := Some 2]}.
    assert (OzonAnalyticsStocks.index_items
              [StocksSpec.first_record; StocksSpec.second_record]
            = Some ({["7" := StocksSpec.first_record]}, {["7" := Some 2]}))
      as Hrun by (vm_compute; reflexivity).
    split; [exact Hrun|].
    destruct (Hrep _ _ _ Hrun "7") as [Hfirst7 Hsum7].
    split; vm_compute; reflexivity.
Defined.

(** C3, as stated, fails: last-write-wins is not the policy of every
    alignment.  With two items of one key, the row of 005 shows the [ads]
    of the first item (1, not 2) and the row of 008 shows the
    [days_without_sales] of the first record (1, not 9). *)
Lemma first_item_wins :
  FBO_Oborachivaemost.update_google_sheets
    [TurnoverSpec.first_offer; TurnoverSpec.second_offer] ["A"]
  = Some [[VInt 1; VStr ""; VStr ""]] /\
  FBO_Oborachivaemost.update_google_sheets
    [TurnoverSpec.first_offer; TurnoverSpec.second_offer] ["A"]
  <> FBO_Oborachivaemost.update_google_sheets
       [TurnoverSpec.second_offer] ["A"] /\
  OzonAnalyticsStocks.build_export_rows ["7"]
    [StocksSpec.first_record; StocksSpec.second_record]
  = Some [["1"; ""; "2"; ""; ""; ""]] /\
  OzonAnalyticsStocks.build_export_rows ["7"] [StocksSpec.second_record]
  = Some [["9"; ""; "2"; ""; ""; ""]].
Proof. vm_compute. repeat split; discriminate. Qed.
End DuplicatePoliciesAtInput.

(** ** Row N is the row of key N *)
Section RowsOfKeys.
Import RowSpec StocksSpec.
Context `{PyFloat}.

Lemma sheet_row_price_row data dq1_value pid row :
  Price_logistic.sheet_row data dq1_value pid = Some row <->
  price_row data dq1_value pid row.
Proof.
  unfold Price_logistic.sheet_row, price_row, Price_logistic.blank_row.
  destruct (Py.dict_get Py.key_eqb data (VInt pid)); [done|].
  split; [by intros [= <-]|by intros ->].
Qed.

Lemma sheet_row_raises data dq1_value pid :
  Price_logistic.sheet_row data dq1_value pid = None <->
  price_row_raises data dq1_value pid.
Proof.
  unfold Price_logistic.sheet_row, price_row_raises.
  destruct (Py.dict_get Py.key_eqb data (VInt pid)) as [it|].
  - split; [by exists it|]. by intros (it' & [= <-] & Hnone).
  - split; [done|]. by intros (it & ? & _).
Qed.

Lemma export_row_stock_row items rep_item returns_sum sku row :
  OzonAnalyticsStocks.index_items items = Some (rep_item, returns_sum) ->
  OzonAnalyticsStocks.export_row rep_item returns_sum sku = Some row <->
  stock_row items sku row.
Proof.
  intros Hindex.
  destruct (index_items_first items rep_item returns_sum Hindex sku)
    as [Hrep Hrs].
  split.
  - intros Hrow. apply export_row_cells in Hrow. cbn zeta in Hrow.
    rewrite Hrep, Hrs in Hrow. exact Hrow.
  - intros (days & idc & ads & gru & gdesc & Hdays & Hidc & Hads & Hgru
            & Hgdesc & ->).
    unfold OzonAnalyticsStocks.export_row. rewrite Hrep, Hrs.
    rewrite Hdays, Hidc, Hads, Hgru, Hgdesc. reflexivity.
Qed.

Lemma index_items_raises items : forall acc,
  Py.for_ items acc OzonAnalyticsStocks.index_step = None ->
  returns_raise items.
Proof.
  induction items as [|it items IH]; intros acc Hrun; [discriminate|].
  cbn [Py.for_] in Hrun.
  destruct (OzonAnalyticsStocks.index_step acc it) as [acc'|] eqn:Hstep.
  - destruct (IH _ Hrun) as (it' & Hin & Hsku & Hval).
    exists it'. split; [by right|done].
  - exists it. split; [by left|].
    unfold OzonAnalyticsStocks.index_step in Hstep.
    destruct acc as [rep rs].
    destruct (OzonAnalyticsStocks.sku_str it) as [k|]; [|discriminate].
    split; [by eexists|].
    destruct (OzonAnalyticsStocks._as_int_or_none
                (Py.get it "return_to_seller_stock_count")) as [[val|]|];
      [| |done]; cbn in Hstep.
    + by destruct (default None (rs !! k)).
    + discriminate.
Qed.

(** C2.  The row sequences the scripts build have one row per input key,
    in the order of the keys, and the row at position N is the row of the
    key at position N, read from the fetched data of that very key,
    whatever the items and their order:
    - in [prepare_data_for_sheet] (013), the projection of the item the
      data holds under product id N, or the blank row when it holds
      none;
    - in [build_export_rows] (008), the six cells of the first item that
      prints as SKU N, with the returns summed over all items that print
      as SKU N;
    - in both columns of [update_google_sheet] (006), the sum for product
      id N.
    The first two return their rows unless a field of the data cannot be
    converted: the projection of the item of some key raises (013), the
    returns count of a keyed item or a cell of some key cannot be read
    (008); the third always returns. *)
Theorem rows_follow_keys :
  (forall data product_ids dq1_value,
     match Price_logistic.prepare_data_for_sheet data product_ids dq1_value with
     | Some rows => aligned (price_row data dq1_value) product_ids rows
     | None =>
         exists pid, pid ∈ product_ids /\ price_row_raises data dq1_value pid
     end) /\
  (forall skus items,
     match OzonAnalyticsStocks.build_export_rows skus items with
     | Some rows => aligned (stock_row items) skus rows
     | None =>
         returns_raise items \/
         exists sku, sku ∈ skus /\ forall row, ~ stock_row items sku row
     end) /\
  (forall d product_ids,
     aligned (fun pid row => row = [StockSpec.cell "fbo" d pid]) product_ids
       (Stock_FBO_FBS.update_google_sheet d product_ids).1 /\
     aligned (fun pid row => row = [StockSpec.cell "fbs" d pid]) product_ids
       (Stock_FBO_FBS.update_google_sheet d product_ids).2).
Proof.
  split_and!.
  - intros data product_ids dq1_value.
    rewrite prepare_data_for_sheet_mapM.
    pose proof (mapM_aligned (Price_logistic.sheet_row data dq1_value)
                  product_ids) as Hrows.
    destruct (mapM (Price_logistic.sheet_row data dq1_value) product_ids)
      as [rows|].
    + destruct Hrows as [Hlen Hrows]. split; [done|].
      intros n pid Hn. destruct (Hrows n pid Hn) as (row & Hrow & Hpid).
      exists row. split; [done|]. by apply sheet_row_price_row.
    + destruct Hrows as (pid & Hin & Hnone). exists pid.
      split; [done|]. by apply sheet_row_raises.
  - intros skus items. rewrite build_export_rows_mapM.
    destruct (OzonAnalyticsStocks.index_items items) as [[rep rs]|]
      eqn:Hindex.
    2:{ left. by eapply index_items_raises. }
    cbn [mbind option_bind].
    pose proof (mapM_aligned (OzonAnalyticsStocks.export_row rep rs) skus)
      as Hrows.
    destruct (mapM (OzonAnalyticsStocks.export_row rep rs) skus) as [rows|].
    + destruct Hrows as [Hlen Hrows]. split; [done|].
      intros n sku Hn. destruct (Hrows n sku Hn) as (row & Hrow & Hsku).
      exists row. split; [done|].
      by apply (export_row_stock_row items rep rs).
    + destruct Hrows as (sku & Hin & Hnone). right. exists sku.
      split; [done|]. intros row Hrow.
      apply (export_row_stock_row items rep rs sku row Hindex) in Hrow.
      congruence.
  - intros d product_ids. rewrite update_google_sheet_cells. cbn [fst snd].
    split; apply Forall2_aligned, Forall2_fmap_r, Forall_Forall2_diag,
      Forall_forall; done.
Qed.
End RowsOfKeys.

Module RowsAtInput.
Import RowSpec.
#[local] Existing Instance QFloat.instance.

(** Product 2 is asked for twice and product 1 is not in the data; the
    SKU 7 has two records and the SKU 8 none. *)
Lemma rows_follow_keys_witness :
  (exists rows,
     Price_logistic.prepare_data_for_sheet
       [(VInt 3, priced 3 9); (VInt 2, priced 2 5)] [2; 1; 2] (VFloat 0%Q)
     = Some rows /\
     rows !! 1%nat = Some (replicate 27 (VStr "")) /\
     (exists row2, rows !! 0%nat = Some row2 /\ rows !! 2%nat = Some row2 /\
                   row2 !! 0%nat = Some (VInt 5)) /\
     aligned
       (price_row [(VInt 3, priced 3 9); (VInt 2, priced 2 5)] (VFloat 0%Q))
       [2; 1; 2] rows) /\
  OzonAnalyticsStocks.build_export_rows ["8"; "7"]
    [StocksSpec.first_record; StocksSpec.second_record]
  = Some [[""; ""; ""; ""; ""; ""]; ["1"; ""; "2"; ""; ""; ""]] /\
  aligned (stock_row [StocksSpec.first_record; StocksSpec.second_record])
    ["8"; "7"] [[""; ""; ""; ""; ""; ""]; ["1"; ""; "2"; ""; ""; ""]].
Proof.
  destruct rows_follow_keys as (Hprice & Hstock & _).
  split_and!.
  - specialize (Hprice [(VInt 3, priced 3 9); (VInt 2, priced 2 5)]
                  [2; 1; 2] (VFloat 0%Q)).
    destruct (Price_logistic.prepare_data_for_sheet
                [(VInt 3, priced 3 9); (VInt 2, priced 2 5)] [2; 1; 2]
                (VFloat 0%Q)) as [rows|] eqn:Hrows;
      [|vm_compute in Hrows; discriminate Hrows].
    exists rows. split; [reflexivity|].
    vm_compute in Hrows. injection Hrows as <-.
    split; [reflexivity|]. split; [|exact Hprice].
    eexists. repeat split.
  - vm_compute. reflexivity.
  - specialize (Hstock ["8"; "7"]
                  [StocksSpec.first_record; StocksSpec.second_record]).
    assert (OzonAnalyticsStocks.build_export_rows ["8"; "7"]
              [StocksSpec.first_record; StocksSpec.second_record]
            = Some [[""; ""; ""; ""; ""; ""]; ["1"; ""; "2"; ""; ""; ""]])
      as Hrows by (vm_compute; reflexivity).
    by rewrite Hrows in Hstock.
Defined.
End RowsAtInput.

(** ** One update per distinct SKU (014) *)
Section Dict.
Context {V : Type}.
Implicit Types (d : list (string * V)) (k : string).

Lemma dict_get_set d k v q :
  Py.dict_get String.eqb (Py.dict_set String.eqb d k v) q
  = if bool_decide (k = q) then Some v else Py.dict_get String.eqb d q.
Proof.
  induction d as [|[k' v'] d IH]; cbn [Py.dict_set Py.dict_get].
  - destruct (String.eqb_spec k q); by case_bool_decide.
  - destruct (String.eqb_spec k' k) as [->|Hne]; cbn [Py.dict_get].
    + destruct (String.eqb_spec k q); by case_bool_decide.
    + rewrite IH. destruct (String.eqb_spec k' q) as [->|]; [|done].
      by rewrite bool_decide_eq_false_2 by congruence.
Qed.

Lemma dict_set_keys d k v q :
  q ∈ (Py.dict_set String.eqb d k v).*1 <-> q = k \/ q ∈ d.*1.
Proof.
  induction d as [|[k' v'] d IH]; cbn [Py.dict_set].
  - cbn. rewrite list_elem_of_singleton. split; [by left|].
    by intros [?|?%elem_of_nil].
  - destruct (String.eqb_spec k' k) as [->|Hne]; cbn;
      rewrite !elem_of_cons; [tauto|]. rewrite IH. tauto.
Qed.

Lemma dict_set_NoDup d k v :
  NoDup d.*1 -> NoDup (Py.dict_set String.eqb d k v).*1.
Proof.
  induction d as [|[k' v'] d IH]; cbn [Py.dict_set]; intros Hd.
  - cbn. apply NoDup_singleton.
  - apply NoDup_cons in Hd as [Hk' Hd]. cbn in Hk'.
    destruct (String.eqb_spec k' k) as [->|Hne]; cbn.
    + by apply NoDup_cons.
    + apply NoDup_cons. split; [|by apply IH].
      rewrite dict_set_keys. intros [->|?]; done.
Qed.

Lemma dict_get_elem d k v :
  NoDup d.*1 -> (k, v) ∈ d <-> Py.dict_get String.eqb d k = Some v.
Proof.
  induction d as [|[k' v'] d IH]; intros Hd; cbn [Py.dict_get].
  - split; [by intros ?%elem_of_nil|done].
  - apply NoDup_cons in Hd as [Hk' Hd]. cbn in Hk'.
    rewrite elem_of_cons, (IH Hd).
    destruct (String.eqb_spec k' k) as [->|Hne].
    + split; [intros [[= ->]|Hget]; [done|]|intros [= ->]; by left].
      exfalso. apply Hk'. apply (IH Hd) in Hget.
      apply list_elem_of_fmap. by exists (k, v).
    + split; [intros [[= -> ->]|?]; done|by right].
Qed.
End Dict.

Section Strings.
Lemma string_app_cons c (a b : string) :
  String c a +:+ b = String c (a +:+ b).
Proof. reflexivity. Qed.

Lemma string_app_length (a b : string) :
  String.length (a +:+ b) = (String.length a + String.length b)%nat.
Proof.
  induction a as [|c a IH]; [done|].
  rewrite string_app_cons. cbn [String.length]. by rewrite IH.
Qed.

Lemma string_app_inj_l (a b x y : string) :
  String.length a = String.length b -> a +:+ x = b +:+ y -> a = b.
Proof.
  revert b. induction a as [|c a IH]; intros [|c' b] Hlen Heq; try done.
  rewrite !string_app_cons in Heq. injection Heq as -> Heq.
  f_equal. apply IH; [|done]. cbn [String.length] in Hlen. lia.
Qed.

Lemma range_of_inj r r' :
  UpdateSpec.range_of r = UpdateSpec.range_of r' -> r = r'.
Proof.
  unfold UpdateSpec.range_of. rewrite !string_app_cons.
  intros [= Heq].
  assert (String.length (pretty r) = String.length (pretty r')) as Hlen.
  { apply (f_equal String.length) in Heq.
    repeat first [ rewrite string_app_length in Heq
                 | progress cbn [String.length] in Heq ].
    lia. }
  apply (inj pretty). by apply (string_app_inj_l _ _ _ _ Hlen Heq).
Qed.
End Strings.

Section LastOccurrence.
Import UpdateSpec.

Lemma last_index_None sku l :
  last_index sku l = None -> forall j, l !! j <> Some sku.
Proof.
  induction l as [|s l IH]; intros Hnone j; [by rewrite lookup_nil|].
  cbn [last_index] in Hnone.
  destruct (last_index sku l); [done|].
  case_bool_decide as Hs; [done|].
  destruct j as [|j]; cbn; [congruence|by apply IH].
Qed.

Lemma last_index_last_at sku l : forall i,
  last_index sku l = Some i <-> last_at l i sku.
Proof.
  unfold last_at. induction l as [|s l IH]; intros i.
  - split; [done|]. intros [Hi _]. by rewrite lookup_nil in Hi.
  - cbn [last_index]. destruct (last_index sku l) as [i'|] eqn:Hlast.
    + destruct (proj1 (IH i') eq_refl) as [Hi' Hafter]. split.
      * intros [= <-]. split; [done|]. intros [|j] Hj; [lia|].
        apply Hafter. lia.
      * intros [Hi Hlater]. destruct i as [|i].
        -- exfalso. apply (Hlater (S i')); [lia|done].
        -- assert (Some i' = Some i) as [= ->]; [|done].
           apply IH. split; [done|].
           intros j Hj. apply (Hlater (S j)). lia.
    + pose proof (last_index_None sku l Hlast) as Hnone.
      case_bool_decide as Hs.
      * subst s. split.
        -- intros [= <-]. split; [done|]. intros [|j] Hj; [lia|apply Hnone].
        -- intros [Hi _]. destruct i as [|i]; [done|].
           by apply Hnone in Hi.
      * split; [done|]. intros [Hi _]. destruct i as [|i]; cbn in Hi.
        -- congruence.
        -- by apply Hnone in Hi.
Qed.

Lemma last_index_elem sku l : is_Some (last_index sku l) <-> sku ∈ l.
Proof.
  split.
  - intros [i Hi]. apply last_index_last_at in Hi as [Hi _].
    by eapply list_elem_of_lookup_2.
  - intros [j Hj]%list_elem_of_lookup_1.
    destruct (last_index sku l) eqn:Hlast; [done|].
    by apply (last_index_None _ _ Hlast) in Hj.
Qed.
End LastOccurrence.

Section SkuToRow.
Import Analytics_base UpdateSpec CredentialSpec.

(** Reading [sku_to_row] (started from the dict [d], at position [a] of
    the column): a non-blank cell value maps to the row of its last
    occurrence. *)
Lemma sku_to_row_from l : forall a d sku,
  Py.dict_get String.eqb
    (foldl sku_to_row_step d (zip (seq a (length l)) l)) sku
  = match (if Py.nonempty (Py.strip sku) then last_index sku l else None) with
    | Some i => Some (a + i + 5)%nat
    | None => Py.dict_get String.eqb d sku
    end.
Proof.
  induction l as [|s l IH]; intros a d sku.
  - cbn. by destruct (Py.nonempty (Py.strip sku)).
  - cbn [length seq zip zip_with foldl last_index]. rewrite IH.
    unfold sku_to_row_step.
    destruct (Py.nonempty (Py.strip sku)) eqn:Hsku.
    + destruct (last_index sku l) as [i|]; [f_equal; lia|].
      case_bool_decide as Hs.
      * subst s. rewrite Hsku, dict_get_set.
        rewrite bool_decide_eq_true_2 by done. f_equal. lia.
      * destruct (Py.nonempty (Py.strip s)); [|done].
        rewrite dict_get_set. by rewrite bool_decide_eq_false_2.
    + destruct (Py.nonempty (Py.strip s)) eqn:Hs; [|done].
      rewrite dict_get_set. rewrite bool_decide_eq_false_2; [done|].
      intros ->. congruence.
Qed.

Lemma sku_to_row_NoDup_from es : forall d,
  NoDup d.*1 -> NoDup (foldl sku_to_row_step d es).*1.
Proof.
  induction es as [|[idx s] es IH]; intros d Hd; [done|].
  cbn [foldl]. apply IH. unfold sku_to_row_step.
  destruct (Py.nonempty (Py.strip s)); [|done]. by apply dict_set_NoDup.
Qed.

Lemma sku_to_row_NoDup sku_col : NoDup (sku_to_row sku_col).*1.
Proof. apply sku_to_row_NoDup_from. constructor. Qed.

(** The entries of [sku_to_row]: one per non-blank cell value, with the
    row of its last occurrence. *)
Lemma sku_to_row_entries sku_col sku row :
  (sku, row) ∈ sku_to_row sku_col <->
  nonblank sku /\ exists i, row = (i + 5)%nat /\ last_at sku_col i sku.
Proof.
  rewrite (dict_get_elem _ _ _ (sku_to_row_NoDup sku_col)).
  unfold sku_to_row, enumerate. rewrite sku_to_row_from.
  unfold nonblank. destruct (Py.nonempty (Py.strip sku)).
  - destruct (last_index sku sku_col) as [i|] eqn:Hlast.
    + apply last_index_last_at in Hlast. split.
      * intros [= <-]. split; [done|]. by exists i.
      * intros [_ (j & -> & Hj)]. apply last_index_last_at in Hlast, Hj.
        rewrite Hlast in Hj. by injection Hj as ->.
    + split; [done|]. intros [_ (j & _ & Hj)].
      apply last_index_last_at in Hj. congruence.
  - split; [done|]. by intros [? _].
Qed.

Lemma sku_to_row_keys sku_col sku :
  sku ∈ (sku_to_row sku_col).*1 <-> sku ∈ filter nonblank sku_col.
Proof.
  rewrite list_elem_of_filter, list_elem_of_fmap. split.
  - intros ([k row] & -> & Hin). cbn.
    apply sku_to_row_entries in Hin as [Hnb (i & _ & Hi & _)].
    split; [done|]. by eapply list_elem_of_lookup_2.
  - intros [Hnb Hin]. apply last_index_elem in Hin as [i Hi].
    exists (sku, (i + 5)%nat). split; [done|].
    apply sku_to_row_entries. split; [done|]. exists i.
    split; [done|]. by apply last_index_last_at.
Qed.

Lemma sku_to_row_length sku_col :
  length (sku_to_row sku_col)
  = length (remove_dups (filter nonblank sku_col)).
Proof.
  rewrite <- (length_fmap fst). apply Permutation_length.
  apply NoDup_Permutation;
    [apply sku_to_row_NoDup | apply NoDup_remove_dups |].
  intros sku. by rewrite sku_to_row_keys, elem_of_remove_dups.
Qed.

(** Two entries never share a row. *)
Lemma sku_to_row_rows_inj sku_col e1 e2 :
  e1 ∈ sku_to_row sku_col -> e2 ∈ sku_to_row sku_col ->
  e1.2 = e2.2 -> e1 = e2.
Proof.
  destruct e1 as [k1 r1], e2 as [k2 r2]. cbn. intros H1 H2 <-.
  apply sku_to_row_entries in H1 as [_ (i1 & -> & Hk1 & _)].
  apply sku_to_row_entries in H2 as [_ (i2 & Heq & Hk2 & _)].
  assert (i2 = i1) as -> by lia. congruence.
Qed.

Context `{PyFloat}.

(** With a credential file that is accepted, what [main] sends is the
    updates of [sku_to_row], whatever was fetched. *)
Lemma main_updates post lines sku_col cfg :
  read_api_config lines = Return cfg ->
  exists sku_data,
    main post lines sku_col = updates (sku_to_row sku_col) sku_data.
Proof.
  intros Hcfg. unfold main. rewrite Hcfg.
  destruct (skus sku_col) as [|s ss] eqn:Hskus.
  - exists ∅. unfold skus in Hskus. apply fmap_nil_inv in Hskus.
    fold nonblank in Hskus.
    destruct (sku_to_row sku_col) as [|[k r] d] eqn:Hd; [done|].
    assert (k ∈ (sku_to_row sku_col).*1) as Hk by (rewrite Hd; by left).
    apply sku_to_row_keys in Hk. rewrite Hskus in Hk.
    by apply elem_of_nil in Hk.
  - destruct (chunks_slices (s :: ss) 1000) as (batches & -> & _); [lia|].
    eauto.
Qed.

(** C9.  In the product-queries script the updates sent to the sheet
    are one per distinct non-blank value of the SKU column: their number
    is the number of distinct non-blank cell values, no two of them
    target the same row, and the rows targeted are exactly the rows (5 +
    position) of the last occurrence of each non-blank value, so that the
    row of an earlier occurrence of a repeated SKU gets no update. *)
Theorem one_update_per_sku (sku_col : list string)
    (sku_data : gmap string item) :
  let us := updates (sku_to_row sku_col) sku_data in
  length us = length (remove_dups (filter nonblank sku_col)) /\
  NoDup (range <$> us) /\
  (forall row,
     (exists u, u ∈ us /\ range u = range_of row) <->
     (exists i sku, row = (i + 5)%nat /\ nonblank sku /\
                    last_at sku_col i sku)) /\
  (forall i j sku,
     sku_col !! i = Some sku -> sku_col !! j = Some sku -> (i < j)%nat ->
     forall u, u ∈ us -> range u <> range_of (i + 5)).
Proof.
  intros us. subst us. rewrite updates_fmap.
  assert (forall row,
    (exists u, u ∈ (fun e => update_for sku_data e.1 e.2)
                     <$> sku_to_row sku_col /\ range u = range_of row) <->
    (exists i sku, row = (i + 5)%nat /\ nonblank sku /\
                   last_at sku_col i sku)) as Htargets.
  { intros row. split.
    - intros (u & Hu & Hrange).
      apply list_elem_of_fmap in Hu as ([sku r] & -> & Hin).
      cbn in Hrange. apply range_of_inj in Hrange as ->.
      apply sku_to_row_entries in Hin as [Hnb (i & -> & Hlast)]. eauto.
    - intros (i & sku & -> & Hnb & Hlast).
      exists (update_for sku_data sku (i + 5)). split; [|done].
      apply list_elem_of_fmap. exists (sku, (i + 5)%nat). split; [done|].
      apply sku_to_row_entries. eauto. }
  split_and!.
  - by rewrite length_fmap, sku_to_row_length.
  - rewrite <- list_fmap_compose. apply NoDup_fmap_2_strong.
    + intros e1 e2 H1 H2 Heq. cbn in Heq. apply range_of_inj in Heq.
      by apply (sku_to_row_rows_inj sku_col).
    + eapply NoDup_fmap_1, sku_to_row_NoDup.
  - exact Htargets.
  - intros i j sku Hi Hj Hlt u Hu Hrange.
    destruct (proj1 (Htargets (i + 5)%nat)) as (i' & sku' & Heq & _ & Hlast);
      [by exists u|].
    assert (i' = i) as -> by lia. destruct Hlast as [Hi' Hafter].
    assert (sku' = sku) as -> by congruence. by apply (Hafter j).
Qed.
End SkuToRow.

Module SkuToRowAtInput.
#[local] Existing Instance QFloat.instance.

Lemma one_update_per_sku_witness :
  (Analytics_base.range <$>
     Analytics_base.updates (Analytics_base.sku_to_row UpdateSpec.column) ∅)
  = ["FX8:GB8"; "FX7:GB7"] /\
  (forall u,
     u ∈ Analytics_base.updates
           (Analytics_base.sku_to_row UpdateSpec.column) ∅ ->
     Analytics_base.range u <> UpdateSpec.range_of (0 + 5)).
Proof.
  split; [vm_compute; reflexivity|].
  destruct (one_update_per_sku UpdateSpec.column ∅) as (_ & _ & _ & Hearly).
  apply (Hearly 0%nat 3%nat "11"); [reflexivity | reflexivity | lia].
Defined.
End SkuToRowAtInput.

(** * Further properties *)

(** ** The cursor loops beyond the last page *)
Section CursorErrors.
Import Product_offer_id CursorPages CursorMore.
Context {Item : Type}.
Implicit Types (post : nat -> string -> response Item)
  (ps : list (page Item)).

Lemma cursor_after_cons cursor (p : page Item) ps :
  cursor_after cursor (p :: ps) = cursor_after (last_id p) ps.
Proof. unfold cursor_after. rewrite last_cons. by destruct (last ps). Qed.

(** Full pages are consumed one request each. *)
Lemma get_all_products_loop_full post ps : forall fuel n acc cursor,
  serves post n cursor ps -> all_full ps = true ->
  get_all_products_loop post (length ps + fuel) n acc cursor
  = get_all_products_loop post fuel (n + length ps)
      (acc ++ concat (items <$> ps)) (cursor_after cursor ps).
Proof.
  induction ps as [|p ps IH]; intros fuel n acc cursor Hs Hfull.
  - cbn. by rewrite Nat.add_0_r, app_nil_r.
  - destruct Hs as [Hpost Hs]. cbn [all_full forallb] in Hfull.
    apply andb_prop in Hfull as [Hp Hfull].
    apply andb_prop in Hp as [Hlen Hid]. apply negb_true_iff in Hlen.
    cbn [length Nat.add get_all_products_loop]. rewrite Hpost.
    cbn [Z.eqb Pos.eqb]. rewrite Hlen, Hid. cbn [negb].
    rewrite (IH _ _ _ _ Hs Hfull), cursor_after_cons.
    cbn [fmap list_fmap concat]. rewrite <- app_assoc.
    by replace (S n + length ps)%nat with (n + S (length ps))%nat by lia.
Qed.

(** X1.  A response with a status other than 200 ends the fetch of 001 with
    the items of the pages received so far as its result; an exception
    of the transport leaves [get_all_products]. *)
Theorem get_all_products_stops_on_error post ps fuel :
  serves post 0 "" ps -> all_full ps = true -> (length ps < fuel)%nat ->
  (forall status_code result,
     post (length ps) (cursor_after "" ps) = Response status_code result ->
     status_code <> 200 ->
     get_all_products post fuel
     = Some (Return (concat (items <$> ps)))) /\
  (forall e,
     post (length ps) (cursor_after "" ps) = Failure e ->
     get_all_products post fuel = Some (Raise e)).
Proof.
  intros Hs Hfull Hfuel. unfold get_all_products.
  replace fuel with (length ps + S (fuel - length ps - 1))%nat by lia.
  rewrite (get_all_products_loop_full post ps _ _ _ _ Hs Hfull).
  cbn [Nat.add app get_all_products_loop]. split.
  - intros code result -> Hcode.
    by rewrite (proj2 (Z.eqb_neq code 200) Hcode).
  - by intros e ->.
Qed.
End CursorErrors.

Lemma get_all_products_stops_on_error_witness :
  Product_offer_id.get_all_products CursorMoreExamples.refused_post 2
  = Some (Return (replicate 1000 7)).
Proof.
  destruct (get_all_products_stops_on_error CursorMoreExamples.refused_post
              [ {| Product_offer_id.items := replicate 1000 7;
                   Product_offer_id.last_id := "next" |} ] 2)
    as [Hstatus _]; [repeat split | reflexivity | simpl; lia |].
  rewrite (Hstatus 500 {| Product_offer_id.items := [];
                          Product_offer_id.last_id := "" |});
    [reflexivity | reflexivity | discriminate].
Defined.

Section ServiceErrors.
Import OzonAPIService ServicePages ServiceMore.
Context {Item : Type}.
Implicit Types (post : nat -> string -> option (page Item))
  (ps : list (page Item)).

Lemma service_cursor_after_cons cursor (p : page Item) ps :
  cursor_after cursor (p :: ps) = cursor_after (last_id p) ps.
Proof. unfold cursor_after. rewrite last_cons. by destruct (last ps). Qed.

Lemma service_loop_full post limit ps : forall fuel n acc cursor,
  serves post n cursor ps -> all_full limit ps = true ->
  get_all_products_loop post (length ps + fuel) n acc cursor limit
  = get_all_products_loop post fuel (n + length ps)
      (acc ++ concat (items <$> ps)) (cursor_after cursor ps) limit.
Proof.
  induction ps as [|p ps IH]; intros fuel n acc cursor Hs Hfull.
  - cbn. by rewrite Nat.add_0_r, app_nil_r.
  - destruct Hs as [Hpost Hs]. cbn [all_full forallb] in Hfull.
    apply andb_prop in Hfull as [Hp Hfull]. apply negb_true_iff in Hp.
    cbn [length Nat.add get_all_products_loop]. rewrite Hpost.
    fold (stops limit p). rewrite Hp.
    rewrite (IH _ _ _ _ Hs Hfull), service_cursor_after_cons.
    cbn [fmap list_fmap concat]. rewrite <- app_assoc.
    by replace (S n + length ps)%nat with (n + S (length ps))%nat by lia.
Qed.

(** X2.  A failed request makes [OzonAPIService.get_all_products] raise
    RuntimeError, however many pages it has received: nothing is
    returned. *)
Theorem service_raises_on_failure post limit ps fuel all_products :
  serves post 0 "" ps -> all_full limit ps = true ->
  post (length ps) (cursor_after "" ps) = None ->
  (length ps < fuel)%nat ->
  get_all_products post fuel all_products "" limit
  = Some (Raise RuntimeError).
Proof.
  intros Hs Hfull Hfail Hfuel. unfold get_all_products.
  replace fuel with (length ps + S (fuel - length ps - 1))%nat by lia.
  rewrite (service_loop_full post limit ps _ _ _ _ Hs Hfull).
  cbn [Nat.add get_all_products_loop]. by rewrite Hfail.
Qed.

Lemma service_loop_extends post limit : forall fuel n acc cursor xs,
  get_all_products_loop post fuel n acc cursor limit = Some (Return xs) ->
  exists fetched, xs = acc ++ fetched.
Proof.
  induction fuel as [|fuel IH]; intros n acc cursor xs Hrun; [done|].
  cbn [get_all_products_loop] in Hrun.
  destruct (post n cursor) as [result|]; [|done].
  destruct ((Z.of_nat (length (items result)) <? limit)%Z
            || negb (Py.nonempty (last_id result))).
  - injection Hrun as <-. eauto.
  - apply IH in Hrun as [fetched ->]. rewrite <- app_assoc. eauto.
Qed.

(** X3.  The list passed as [all_products] is extended, never replaced: what
    [get_all_products] returns starts with it. *)
Theorem service_extends_all_products post fuel init cursor limit xs :
  get_all_products post fuel (Some init) cursor limit = Some (Return xs) ->
  exists fetched, xs = init ++ fetched.
Proof. apply service_loop_extends. Qed.

Lemma cursor_loops_agree_from (server : nat -> string -> list Item * string) :
  forall fuel n acc cursor,
  Product_offer_id.get_all_products_loop
    (fun n c => as_response (server n c)) fuel n acc cursor
  = get_all_products_loop (fun n c => as_result (server n c))
      fuel n acc cursor 1000.
Proof.
  induction fuel as [|fuel IH]; intros n acc cursor; [done|].
  cbn [Product_offer_id.get_all_products_loop get_all_products_loop
       as_response as_result Z.eqb Pos.eqb
       Product_offer_id.items Product_offer_id.last_id items last_id].
  unfold Product_offer_id.limit.
  destruct (Nat.ltb_spec (length (server n cursor).1) 1000) as [Hlt|Hge];
    destruct (Z.ltb_spec (Z.of_nat (length (server n cursor).1)) 1000);
    try lia; cbn [orb]; [done|].
  destruct (Py.nonempty (server n cursor).2); cbn [negb]; [apply IH|done].
Qed.

(** X4.  The loop of 001 and the loop of the service class are the same
    algorithm: against a server that always answers with status 200,
    [get_all_products] of 001 and [OzonAPIService.get_all_products]
    called with no list, an empty cursor and a limit of 1000 return the
    same items, or both run out of fuel. *)
Theorem cursor_loops_agree (server : nat -> string -> list Item * string)
    fuel :
  Product_offer_id.get_all_products
    (fun n c => as_response (server n c)) fuel
  = get_all_products (fun n c => as_result (server n c)) fuel None "" 1000.
Proof. apply cursor_loops_agree_from. Qed.
End ServiceErrors.

Lemma service_raises_on_failure_witness :
  OzonAPIService.get_all_products ServiceMore.broken_post 3 (Some [0]) "" 2
  = Some (Raise RuntimeError).
Proof.
  apply (service_raises_on_failure ServiceMore.broken_post 2
           [ {| OzonAPIService.items := [1; 2]; OzonAPIService.last_id := "a" |};
             {| OzonAPIService.items := [3; 4]; OzonAPIService.last_id := "b" |} ]);
    [repeat split | reflexivity | reflexivity | simpl; lia].
Defined.

Lemma service_extends_all_products_witness :
  exists fetched, [0; 1; 2; 3; 4; 5] = [0] ++ fetched.
Proof.
  apply (service_extends_all_products ServicePages.full_post 3 [0] "" 2).
  reflexivity.
Defined.

(** ** The offset loop against a server that slices a list *)
Section Dataset.
Import FBO_Oborachivaemost OffsetPages RetrySpec.
Context {Item : Type}.

Lemma get_all_ozon_data_loop_requests (data : list Item) max_retries :
  forall fuel n offset retry_count,
  (offset <= length data)%nat ->
  (length data - offset < fuel * 1000)%nat ->
  exists tr,
    get_all_ozon_data_loop (dataset_post data) max_retries fuel n
      (take offset data) offset retry_count
    = Some (Return data, tr) /\
    failures tr = 0%nat /\
    ((attempts tr - 1) * 1000 <= length data - offset < attempts tr * 1000)%nat.
Proof.
  induction fuel as [|fuel IH]; intros n offset rc Hoff Hfuel; [lia|].
  cbn [get_all_ozon_data_loop].
  change (dataset_post data n offset)
    with (@Ok Item (take 1000 (drop offset data))).
  cbn zeta.
  assert (length (take 1000 (drop offset data))
          = Nat.min 1000 (length data - offset)) as Hlen
    by (rewrite <- length_drop; apply length_take).
  destruct (take 1000 (drop offset data)) as [|x p] eqn:Hp.
  - cbn [length] in Hlen. rewrite take_ge by lia.
    eexists. split; [done|]. cbn. lia.
  - assert (take offset data ++ x :: p = take (offset + 1000) data) as ->
      by (rewrite <- Hp; apply take_take_drop).
    destruct (Nat.ltb_spec (length (x :: p)) 1000) as [Hshort|Hfull].
    + rewrite take_ge by lia.
      eexists. split; [done|]. cbn [failures attempts]. lia.
    + replace (offset + length (x :: p))%nat with (offset + 1000)%nat by lia.
      destruct (IH (S n) (offset + 1000)%nat rc)
        as (tr & Htr & Hfail & Hreq); [lia..|].
      rewrite Htr. eexists. split; [done|].
      cbn [failures attempts]. lia.
Qed.

(** X5.  Against a server that holds [N] items and answers each request with
    the slice of at most 1000 items at the offset, [get_all_ozon_data]
    ends, returns the [N] items in order without a retry, and has sent
    [k] requests where [(k - 1) * 1000 <= N < k * 1000]: when [N] is a
    multiple of 1000 the last request brings an empty page. *)
Theorem get_all_ozon_data_dataset_requests (data : list Item)
    max_retries fuel :
  (length data < fuel * 1000)%nat ->
  exists tr,
    get_all_ozon_data (dataset_post data) max_retries fuel
    = Some (Return data, tr) /\
    failures tr = 0%nat /\
    ((attempts tr - 1) * 1000 <= length data < attempts tr * 1000)%nat.
Proof.
  intros Hfuel. unfold get_all_ozon_data.
  destruct (get_all_ozon_data_loop_requests data max_retries fuel 0 0 0)
    as (tr & Htr & Hfail & Hreq); [lia..|].
  exists tr. split; [exact Htr|]. split; [done|lia].
Qed.
End Dataset.

Lemma get_all_ozon_data_dataset_requests_witness :
  exists tr,
    FBO_Oborachivaemost.get_all_ozon_data
      (OffsetPages.dataset_post (replicate 1000 7)) 3 2
    = Some (Return (replicate 1000 7), tr) /\
    RetrySpec.failures tr = 0%nat /\
    ((RetrySpec.attempts tr - 1) * 1000 <= length (replicate 1000 7)
     < RetrySpec.attempts tr * 1000)%nat.
Proof.
  apply (get_all_ozon_data_dataset_requests (replicate 1000 7) 3 2).
  rewrite length_replicate. lia.
Defined.

(** ** Resizing the sheet of 001 *)
Section Resize.
Import Product_offer_id SheetSpec.

(** When rows are appended the sheet reaches [required_rows + 4] rows
    exactly; rows are never removed by [adjust_sheet_size]. *)
Lemma adjust_sheet_size_rows (current_rows required_rows : Z) :
  appended current_rows (adjust_sheet_size current_rows required_rows)
  = Z.max current_rows (required_rows + 4).
Proof.
  unfold appended, adjust_sheet_size.
  destruct (Z.ltb_spec current_rows (required_rows + 4)); cbn; lia.
Qed.

(** X6.  After [adjust_sheet_size] and [remove_empty_rows_after_data] a
    sheet whose id is not 0 has the four header rows and the data rows,
    whatever its size before; only a sheet that had exactly one row more
    keeps that row.  The sheet with id 0 (the first sheet of a
    spreadsheet) is never shortened. *)
Theorem resized_rows (sheet_id rows data_row_count : Z) :
  resized sheet_id rows data_row_count
  = if (sheet_id =? 0)%Z then Z.max rows (data_row_count + 4)
    else if (rows =? data_row_count + 5)%Z then data_row_count + 5
    else data_row_count + 4.
Proof.
  unfold resized. rewrite adjust_sheet_size_rows.
  unfold deleted, remove_empty_rows_after_data.
  destruct (Z.eqb_spec sheet_id 0); [done|].
  destruct (Z.eqb_spec rows (data_row_count + 5));
    destruct (Z.ltb_spec (data_row_count + 5)
                (Z.max rows (data_row_count + 4))); cbn; lia.
Qed.

(** X7.  The rows [remove_empty_rows_after_data] deletes lie after the four
    header rows and the data rows and reach the end of the sheet; the
    request is sent only when it deletes at least two rows. *)
Theorem remove_empty_rows_range (sheet_id total_rows data_row_count : Z) r :
  remove_empty_rows_after_data sheet_id total_rows data_row_count = Some r ->
  startIndex r = data_row_count + 4 /\ endIndex r = total_rows /\
  2 <= endIndex r - startIndex r.
Proof.
  unfold remove_empty_rows_after_data.
  destruct (sheet_id =? 0)%Z; [done|].
  destruct (Z.ltb_spec (data_row_count + 5) total_rows); [|done].
  intros [= <-]. cbn. lia.
Qed.

Lemma remove_empty_rows_range_witness :
  remove_empty_rows_after_data 7 20 10
  = Some {| startIndex := 14; endIndex := 20 |} /\
  startIndex {| startIndex := 14; endIndex := 20 |} = 10 + 4 /\
  endIndex {| startIndex := 14; endIndex := 20 |} = 20 /\
  2 <= endIndex {| startIndex := 14; endIndex := 20 |}
       - startIndex {| startIndex := 14; endIndex := 20 |}.
Proof.
  split; [reflexivity|].
  apply (remove_empty_rows_range 7 20 10). reflexivity.
Defined.
End Resize.

Example resized_examples :
  SheetSpec.resized 7 1000 10 = 14 /\ SheetSpec.resized 7 3 10 = 14 /\
  SheetSpec.resized 7 15 10 = 15 /\ SheetSpec.resized 0 1000 10 = 1000.
Proof. repeat split. Qed.

(** ** [str.strip] strips once and for all *)
Section Strip.
Import Py.
Implicit Types (bs r : list N).

(** A whitespace character at the head of [bs] is one at the head of
    every list [bs] starts. *)
Lemma ws_prefix_app bs r x :
  ws_prefix bs = Some r -> ws_prefix (bs ++ x) = Some (r ++ x).
Proof.
  destruct bs as [|a bs]; [discriminate|].
  rewrite <- app_comm_cons. unfold ws_prefix.
  repeat (match goal with
          | |- context [match ?v with _ => _ end] => is_var v; destruct v
          end; cbn [app]);
    try discriminate;
    repeat match goal with
           | |- context [if ?c then _ else _] => destruct c
           end;
    try discriminate; by intros [= <-].
Qed.

Ltac removes_some one :=
  intros bs; destruct bs as [|a bs]; [discriminate|]; unfold one;
  repeat match goal with
         | |- context [match ?v with _ => _ end] => is_var v; destruct v
         end;
  try discriminate;
  repeat match goal with
         | |- context [if ?c then _ else _] => destruct c
         end;
  try discriminate; intros r [= <-];
  first [ eexists (_ :: nil); split; [discriminate|reflexivity]
        | eexists (_ :: _ :: nil); split; [discriminate|reflexivity]
        | eexists (_ :: _ :: _ :: nil); split; [discriminate|reflexivity] ].

Lemma ws_prefix_removes : forall bs r,
  ws_prefix bs = Some r -> exists p, p <> [] /\ bs = p ++ r.
Proof. removes_some ws_prefix. Qed.

Lemma ws_suffix_removes : forall bs r,
  ws_suffix bs = Some r -> exists p, p <> [] /\ bs = p ++ r.
Proof. removes_some ws_suffix. Qed.

Section StripWith.
Variable one : list N -> option (list N).
Hypothesis removes : forall bs r,
  one bs = Some r -> exists p, p <> [] /\ bs = p ++ r.

Lemma strip_with_kept fuel : forall bs,
  exists p, bs = p ++ strip_with one fuel bs.
Proof.
  induction fuel as [|fuel IH]; intros bs; cbn; [by exists []|].
  destruct (one bs) as [r|] eqn:Hone; [|by exists []].
  destruct (removes _ _ Hone) as (p & _ & ->).
  destruct (IH r) as (q & Hq). exists (p ++ q).
  by rewrite <- app_assoc, <- Hq.
Qed.

Lemma strip_with_done fuel : forall bs,
  (length bs <= fuel)%nat -> one (strip_with one fuel bs) = None.
Proof.
  induction fuel as [|fuel IH]; intros bs Hlen; cbn.
  - destruct (one bs) as [r|] eqn:Hone; [|done].
    destruct (removes _ _ Hone) as ([|b p] & Hp & ->); [done|].
    cbn in Hlen. lia.
  - destruct (one bs) as [r|] eqn:Hone; [|done].
    apply IH. destruct (removes _ _ Hone) as ([|b p] & Hp & ->); [done|].
    rewrite length_app in Hlen. cbn in Hlen. lia.
Qed.

Lemma strip_with_fixed fuel bs :
  one bs = None -> strip_with one fuel bs = bs.
Proof. intros Hone. destruct fuel; cbn; [done|]. by rewrite Hone. Qed.
End StripWith.

Lemma bytes_of_bytes bs :
  Forall (fun b => (b < 256)%N) bs -> bytes_of (of_bytes bs) = bs.
Proof.
  intros Hbs. unfold bytes_of, of_bytes.
  rewrite list_ascii_of_string_of_list_ascii, <- list_fmap_compose.
  induction Hbs as [|b bs Hb _ IH]; [done|].
  cbn. rewrite IH. f_equal. by apply N_ascii_embedding.
Qed.

Lemma bytes_of_bounded s : Forall (fun b => (b < 256)%N) (bytes_of s).
Proof.
  unfold bytes_of. apply Forall_fmap, Forall_forall. intros c _.
  apply N_ascii_bounded.
Qed.

(** Stripping a stripped string changes nothing. *)
Lemma strip_idemp s : strip (strip s) = strip s.
Proof.
  unfold strip at 2 3.
  set (bs := bytes_of s).
  set (l := strip_with ws_prefix (length bs) bs).
  set (r := strip_with ws_suffix (length l) (reverse l)).
  cbn zeta.
  destruct (strip_with_kept ws_prefix ws_prefix_removes (length bs) bs)
    as (p & Hp). fold l in Hp.
  destruct (strip_with_kept ws_suffix ws_suffix_removes (length l)
              (reverse l)) as (q & Hq). fold r in Hq.
  assert (l = reverse r ++ reverse q) as Hl.
  { rewrite <- reverse_app, <- Hq. by rewrite reverse_involutive. }
  assert (ws_prefix l = None) as Hl_done
    by (apply strip_with_done; [apply ws_prefix_removes|done]).
  assert (ws_suffix r = None) as Hr_done.
  { apply strip_with_done; [apply ws_suffix_removes|].
    by rewrite length_reverse. }
  assert (ws_prefix (reverse r) = None) as Hm_done.
  { destruct (ws_prefix (reverse r)) as [t|] eqn:Ht; [|done].
    apply (ws_prefix_app _ _ (reverse q)) in Ht. rewrite <- Hl in Ht.
    congruence. }
  assert (Forall (fun b => (b < 256)%N) (reverse r)) as Hbound.
  { pose proof (bytes_of_bounded s) as Hbs. fold bs in Hbs.
    rewrite Hp, Hl in Hbs. rewrite !Forall_app in Hbs. tauto. }
  unfold strip. rewrite (bytes_of_bytes _ Hbound). cbn zeta.
  rewrite (strip_with_fixed _ _ _ Hm_done), reverse_involutive.
  by rewrite (strip_with_fixed _ _ _ Hr_done).
Qed.
End Strip.

(** ** The stocks pipeline of 008 *)
Section StocksBatches.
Import OzonAnalyticsStocks BatchSpec.
Context `{PyFloat}.
Variable post : nat -> list string -> option (list item).

Lemma brought_cons n batch batches :
  brought post n (batch :: batches)
  = default [] (post n batch) :: brought post (S n) batches.
Proof.
  unfold brought. cbn [imap]. rewrite Nat.add_0_r. f_equal.
  apply imap_ext. intros k b _. cbn. do 2 f_equal. lia.
Qed.

Lemma get_stocks_data_loop_brought skus : forall offsets n all_items,
  get_stocks_data_loop post skus offsets n all_items
  = all_items
    ++ concat (brought post n
                 ((fun i => Py.slice skus i (i + batch_size)) <$> offsets)).
Proof.
  induction offsets as [|i offsets IH]; intros n all_items.
  - cbn. by rewrite app_nil_r.
  - cbn [get_stocks_data_loop]. rewrite IH, fmap_cons, brought_cons.
    cbn [concat]. destruct (post n (Py.slice skus i (i + batch_size)));
      cbn [default]; [by rewrite app_assoc|done].
Qed.

Lemma brought_nothing batches : forall n,
  (forall k batch, default [] (post k batch) = []) ->
  concat (brought post n batches) = [].
Proof.
  induction batches as [|b batches IH]; intros n Hnone; [done|].
  rewrite brought_cons. cbn [concat]. by rewrite Hnone, IH.
Qed.

Lemma get_stocks_data_chunks (skus : list string) :
  exists batches,
    Analytics_base.chunks skus batch_size = Some batches /\
    concat batches = skus /\ full_but_last batch_size batches /\
    get_stocks_data post skus = concat (brought post 0 batches).
Proof.
  destruct (chunks_slices skus batch_size) as (cs & Hcs & Hcat & Hfull);
    [unfold batch_size; lia|].
  exists cs. split_and!; [done..|].
  unfold Analytics_base.chunks in Hcs. unfold get_stocks_data.
  destruct (Py.range (length skus) batch_size) as [offsets|]; [|done].
  injection Hcs as <-. cbn [default].
  by rewrite get_stocks_data_loop_brought.
Qed.

(** X8.  [get_stocks_data] cuts the SKUs into batches of 50, in order, sends
    one request per batch and returns the items of the answers in the
    order of the batches; a batch whose request fails brings nothing and
    does not stop the others. *)
Theorem get_stocks_data_batches (skus : list string) :
  exists batches,
    Analytics_base.chunks skus batch_size = Some batches /\
    concat batches = skus /\ full_but_last batch_size batches /\
    get_stocks_data post skus = concat (brought post 0 batches).
Proof. apply get_stocks_data_chunks. Qed.
End StocksBatches.

Section StocksRows.
Import OzonAnalyticsStocks StocksSpec.
Context `{PyFloat}.

Lemma first_item_none_returns sku items :
  first_item sku items = None -> returns_total sku items = None.
Proof.
  induction items as [|it items IH]; [done|]. cbn.
  case_bool_decide; [done|]. apply IH.
Qed.

Lemma blank_if_zero_not_zero (v : option Z) :
  _to_sheet_cell_blank_if_zero v <> "0".
Proof.
  destruct v as [z|]; cbn; [|done].
  destruct (Z.eqb_spec z 0) as [->|Hz]; [done|].
  intros Heq. apply Hz. by apply (inj (pretty (A:=Z))).
Qed.

Lemma grade_cell (table : gmap string string) grade cell :
  grade_lookup table grade = Some cell ->
  _to_sheet_cell (of_str cell) = ""
  \/ exists code, grade = VStr code
                  /\ table !! code = Some (_to_sheet_cell (of_str cell)).
Proof.
  unfold grade_lookup. destruct (Py.truthy grade); [|intros [= <-]; by left].
  destruct grade as [|b|z|f|g|l|d]; try (intros [= <-]; by left); try done.
  intros [= <-]. destruct (table !! g) as [text|] eqn:Hg; [|by left].
  right. by exists g.
Qed.

Lemma build_export_rows_length skus items rows :
  build_export_rows skus items = Some rows -> length rows = length skus.
Proof.
  rewrite build_export_rows_mapM.
  destruct (index_items items) as [[rep rs]|]; [|done].
  cbn [mbind option_bind]. intros Hrows. apply mapM_Some in Hrows.
  symmetry. by eapply Forall2_length.
Qed.

(** X9.  Every row [build_export_rows] returns has the six cells AD..AI; its
    returns cell (AF) is never "0"; its status cell (AG) and its
    description cell (AH) are blank or the entries of the two tables for
    the record's [turnover_grade]. *)
Theorem export_rows_shape skus items rows :
  build_export_rows skus items = Some rows ->
  length rows = length skus /\
  Forall (fun row =>
            length row = 6%nat /\ row !! 2%nat <> Some "0" /\
            exists ag ah,
              row !! 3%nat = Some ag /\ row !! 4%nat = Some ah /\
              (ag = "" \/ exists code, TURNOVER_GRADE_RU !! code = Some ag) /\
              (ah = "" \/ exists code,
                            TURNOVER_GRADE_DESCRIPTIONS !! code = Some ah))
         rows.
Proof.
  rewrite build_export_rows_mapM.
  destruct (index_items items) as [[rep rs]|]; [|done].
  cbn [mbind option_bind]. intros Hrows. apply mapM_Some in Hrows.
  split; [symmetry; by eapply Forall2_length|].
  apply Forall_forall. intros row Hrow.
  apply list_elem_of_lookup in Hrow as [n Hn].
  destruct (Forall2_lookup_r _ _ _ _ _ Hrows Hn) as (sku & _ & Hsku).
  apply export_row_cells in Hsku. cbn zeta in Hsku.
  destruct Hsku as (days & idc & ads & gru & gdesc & _ & _ & _
                    & Hgru & Hgdesc & ->).
  split_and!; [done| |].
  - cbn. intros [= Heq]. by apply blank_if_zero_not_zero in Heq.
  - eexists _, _. split_and!; [done..| |].
    + destruct (grade_cell _ _ _ Hgru) as [->|(code & _ & Hcode)];
        [by left|right; by exists code].
    + destruct (grade_cell _ _ _ Hgdesc) as [->|(code & _ & Hcode)];
        [by left|right; by exists code].
Qed.

(** X10.  A SKU of the sheet that no fetched item carries gets a row of six
    blank cells, at its own position. *)
Theorem missing_sku_blank_row skus items rows n sku :
  build_export_rows skus items = Some rows ->
  skus !! n = Some sku ->
  first_item sku items = None ->
  rows !! n = Some [""; ""; ""; ""; ""; ""].
Proof.
  rewrite build_export_rows_mapM.
  destruct (index_items items) as [[rep rs]|] eqn:Hindex; [|done].
  cbn [mbind option_bind]. intros Hrows Hn Hnone.
  apply mapM_Some in Hrows.
  destruct (Forall2_lookup_l _ _ _ _ _ Hrows Hn) as (row & -> & Hrow).
  destruct (index_items_first items rep rs Hindex sku) as [Hrep Hrs].
  apply export_row_cells in Hrow. cbn zeta in Hrow.
  rewrite Hrs, Hrep, Hnone, (first_item_none_returns _ _ Hnone) in Hrow.
  cbn [default] in Hrow. unfold Py.get in Hrow.
  rewrite !lookup_empty in Hrow. cbn in Hrow.
  destruct Hrow as (days & idc & ads & gru & gdesc & [= <-] & [= <-]
                    & [= <-] & [= <-] & [= <-] & ->).
  done.
Qed.
End StocksRows.

Section StocksProcess.
Import OzonAnalyticsStocks BatchSpec.
Context `{PyFloat}.
Variable post : nat -> list string -> option (list item).

(** X11.  What [process] does to the worksheet.  When it returns [True] it
    has cleared AD5:AI1000 and then written one row per SKU of column B,
    from row 5 down to row [4 + len(skus)]; when it returns [False] it
    has written nothing, and has either left the sheet alone or only
    cleared AD5:AI1000. *)
Theorem stocks_process_calls (skus : list string) :
  match process post skus with
  | (true, calls) =>
      exists rows,
        build_export_rows skus (get_stocks_data post skus) = Some rows /\
        length rows = length skus /\ skus <> [] /\
        calls = [ BatchClear ["AD5:AI1000"];
                  Update ("AD5:AI" +:+ pretty (4 + length skus)%nat) rows ]
  | (false, calls) => calls = [] \/ calls = [BatchClear ["AD5:AI1000"]]
  end.
Proof.
  unfold process. destruct skus as [|sku skus]; [by left|].
  destruct (get_stocks_data post (sku :: skus)) as [|it items];
    [by right|].
  destruct (build_export_rows (sku :: skus) (it :: items)) as [rows|] eqn:Hrows;
    [|by left].
  exists rows. pose proof (build_export_rows_length _ _ _ Hrows) as Hlen.
  split_and!; [done..|].
  unfold export_data_to_sheet. rewrite Hlen.
  destruct rows; [done|]. done.
Qed.

(** X12.  When no batch brings an item (each request fails or answers with
    no items), [process] clears AD5:AI1000, writes nothing in its place
    and returns [False]. *)
Theorem stocks_process_clears_without_data (skus : list string) :
  skus <> [] ->
  (forall n batch, default [] (post n batch) = []) ->
  process post skus = (false, [BatchClear ["AD5:AI1000"]]).
Proof.
  intros Hskus Hnone. unfold process. destruct skus as [|sku skus]; [done|].
  destruct (get_stocks_data_chunks post (sku :: skus))
    as (batches & _ & _ & _ & ->).
  by rewrite brought_nothing.
Qed.
End StocksProcess.

Module StocksAtInput.
Import OzonAnalyticsStocks.
#[local] Existing Instance QFloat.instance.

Lemma missing_sku_blank_row_witness :
  build_export_rows ["7"; "8"] [StocksSpec.quiet_item]
  = Some [ ["0"; "12"; ""; "Дефицитный"; "Хватит до 28 дней."; "0"];
           [""; ""; ""; ""; ""; ""] ] /\
  [ ["0"; "12"; ""; "Дефицитный"; "Хватит до 28 дней."; "0"];
    [""; ""; ""; ""; ""; ""] ] !! 1%nat
  = Some [""; ""; ""; ""; ""; ""].
Proof.
  split; [vm_compute; reflexivity|].
  apply (missing_sku_blank_row ["7"; "8"] [StocksSpec.quiet_item] _ 1 "8");
    vm_compute; reflexivity.
Defined.

Lemma export_rows_shape_witness :
  build_export_rows ["7"; "8"] [StocksSpec.quiet_item]
  = Some [ ["0"; "12"; ""; "Дефицитный"; "Хватит до 28 дней."; "0"];
           [""; ""; ""; ""; ""; ""] ] /\
  length [ ["0"; "12"; ""; "Дефицитный"; "Хватит до 28 дней."; "0"];
           [""; ""; ""; ""; ""; ""] ] = length ["7"; "8"] /\
  Forall (fun row =>
            length row = 6%nat /\ row !! 2%nat <> Some "0" /\
            exists ag ah,
              row !! 3%nat = Some ag /\ row !! 4%nat = Some ah /\
              (ag = "" \/ exists code, TURNOVER_GRADE_RU !! code = Some ag) /\
              (ah = "" \/ exists code,
                            TURNOVER_GRADE_DESCRIPTIONS !! code = Some ah))
    [ ["0"; "12"; ""; "Дефицитный"; "Хватит до 28 дней."; "0"];
      [""; ""; ""; ""; ""; ""] ].
Proof.
  split; [vm_compute; reflexivity|].
  apply (export_rows_shape ["7"; "8"] [StocksSpec.quiet_item]).
  vm_compute. reflexivity.
Defined.

(** The first request fails, the second answers. *)
Example process_exports :
  process (fun n _ => match n with
                      | O => None
                      | _ => Some [StocksSpec.quiet_item]
                      end)
    (replicate 50 "1" ++ ["7"])
  = (true,
     [ BatchClear ["AD5:AI1000"];
       Update "AD5:AI55"
         (replicate 50 [""; ""; ""; ""; ""; ""]
          ++ [["0"; "12"; ""; "Дефицитный"; "Хватит до 28 дней."; "0"]]) ]).
Proof. vm_compute. reflexivity. Qed.

Lemma stocks_process_clears_without_data_witness :
  ["7"] <> [] /\
  process (fun _ _ => None) ["7"] = (false, [BatchClear ["AD5:AI1000"]]).
Proof.
  split; [discriminate|].
  apply (stocks_process_clears_without_data (fun _ _ => None) ["7"]);
    [discriminate|reflexivity].
Defined.
End StocksAtInput.

(** ** The price rows of 013 *)
Section PriceRows.
Import Price_logistic.
Context `{PyFloat}.

Lemma collect_actions_from marketing_actions :
  forall titles0 count0 titles count,
  Py.for_ marketing_actions (titles0, count0)
    (fun '(action_titles, actions_count) action =>
       match action with
       | VDict a =>
           if Py.truthy action then
             match Py.get_or a "title" (VStr "") with
             | VStr t =>
                 let title := Py.strip t in
                 if Py.nonempty title
                    && negb (bool_decide (title ∈ EXCLUDED_ACTIONS))
                 then Some (action_titles ++ ["[" +:+ title +:+ "]"],
                            actions_count + 1)
                 else Some (action_titles, actions_count)
             | _ => None
             end
           else Some (action_titles, actions_count)
       | _ => Some (action_titles, actions_count)
       end) = Some (titles, count) ->
  exists new, titles = titles0 ++ new /\
              count = count0 + Z.of_nat (length new) /\ Forall PriceMore.listed new.
Proof.
  induction marketing_actions as [|action l IH];
    intros titles0 count0 titles count Hrun.
  - injection Hrun as <- <-. exists []. rewrite app_nil_r. cbn.
    split_and!; [done|lia|constructor].
  - cbn [Py.for_] in Hrun.
    match type of Hrun with
    | match ?step with _ => _ end = _ =>
        destruct step as [[titles1 count1]|] eqn:Hstep; [|discriminate]
    end.
    destruct (IH _ _ _ _ Hrun) as (new & -> & -> & Hnew). clear IH Hrun.
    assert ((titles1 = titles0 /\ count1 = count0) \/
            exists t, PriceMore.listed t /\ titles1 = titles0 ++ [t] /\
                      count1 = count0 + 1) as [[-> ->]|(t & Ht & -> & ->)].
    { destruct action as [| | | | |?|a]; try (left; by injection Hstep).
      destruct (Py.truthy (VDict a)); [|left; by injection Hstep].
      destruct (Py.get_or a "title" (VStr "")) as [| | | |t| |];
        try discriminate.
      cbn zeta in Hstep.
      destruct (Py.nonempty (Py.strip t)) eqn:Hne;
        [|left; by injection Hstep].
      case_bool_decide as Hex; cbn in Hstep; [left; by injection Hstep|].
      right. injection Hstep as <- <-. eexists. split; [|done].
      exists (Py.strip t). split_and!; [done|apply strip_idemp|done..]. }
    + by exists new.
    + exists (t :: new). rewrite <- app_assoc. cbn [app length].
      split_and!; [done|lia|by constructor].
Qed.

Lemma collect_actions_listed marketing_actions titles count :
  collect_actions marketing_actions = Some (titles, count) ->
  count = Z.of_nat (length titles) /\ Forall PriceMore.listed titles.
Proof.
  intros Hrun. apply collect_actions_from in Hrun as (new & -> & -> & Hnew).
  split; [cbn; lia|done].
Qed.

(** X13.  In the row of a fetched product, the FBO total (column FE) is the
    sum of the acquiring, commission, transport and delivery cells
    (ET, EV, EW, EX); the cell after the totals (FG) is blank; the
    number of actions (FP) counts the titles listed in FO, each in
    brackets, stripped, not empty and not excluded. *)
Theorem item_row_totals it dq1_value row :
  item_row it dq1_value = Some row ->
  (exists acquiring dr_value fbo_transport fbo_delivery,
     row !! 0%nat = Some (VInt acquiring) /\
     row !! 2%nat = Some (VInt dr_value) /\
     row !! 3%nat = Some (VInt fbo_transport) /\
     row !! 4%nat = Some (VInt fbo_delivery) /\
     row !! 11%nat
     = Some (VInt (acquiring + dr_value + fbo_transport + fbo_delivery))) /\
  row !! 13%nat = Some (VStr "") /\
  exists action_titles,
    row !! 21%nat = Some (VStr (join_space action_titles)) /\
    row !! 22%nat = Some (VInt (Z.of_nat (length action_titles))) /\
    Forall PriceMore.listed action_titles.
Proof.
  unfold item_row. intros Hrow.
  repeat match type of Hrow with
         | mbind _ ?x = Some _ =>
             destruct x eqn:?; cbn [mbind option_bind] in Hrow;
             [|discriminate Hrow]
         | (let '(_, _) := ?p in _) = Some _ => destruct p
         end.
  injection Hrow as <-.
  match goal with
  | Hc : collect_actions _ = Some _ |- _ =>
      apply collect_actions_listed in Hc as [-> Hlisted]
  end.
  split_and!; [by eexists _, _, _, _|done|].
  eexists. split_and!; [done..|exact Hlisted].
Qed.

Lemma prepared_rows data product_ids dq1_value rows :
  prepare_data_for_sheet data product_ids dq1_value = Some rows ->
  length rows = length product_ids /\
  Forall (fun row => length row = 24%nat \/ row = blank_row) rows.
Proof.
  rewrite prepare_data_for_sheet_mapM. intros Hrows.
  apply mapM_Some in Hrows. split; [symmetry; by eapply Forall2_length|].
  apply Forall_forall. intros row Hrow.
  apply list_elem_of_lookup in Hrow as [n Hn].
  destruct (Forall2_lookup_r _ _ _ _ _ Hrows Hn) as (pid & _ & Hpid).
  unfold sheet_row in Hpid.
  destruct (Py.dict_get Py.key_eqb data (VInt pid)) as [it|].
  - left. by eapply item_row_length.
  - right. by injection Hpid.
Qed.
End PriceRows.

Section PriceScript.
Import Price_logistic.
Context `{PyFloat}.
Variable post : nat -> list Z -> response.

Lemma get_ozon_prices_loop_nothing product_ids limit :
  (forall n chunk, post n chunk = Failed \/ post n chunk = NoItems) ->
  forall offsets n all_prices,
  get_ozon_prices_loop post product_ids limit offsets n all_prices
  = all_prices.
Proof.
  intros Hnone. induction offsets as [|i offsets IH]; intros n all_prices;
    [done|].
  cbn [get_ozon_prices_loop]. rewrite IH.
  by destruct (Hnone n (Py.slice product_ids i (i + limit))) as [-> | ->].
Qed.

(** X14.  What [main] does to the worksheet.  It leaves it alone, or reads
    ET2 and clears ET5:FQ down to the last product row without writing
    (a row raised), or reads ET2, clears that range and writes one row
    per product id into the very same range; each row written has the
    24 cells of a fetched product or is the blank row. *)
Theorem price_main_calls (product_ids : list Z) (et2 : option string) :
  let r := "ET5:FQ" +:+ pretty (4 + length product_ids)%nat in
  main post product_ids et2 = [] \/
  main post product_ids et2 = [Acell "ET2"; BatchClear [r]] \/
  exists rows,
    length rows = length product_ids /\
    Forall (fun row => length row = 24%nat \/ row = blank_row) rows /\
    main post product_ids et2
    = [Acell "ET2"; BatchClear [r]; Update r rows].
Proof.
  intros r. unfold main. destruct product_ids as [|pid product_ids];
    [by left|].
  destruct (get_ozon_prices post (pid :: product_ids) 1000)
    as [[|entry data]|]; [by left| |by left].
  right. unfold write_data_to_sheet.
  assert (exists dq1_value,
            safe_float (from_option VStr VNone et2) = Some dq1_value)
    as [dq1_value ->] by (destruct et2; cbn; eauto).
  fold r.
  destruct (prepare_data_for_sheet (entry :: data) (pid :: product_ids)
              (VFloat dq1_value)) as [rows|] eqn:Hrows; [|by left].
  destruct (prepared_rows _ _ _ _ Hrows) as [Hlen Hwidth].
  destruct rows as [|row rows]; [by left|].
  right. exists (row :: rows). split_and!; [done..|].
  cbn [fst]. by rewrite Hlen.
Qed.

(** X15.  When every request fails or answers without items, [main],
    once it has the product ids, makes no call to the worksheet: cell
    ET2 is not read, nothing is cleared or written, the old values
    stay. *)
Theorem price_main_without_data (product_ids : list Z) (et2 : option string) :
  (forall n chunk, post n chunk = Failed \/ post n chunk = NoItems) ->
  main post product_ids et2 = [].
Proof.
  intros Hnone. unfold main. destruct product_ids as [|pid product_ids];
    [done|].
  unfold get_ozon_prices.
  destruct (Py.range (length (pid :: product_ids)) 1000) as [offsets|];
    [|done].
  cbn [mbind option_bind]. by rewrite get_ozon_prices_loop_nothing.
Qed.
End PriceScript.

Module PriceAtInput.
Import Price_logistic.
#[local] Existing Instance QFloat.instance.

Lemma item_row_totals_witness :
  exists row,
    item_row PriceMore.promoted (VFloat 0%Q) = Some row /\
    (exists acquiring dr_value fbo_transport fbo_delivery,
       row !! 0%nat = Some (VInt acquiring) /\
       row !! 2%nat = Some (VInt dr_value) /\
       row !! 3%nat = Some (VInt fbo_transport) /\
       row !! 4%nat = Some (VInt fbo_delivery) /\
       row !! 11%nat
       = Some (VInt (acquiring + dr_value + fbo_transport + fbo_delivery))) /\
    row !! 13%nat = Some (VStr "") /\
    exists action_titles,
      row !! 21%nat = Some (VStr (join_space action_titles)) /\
      row !! 22%nat = Some (VInt (Z.of_nat (length action_titles))) /\
      Forall PriceMore.listed action_titles.
Proof.
  eexists. split; [vm_compute; reflexivity|].
  apply (item_row_totals PriceMore.promoted (VFloat 0%Q)).
  vm_compute. reflexivity.
Defined.

(** The row of the sample product: 5 + 20 + 7 + 3 in FE, two titles. *)
Example promoted_cells :
  exists row,
    item_row PriceMore.promoted (VFloat 0%Q) = Some row /\
    row !! 11%nat = Some (VInt 35) /\
    row !! 21%nat = Some (VStr "[Sale] [Week]") /\
    row !! 22%nat = Some (VInt 2).
Proof. eexists. vm_compute. repeat split. Qed.

Example main_writes :
  exists row,
    main PriceMore.promoted_post [1; 2] (Some "0")
    = [ Acell "ET2"; BatchClear ["ET5:FQ6"];
        Update "ET5:FQ6" [row; blank_row] ] /\
    length row = 24%nat.
Proof. eexists. vm_compute. split; reflexivity. Qed.

Lemma price_main_without_data_witness :
  (forall n chunk, PriceMore.failed_post n chunk = Failed
                   \/ PriceMore.failed_post n chunk = NoItems) /\
  main PriceMore.failed_post [1; 2] None = [].
Proof.
  split; [by left|].
  apply (price_main_without_data PriceMore.failed_post [1; 2] None). by left.
Defined.
End PriceAtInput.

(** ** The product-queries script (014) *)
Section Queries.
Import Analytics_base UpdateSpec SkuSpec CredentialSpec.
Context `{PyFloat}.

Lemma sku_data_from l : forall (d : gmap string item) k,
  foldl (fun d it =>
           if Py.truthy (Py.get it "sku")
           then <[Py.strip (Py.str (Py.get_or it "sku" (VStr ""))) := it]> d
           else d) d l !! k
  = match last_keyed k l with
    | Some it => Some it
    | None => d !! k
    end.
Proof.
  induction l as [|it l IH]; intros d k; [done|].
  cbn [foldl last_keyed]. rewrite IH.
  destruct (last_keyed k l) as [found|]; [done|]. unfold key_of.
  destruct (Py.truthy (Py.get it "sku")); [|done]. cbn [andb].
  case_bool_decide as Hk.
  - by rewrite Hk, lookup_insert_eq.
  - by rewrite lookup_insert_ne.
Qed.

(** X16.  [sku_data] files every item whose [sku] is truthy under the printed,
    stripped [sku]; of several items filed under one key the last one
    stays. *)
Theorem sku_data_last (all_items : list item) (k : string) :
  sku_data all_items !! k = last_keyed k all_items.
Proof.
  unfold sku_data. rewrite sku_data_from, lookup_empty.
  by destruct (last_keyed k all_items).
Qed.

Lemma skus_nil_sku_to_row sku_col :
  skus sku_col = [] -> sku_to_row sku_col = [].
Proof.
  unfold skus. intros Hskus. apply fmap_nil_inv in Hskus.
  fold nonblank in Hskus.
  destruct (sku_to_row sku_col) as [|[k r] d] eqn:Hd; [done|].
  assert (k ∈ (sku_to_row sku_col).*1) as Hk by (rewrite Hd; by left).
  apply sku_to_row_keys in Hk. rewrite Hskus in Hk.
  by apply elem_of_nil in Hk.
Qed.

Lemma collect_nothing post (es : list (nat * list string)) :
  (forall n batch, default [] (post n batch) = []) ->
  forall all_items,
  foldl (fun all_items '(n, batch) =>
           all_items ++ fetch_product_queries_data post n batch)
    all_items es = all_items.
Proof.
  intros Hnone. induction es as [|[n batch] es IH]; intros all_items;
    [done|].
  cbn [foldl]. rewrite IH. unfold fetch_product_queries_data.
  by rewrite Hnone, app_nil_r.
Qed.

(** X17.  When the credential file is accepted and no request brings an item
    (each fails or answers with none), [main] still sends one update per
    SKU of the column, each with five blank cells: the metrics of every
    SKU row are blanked. *)
Theorem failed_fetch_blanks post lines sku_col cfg :
  read_api_config lines = Return cfg ->
  (forall n batch, default [] (post n batch) = []) ->
  main post lines sku_col
  = (fun e => {| range := range_of e.2;
                 values := [replicate 5 (VStr "")] |})
      <$> sku_to_row sku_col.
Proof.
  intros Hcfg Hnone. unfold main. rewrite Hcfg.
  destruct (skus sku_col) as [|s ss] eqn:Hskus.
  - by rewrite skus_nil_sku_to_row.
  - destruct (chunks_slices (s :: ss) 1000) as (batches & -> & _); [lia|].
    unfold collect. rewrite collect_nothing by done.
    rewrite updates_fmap. apply list_fmap_ext. intros i [sku row] _.
    unfold update_for, sku_data. cbn [foldl fst snd].
    by rewrite lookup_empty.
Qed.
End Queries.

Module QueriesAtInput.
Import Analytics_base.
#[local] Existing Instance QFloat.instance.

Lemma failed_fetch_blanks_witness :
  read_api_config ["id"; "key"; "book"; "sheet"]
  = Return {| client_id := "id"; api_key := "key";
              spreadsheet_id := "book"; sheet_name := "sheet" |} /\
  main (fun _ _ => None) ["id"; "key"; "book"; "sheet"] UpdateSpec.column
  = (fun e => {| range := UpdateSpec.range_of e.2;
                 values := [replicate 5 (VStr "")] |})
      <$> sku_to_row UpdateSpec.column.
Proof.
  split; [vm_compute; reflexivity|].
  apply (failed_fetch_blanks (fun _ _ => None)
           ["id"; "key"; "book"; "sheet"] UpdateSpec.column
           {| client_id := "id"; api_key := "key";
              spreadsheet_id := "book"; sheet_name := "sheet" |});
    [vm_compute; reflexivity|intros n batch; reflexivity].
Defined.

(** Rows 8 and 7 of the sample column are blanked. *)
Example failed_fetch_ranges :
  range <$> main (fun _ _ => None) ["id"; "key"; "book"; "sheet"]
              UpdateSpec.column
  = ["FX8:GB8"; "FX7:GB7"].
Proof. vm_compute. reflexivity. Qed.

(** Two items print as "11": the second is the one filed. *)
Example sku_data_keeps_last :
  sku_data [ list_to_map [("sku", VInt 11); ("gmv", VInt 1)];
             list_to_map [("sku", VStr " 11 "); ("gmv", VInt 2)];
             list_to_map [("sku", VInt 0); ("gmv", VInt 3)] ] !! "11"
  = Some (list_to_map [("sku", VStr " 11 "); ("gmv", VInt 2)]).
Proof. vm_compute. reflexivity. Qed.
End QueriesAtInput.

(** ** The stock script (006) from the product ids on *)
Section StockScript.
Import Stock_FBO_FBS StockSpec StockMore.
Variable get_stock_data : nat -> list Z -> fetched.

Lemma stock_brought_cons n chunk chunks :
  brought get_stock_data n (chunk :: chunks)
  = match get_stock_data n chunk with
    | Body stock_data => items stock_data
    | _ => []
    end :: brought get_stock_data (S n) chunks.
Proof.
  unfold brought. cbn [imap]. rewrite Nat.add_0_r. f_equal.
  apply imap_ext. intros k c _. cbn.
  by replace (n + S k)%nat with (S (n + k)) by lia.
Qed.

(** The loop stops at the first chunk that raises; otherwise it gathers
    what the chunks brought, in order. *)
Lemma collect_brought chunks : forall n final_items,
  collect get_stock_data chunks n final_items
  = match raised get_stock_data n chunks with
    | Some e => Raise e
    | None =>
        Return (final_items ++ concat (brought get_stock_data n chunks))
    end.
Proof.
  induction chunks as [|chunk chunks IH]; intros n final_items.
  - cbn. by rewrite app_nil_r.
  - cbn [collect raised]. rewrite stock_brought_cons. cbn [concat].
    destruct (get_stock_data n chunk) as [stock_data| |e]; [| |done];
      rewrite IH; destruct (raised get_stock_data (S n) chunks);
      try done; by rewrite app_assoc.
Qed.

Lemma stock_brought_nothing chunks : forall n,
  (forall k chunk, brings_nothing (get_stock_data k chunk)) ->
  raised get_stock_data n chunks = None /\
  concat (brought get_stock_data n chunks) = [].
Proof.
  induction chunks as [|c chunks IH]; intros n Hnone; [done|].
  rewrite stock_brought_cons. cbn [concat raised].
  destruct (IH (S n) Hnone) as [Hraised Hbrought].
  specialize (Hnone n c).
  destruct (get_stock_data n c) as [stock_data| |e]; cbn in Hnone;
    [|done..].
  by rewrite Hnone.
Qed.

(** X18.  What the script does to the sheet.  Without product ids,
    nothing.  Otherwise it clears columns R and S from row 5 down.  If
    the fetch of some chunk raises (the request or the decoding of its
    answer fails, or the answer holds no 'items'), the script ends there
    with that exception: the columns stay cleared.  Otherwise, if some
    chunk brought an item, it writes one cell per product id, in order,
    into R5:R[4+n] and S5:S[4+n]: the FBO and FBS sums of the product
    over the items of all chunks, a refused chunk bringing none. *)
Theorem stock_script_calls (product_ids : list Z) :
  let fetched :=
    {| items := concat (brought get_stock_data 0 (chunks product_ids)) |} in
  script get_stock_data product_ids
  = match product_ids with
    | [] => ([], None)
    | _ =>
        match raised get_stock_data 0 (chunks product_ids) with
        | Some e => ([BatchClear ["R5:R"; "S5:S"]], Some e)
        | None =>
            (BatchClear ["R5:R"; "S5:S"] ::
             match items fetched with
             | [] => []
             | _ =>
                 [ Update ("R5:R" +:+ pretty (4 + length product_ids)%nat)
                     ((fun pid => [cell "fbo" fetched pid]) <$> product_ids);
                   Update ("S5:S" +:+ pretty (4 + length product_ids)%nat)
                     ((fun pid => [cell "fbs" fetched pid]) <$> product_ids) ]
             end, None)
        end
    end.
Proof.
  intros fetched. subst fetched. unfold script. rewrite collect_brought.
  cbn [app items].
  destruct product_ids as [|pid product_ids]; [done|].
  destruct (raised get_stock_data 0 (chunks (pid :: product_ids)));
    [done|].
  cbn [app]. f_equal. f_equal.
  destruct (concat (brought get_stock_data 0 (chunks (pid :: product_ids))))
    as [|it its]; [done|].
  unfold update_calls. rewrite update_google_sheet_cells.
  cbn [fmap list_fmap length]. rewrite !length_fmap.
  by replace (5 + S (length product_ids) - 1)%nat
    with (4 + S (length product_ids))%nat by lia.
Qed.

(** X19.  When every request is refused or answers with no items, the
    script has cleared columns R and S, writes nothing back and runs to
    its end. *)
Theorem stock_script_clears_without_data (product_ids : list Z) :
  product_ids <> [] ->
  (forall n chunk, brings_nothing (get_stock_data n chunk)) ->
  script get_stock_data product_ids
  = ([BatchClear ["R5:R"; "S5:S"]], None).
Proof.
  intros Hids Hnone. unfold script. rewrite collect_brought.
  destruct (stock_brought_nothing (chunks product_ids) 0 Hnone)
    as [-> ->].
  by destruct product_ids.
Qed.
End StockScript.

Example script_writes :
  Stock_FBO_FBS.script StockMore.answered [20; 30; 10]
  = ([ BatchClear ["R5:R"; "S5:S"];
       Update "R5:R7" [[0]; [0]; [8]]; Update "S5:S7" [[1]; [0]; [4]] ],
     None).
Proof. vm_compute. reflexivity. Qed.

(** With 1001 product ids the second chunk times out: the columns have
    been cleared, nothing is written, the exception ends the script. *)
Example script_dies_after_clear :
  Stock_FBO_FBS.script StockMore.timed_out (replicate 1001 10)
  = ([BatchClear ["R5:R"; "S5:S"]], Some RequestException).
Proof. vm_compute. reflexivity. Qed.

Lemma stock_script_clears_without_data_witness :
  [20; 30; 10] <> [] /\
  Stock_FBO_FBS.script StockMore.refused [20; 30; 10]
  = ([BatchClear ["R5:R"; "S5:S"]], None).
Proof.
  split; [discriminate|].
  apply (stock_script_clears_without_data StockMore.refused [20; 30; 10]);
    [discriminate|intros n chunk; exact I].
Defined.

(** ** What stripping gives: clean credentials, padded SKUs *)
Section Clean.
Import CredentialSpec CredentialMore.

Lemma stripped_lines_clean (lines : list string) :
  Forall clean (Py.strip <$> filter nonblank lines).
Proof.
  apply Forall_fmap, Forall_forall. intros line Hline.
  apply list_elem_of_filter in Hline as [Hline _].
  split; [exact Hline|apply strip_idemp].
Qed.

Ltac four_fields Hclean :=
  apply Forall_cons in Hclean as [? Hclean];
  apply Forall_cons in Hclean as [? Hclean];
  apply Forall_cons in Hclean as [? Hclean];
  apply Forall_cons in Hclean as [? _];
  repeat (constructor; [assumption|]); constructor.

(** X20.  The readers that drop blank lines (001, 005, 008, 013) return four
    fields that are not empty and carry no whitespace around them; the
    fields of the readers of 006 and 014 carry no whitespace around them
    either, but may be empty. *)
Theorem credentials_clean (lines : list string) :
  (forall api_key client_id spreadsheet_id sheet_name,
     Product_offer_id.read_api_credentials lines
     = Return (api_key, client_id, spreadsheet_id, sheet_name) ->
     Forall clean [api_key; client_id; spreadsheet_id; sheet_name]) /\
  (forall c,
     FBO_Oborachivaemost.read_api_credentials lines = Return c ->
     Forall clean [ FBO_Oborachivaemost.client_id c;
                    FBO_Oborachivaemost.api_key c;
                    FBO_Oborachivaemost.spreadsheet_id c;
                    FBO_Oborachivaemost.sheet_name c ]) /\
  (forall c,
     OzonAnalyticsStocks.init lines = Return c ->
     Forall clean [ OzonAnalyticsStocks.client_id c;
                    OzonAnalyticsStocks.api_key c;
                    OzonAnalyticsStocks.spreadsheet_id c;
                    OzonAnalyticsStocks.sheet_name c ]) /\
  (forall client_id api_key spreadsheet_id sheet_name,
     Price_logistic.read_api_credentials lines
     = Return (client_id, api_key, spreadsheet_id, sheet_name) ->
     Forall clean [client_id; api_key; spreadsheet_id; sheet_name]) /\
  (forall client_id api_key sheet_id sheet_name,
     Stock_FBO_FBS.read_api_credentials lines
     = Return (client_id, api_key, sheet_id, sheet_name) ->
     Forall (fun field => Py.strip field = field)
       [client_id; api_key; sheet_id; sheet_name]) /\
  (forall c,
     Analytics_base.read_api_config lines = Return c ->
     Forall (fun field => Py.strip field = field)
       [ Analytics_base.client_id c; Analytics_base.api_key c;
         Analytics_base.spreadsheet_id c; Analytics_base.sheet_name c ]).
Proof.
  pose proof (stripped_lines_clean lines) as Hclean.
  unfold Product_offer_id.read_api_credentials,
    FBO_Oborachivaemost.read_api_credentials, OzonAnalyticsStocks.init,
    Price_logistic.read_api_credentials, Stock_FBO_FBS.read_api_credentials,
    Analytics_base.read_api_config.
  fold nonblank.
  split_and!.
  - intros ? ? ? ?.
    destruct (Py.strip <$> filter nonblank lines)
      as [|l0 [|l1 [|l2 [|l3 rest]]]]; try discriminate.
    intros [= <- <- <- <-].
    four_fields Hclean.
  - intros c.
    destruct (Py.strip <$> filter nonblank lines)
      as [|l0 [|l1 [|l2 [|l3 rest]]]]; try discriminate.
    intros [= <-]. cbn.
    four_fields Hclean.
  - intros c.
    destruct (Py.strip <$> filter nonblank lines)
      as [|l0 [|l1 [|l2 [|l3 rest]]]]; try discriminate.
    intros [= <-]. cbn.
    four_fields Hclean.
  - intros ? ? ? ?.
    destruct (Py.strip <$> filter nonblank lines)
      as [|l0 [|l1 [|l2 [|l3 rest]]]]; try discriminate.
    intros [= <- <- <- <-].
    four_fields Hclean.
  - intros ? ? ? ?. clear Hclean.
    destruct lines as [|l0 [|l1 [|l2 [|l3 rest]]]]; try discriminate.
    intros [= <- <- <- <-].
    repeat (constructor; [apply strip_idemp|]); constructor.
  - intros c. clear Hclean. rewrite length_fmap.
    destruct (length lines <? 4)%nat; [discriminate|].
    destruct lines as [|l0 [|l1 [|l2 [|l3 rest]]]]; try discriminate.
    cbn [fmap list_fmap]. intros [= <-]. cbn.
    repeat (constructor; [apply strip_idemp|]); constructor.
Qed.

Lemma credentials_clean_witness :
  Price_logistic.read_api_credentials padded_file
  = Return ("1", "k", "b", "s") /\
  Forall clean ["1"; "k"; "b"; "s"].
Proof.
  split; [vm_compute; reflexivity|].
  destruct (credentials_clean padded_file) as (_ & _ & _ & Hprice & _).
  apply Hprice. vm_compute. reflexivity.
Defined.
End Clean.

Section Padded.
Import Analytics_base UpdateSpec SkuSpec.
Context `{PyFloat}.

Lemma last_keyed_key k (l : list item) it :
  last_keyed k l = Some it -> key_of it = k.
Proof.
  induction l as [|x l IH]; [done|]. cbn [last_keyed].
  destruct (last_keyed k l) as [found|]; [intros [= ->]; by apply IH|].
  destruct (Py.truthy (Py.get x "sku")); [|done]. cbn [andb].
  case_bool_decide; [|done]. by intros [= <-].
Qed.

(** X21.  The keys of [sku_data] are stripped, the keys of [sku_to_row] are
    the cells as they stand: a SKU cell with whitespace around it is never
    found in the fetched data, and its row is sent five blank cells,
    whatever the API answered. *)
Theorem padded_sku_blank (all_items : list item) (sku : string) (row : nat) :
  Py.strip sku <> sku ->
  sku_data all_items !! sku = None /\
  update_for (sku_data all_items) sku row
  = {| range := range_of row; values := [replicate 5 (VStr "")] |}.
Proof.
  intros Hpad.
  assert (sku_data all_items !! sku = None) as Hnone.
  { unfold sku_data. rewrite sku_data_from, lookup_empty.
    destruct (last_keyed sku all_items) as [it|] eqn:Hlast; [|done].
    apply last_keyed_key in Hlast. exfalso. apply Hpad.
    rewrite <- Hlast. unfold key_of. apply strip_idemp. }
  split; [done|]. unfold update_for. by rewrite Hnone.
Qed.
End Padded.

Module PaddedAtInput.
Import Analytics_base.
#[local] Existing Instance QFloat.instance.

Lemma padded_sku_blank_witness :
  Py.strip " 11" <> " 11" /\
  sku_data [list_to_map [("sku", VInt 11); ("gmv", VInt 7)]] !! " 11"
  = None /\
  update_for (sku_data [list_to_map [("sku", VInt 11); ("gmv", VInt 7)]])
    " 11" 5
  = {| range := UpdateSpec.range_of 5;
       values := [replicate 5 (VStr "")] |}.
Proof.
  split; [vm_compute; discriminate|].
  apply (padded_sku_blank
           [list_to_map [("sku", VInt 11); ("gmv", VInt 7)]] " 11" 5).
  vm_compute. discriminate.
Defined.

(** The same item is found under the stripped cell. *)
Example stripped_sku_found :
  sku_data [list_to_map [("sku", VInt 11); ("gmv", VInt 7)]] !! "11"
  = Some (list_to_map [("sku", VInt 11); ("gmv", VInt 7)]).
Proof. vm_compute. reflexivity. Qed.
End PaddedAtInput.

(** ** The turnover sheet (005) *)
Section Turnover.
Import FBO_Oborachivaemost TurnoverMore.
Context `{PyFloat}.

Lemma row_data_well_formed found row :
  row_data found = Some row -> well_formed row.
Proof.
  unfold row_data, well_formed.
  destruct found as [it|].
  2:{ intros [= <-]. eexists _, _, _. split; [done|]. split; by left. }
  destruct (Py.truthy (VDict it)).
  2:{ intros [= <-]. eexists _, _, _. split; [done|]. split; by left. }
  destruct (is_int_or_float (Py.get it "idc")).
  - destruct (math_ceil (Py.get it "idc")) as [z|]; [|done].
    cbn [fmap option_fmap option_map mbind option_bind].
    destruct (Py.hashable (Py.get_or it "turnover_grade" (VStr "")));
      [|done].
    cbn [mbind option_bind]. intros [= <-]. eexists _, _, _.
    split; [done|]. split; [right; by eexists|].
    destruct (Py.get_or it "turnover_grade" (VStr "")) as [| | | |g| |];
      try by left.
    destruct (TURNOVER_GRADE_TRANSLATION !! g) as [t|] eqn:Hg; [|by left].
    right. by exists g.
  - cbn [mbind option_bind].
    destruct (Py.hashable (Py.get_or it "turnover_grade" (VStr "")));
      [|done].
    cbn [mbind option_bind]. intros [= <-]. eexists _, _, _.
    split; [done|]. split; [by left|].
    destruct (Py.get_or it "turnover_grade" (VStr "")) as [| | | |g| |];
      try by left.
    destruct (TURNOVER_GRADE_TRANSLATION !! g) as [t|] eqn:Hg; [|by left].
    right. by exists g.
Qed.

Lemma find_none (f : item -> bool) (items : list item) :
  Forall (fun it => f it = false) items -> List.find f items = None.
Proof.
  induction 1 as [|it items Hit _ IH]; [done|]. cbn. by rewrite Hit.
Qed.

(** X22.  [update_google_sheets] builds one row per cell of column D, in the
    order of the cells: the row of the first item whose [offer_id] is the
    stripped cell.  Each row has three cells: the item's [ads], a whole
    number or a blank, and the translation of a grade or a blank.  A
    cell that no item matches gets three blanks. *)
Theorem turnover_rows items offer_ids rows :
  update_google_sheets items offer_ids = Some rows ->
  aligned (fun offer_id row =>
             row_data (List.find (offer_id_is (Py.strip offer_id)) items)
             = Some row) offer_ids rows /\
  Forall well_formed rows /\
  (forall n offer_id,
     offer_ids !! n = Some offer_id ->
     Forall (fun it => offer_id_is (Py.strip offer_id) it = false) items ->
     rows !! n = Some blank).
Proof.
  rewrite update_google_sheets_mapM. intros Hrows.
  apply mapM_Some in Hrows.
  pose proof (Forall2_aligned _ _ _ Hrows) as Haligned.
  split_and!; [exact Haligned| |].
  - apply Forall_forall. intros row Hrow.
    apply list_elem_of_lookup in Hrow as [n Hn].
    destruct (Forall2_lookup_r _ _ _ _ _ Hrows Hn) as (offer_id & _ & Hrow).
    by eapply row_data_well_formed.
  - intros n offer_id Hn Hnone.
    destruct Haligned as [_ Hrow].
    destruct (Hrow n offer_id Hn) as (row & -> & Hdata).
    rewrite (find_none _ _ Hnone) in Hdata. by injection Hdata as <-.
Qed.

(** X23.  Once the rows are built, [update_google_sheets] clears
    AJ5:AL[5+n] and writes the [n] rows into AJ5:AL[4+n], [n] being the
    number of cells of column D: the row after the last one written is
    cleared too. *)
Theorem turnover_calls items offer_ids calls :
  update_google_sheets_calls items offer_ids = Some calls ->
  exists rows,
    update_google_sheets items offer_ids = Some rows /\
    length rows = length offer_ids /\
    calls = [ BatchClear ["AJ5:AL" +:+ pretty (5 + length offer_ids)%nat];
              Update ("AJ5:AL" +:+ pretty (4 + length offer_ids)%nat)
                rows ].
Proof.
  unfold update_google_sheets_calls.
  destruct (update_google_sheets items offer_ids) as [rows|] eqn:Hrows;
    [|done].
  cbn [mbind option_bind]. intros [= <-]. exists rows.
  assert (length rows = length offer_ids) as Hlen.
  { rewrite update_google_sheets_mapM in Hrows. apply mapM_Some in Hrows.
    symmetry. by eapply Forall2_length. }
  split_and!; [done..|]. rewrite Hlen. reflexivity.
Qed.
End Turnover.

Module TurnoverAtInput.
Import FBO_Oborachivaemost TurnoverMore.
#[local] Existing Instance QFloat.instance.

Lemma turnover_rows_witness :
  update_google_sheets [TurnoverSpec.first_offer; graded] [" B "; "C"]
  = Some [[VInt 3; VInt 3; VStr "хороший"]; blank] /\
  [[VInt 3; VInt 3; VStr "хороший"]; blank] !! 1%nat = Some blank /\
  Forall well_formed [[VInt 3; VInt 3; VStr "хороший"]; blank].
Proof.
  assert (update_google_sheets [TurnoverSpec.first_offer; graded]
            [" B "; "C"]
          = Some [[VInt 3; VInt 3; VStr "хороший"]; blank]) as Hrows
    by (vm_compute; reflexivity).
  destruct (turnover_rows _ _ _ Hrows) as (_ & Hshape & Hblank).
  split_and!; [exact Hrows| |exact Hshape].
  apply (Hblank 1%nat "C"); [reflexivity|].
  repeat constructor.
Defined.

Lemma turnover_calls_witness :
  update_google_sheets_calls [TurnoverSpec.first_offer; graded]
    [" B "; "C"]
  = Some [ BatchClear ["AJ5:AL7"];
           Update "AJ5:AL6" [[VInt 3; VInt 3; VStr "хороший"]; blank] ] /\
  exists rows,
    update_google_sheets [TurnoverSpec.first_offer; graded] [" B "; "C"]
    = Some rows /\
    length rows = 2%nat /\
    [ BatchClear ["AJ5:AL7"];
      Update "AJ5:AL6" [[VInt 3; VInt 3; VStr "хороший"]; blank] ]
    = [ BatchClear ["AJ5:AL" +:+ pretty (5 + 2)%nat];
        Update ("AJ5:AL" +:+ pretty (4 + 2)%nat) rows ].
Proof.
  assert (update_google_sheets_calls [TurnoverSpec.first_offer; graded]
            [" B "; "C"]
          = Some [ BatchClear ["AJ5:AL7"];
                   Update "AJ5:AL6"
                     [[VInt 3; VInt 3; VStr "хороший"]; blank] ]) as Hcalls
    by (vm_compute; reflexivity).
  split; [exact Hcalls|].
  exact (turnover_calls _ _ _ Hcalls).
Defined.
End TurnoverAtInput.
